(** * ar_tag_based_localizer: the pose-fusion and gating pipeline

    A shallow embedding of
    [localization/landmark_based_localizer/ar_tag_based_localizer/src/ar_tag_based_localizer.cpp]
    and of the properties its specification states about it.

    Modelling conventions.
    - A C++ [double] is a real number ([R]): arithmetic is exact, there is no
      rounding, no infinity and no NaN.  [std::pow(x, 2)] is [x ^ 2],
      [std::sqrt] is [sqrt], [std::max] is [std_max].
    - An integer of fixed width is an integer ([Z]) in its range; a cast that
      narrows it ([static_cast<int>] of a [uint32_t]) wraps around modulo
      2^32.
    - A [builtin_interfaces::msg::Time] is a pair of integers; [rclcpp::Time]
      turns it into nanoseconds, [rclcpp::Duration::seconds] into seconds.
      ROS time points have a non-negative [sec] field.
    - The node is a record of its member variables.  Member functions run in
      the monad [M]: they read and write the node, append to the list of
      externally visible effects (log lines, published messages) and may hit
      undefined behaviour (an out-of-range [operator[]]), after which nothing
      is known of the run.
    - A pose or transform message holds any four numbers as its quaternion;
      it is an orientation when the quaternion has norm one
      ([unit_quaternion]).
    - The marker detector, the image decoder, the map parser and the tf
      listener are external: what they deliver is part of the incoming event. *)

From Stdlib Require Import Reals Lra Psatz ZArith.
From stdpp Require Import base option list strings gmap pretty.

Open Scope R_scope.

(** * Part I: the program *)

(** ** Messages *)

(** [builtin_interfaces::msg::Time] *)
Record Time := mkTime { sec : Z; nanosec : Z }.

(** [std_msgs::msg::Header] *)
Record Header := mkHeader { stamp : Time; frame_id : string }.

(** [geometry_msgs::msg::Point] *)
Record Point := mkPoint { p_x : R; p_y : R; p_z : R }.

(** [geometry_msgs::msg::Quaternion] *)
Record Quaternion := mkQuaternion { q_x : R; q_y : R; q_z : R; q_w : R }.

(** [geometry_msgs::msg::Pose] *)
Record Pose := mkPose { position : Point; orientation : Quaternion }.

(** [geometry_msgs::msg::PoseStamped] *)
Record PoseStamped := mkPoseStamped { ps_header : Header; ps_pose : Pose }.

(** [geometry_msgs::msg::PoseWithCovariance]; [covariance] is a
    [std::array<double, 36>]. *)
Record PoseWithCovariance :=
  mkPoseWithCovariance { pose : Pose; covariance : list R }.

(** [geometry_msgs::msg::PoseWithCovarianceStamped] *)
Record PoseWithCovarianceStamped :=
  mkPoseWithCovarianceStamped { header : Header; pose_cov : PoseWithCovariance }.

(** [geometry_msgs::msg::Transform]: a translation and a rotation. *)
Record Transform := mkTransform { tf_translation : Point; tf_rotation : Quaternion }.

(** [geometry_msgs::msg::TransformStamped] *)
Record TransformStamped :=
  mkTransformStamped { ts_header : Header; child_frame_id : string; transform : Transform }.

(** The value of a default-constructed message: all numbers zero, the unit
    quaternion, empty strings, a zero-filled covariance array. *)
Definition Time_default : Time := mkTime 0 0.
Definition Header_default : Header := mkHeader Time_default "".
Definition Point_default : Point := mkPoint 0 0 0.
Definition Quaternion_default : Quaternion := mkQuaternion 0 0 0 1.
Definition Pose_default : Pose := mkPose Point_default Quaternion_default.
Definition PoseWithCovarianceStamped_default : PoseWithCovarianceStamped :=
  mkPoseWithCovarianceStamped Header_default
    (mkPoseWithCovariance Pose_default (replicate 36 0)).

(** ** Time *)

(** [rclcpp::Time(msg).nanoseconds()] *)
Definition rclcpp_Time (t : Time) : Z := (sec t * 1000000000 + nanosec t)%Z.

(** [rclcpp::Time - rclcpp::Time]: a [rclcpp::Duration], in nanoseconds. *)
Definition Time_minus (a b : Z) : Z := (a - b)%Z.

(** [rclcpp::Duration::seconds()] *)
Definition seconds (d : Z) : R := IZR d / 1000000000.

(** ** Rigid transforms (Eigen) *)

Record Vector3d := mkVector3d { v_x : R; v_y : R; v_z : R }.

Record Matrix3d := mkMatrix3d {
  m00 : R; m01 : R; m02 : R;
  m10 : R; m11 : R; m12 : R;
  m20 : R; m21 : R; m22 : R }.

(** [Eigen::Affine3d]: the linear part and the translation of a 4x4 matrix
    whose last row is (0, 0, 0, 1). *)
Record Affine3d := mkAffine3d { linear : Matrix3d; translation : Vector3d }.

Definition Matrix3d_Identity : Matrix3d := mkMatrix3d 1 0 0 0 1 0 0 0 1.

Definition Affine3d_Identity : Affine3d :=
  mkAffine3d Matrix3d_Identity (mkVector3d 0 0 0).

Definition coeff (m : Matrix3d) (i j : nat) : R :=
  match i, j with
  | 0%nat, 0%nat => m00 m | 0%nat, 1%nat => m01 m | 0%nat, _ => m02 m
  | 1%nat, 0%nat => m10 m | 1%nat, 1%nat => m11 m | 1%nat, _ => m12 m
  | _, 0%nat => m20 m | _, 1%nat => m21 m | _, _ => m22 m
  end.

Definition mat_mul (a b : Matrix3d) : Matrix3d :=
  mkMatrix3d
    (m00 a * m00 b + m01 a * m10 b + m02 a * m20 b)
    (m00 a * m01 b + m01 a * m11 b + m02 a * m21 b)
    (m00 a * m02 b + m01 a * m12 b + m02 a * m22 b)
    (m10 a * m00 b + m11 a * m10 b + m12 a * m20 b)
    (m10 a * m01 b + m11 a * m11 b + m12 a * m21 b)
    (m10 a * m02 b + m11 a * m12 b + m12 a * m22 b)
    (m20 a * m00 b + m21 a * m10 b + m22 a * m20 b)
    (m20 a * m01 b + m21 a * m11 b + m22 a * m21 b)
    (m20 a * m02 b + m21 a * m12 b + m22 a * m22 b).

Definition mat_vec (a : Matrix3d) (v : Vector3d) : Vector3d :=
  mkVector3d
    (m00 a * v_x v + m01 a * v_y v + m02 a * v_z v)
    (m10 a * v_x v + m11 a * v_y v + m12 a * v_z v)
    (m20 a * v_x v + m21 a * v_y v + m22 a * v_z v).

Definition vec_add (u v : Vector3d) : Vector3d :=
  mkVector3d (v_x u + v_x v) (v_y u + v_y v) (v_z u + v_z v).

Definition vec_opp (v : Vector3d) : Vector3d :=
  mkVector3d (- v_x v) (- v_y v) (- v_z v).

Definition determinant (a : Matrix3d) : R :=
  m00 a * (m11 a * m22 a - m12 a * m21 a)
  - m01 a * (m10 a * m22 a - m12 a * m20 a)
  + m02 a * (m10 a * m21 a - m11 a * m20 a).

(** [Matrix3d::inverse()]: the cofactors over the determinant. *)
Definition mat_inverse (a : Matrix3d) : Matrix3d :=
  let invdet := / determinant a in
  mkMatrix3d
    ((m11 a * m22 a - m12 a * m21 a) * invdet)
    ((m02 a * m21 a - m01 a * m22 a) * invdet)
    ((m01 a * m12 a - m02 a * m11 a) * invdet)
    ((m12 a * m20 a - m10 a * m22 a) * invdet)
    ((m00 a * m22 a - m02 a * m20 a) * invdet)
    ((m02 a * m10 a - m00 a * m12 a) * invdet)
    ((m10 a * m21 a - m11 a * m20 a) * invdet)
    ((m01 a * m20 a - m00 a * m21 a) * invdet)
    ((m00 a * m11 a - m01 a * m10 a) * invdet).

(** [Affine3d::operator*]: "apply [b], then [a]". *)
Definition affine_mul (a b : Affine3d) : Affine3d :=
  mkAffine3d (mat_mul (linear a) (linear b))
             (vec_add (mat_vec (linear a) (translation b)) (translation a)).

(** [Affine3d::inverse()]: the inverse of the linear part, and the opposite
    of the translation seen through it. *)
Definition affine_inverse (a : Affine3d) : Affine3d :=
  let l := mat_inverse (linear a) in
  mkAffine3d l (vec_opp (mat_vec l (translation a))).

(** [Eigen::Quaterniond(w, x, y, z).toRotationMatrix()] *)
Definition toRotationMatrix (q : Quaternion) : Matrix3d :=
  let tx := 2 * q_x q in
  let ty := 2 * q_y q in
  let tz := 2 * q_z q in
  let twx := tx * q_w q in
  let twy := ty * q_w q in
  let twz := tz * q_w q in
  let txx := tx * q_x q in
  let txy := ty * q_x q in
  let txz := tz * q_x q in
  let tyy := ty * q_y q in
  let tyz := tz * q_y q in
  let tzz := tz * q_z q in
  mkMatrix3d
    (1 - (tyy + tzz)) (txy - twz) (txz + twy)
    (txy + twz) (1 - (txx + tzz)) (tyz - twx)
    (txz - twy) (tyz + twx) (1 - (txx + tyy)).

(** The coefficients of a quaternion in Eigen's order x, y, z. *)
Definition set_coeff (q : Quaternion) (i : nat) (v : R) : Quaternion :=
  match i with
  | 0%nat => mkQuaternion v (q_y q) (q_z q) (q_w q)
  | 1%nat => mkQuaternion (q_x q) v (q_z q) (q_w q)
  | _ => mkQuaternion (q_x q) (q_y q) v (q_w q)
  end.

Definition set_w (q : Quaternion) (v : R) : Quaternion :=
  mkQuaternion (q_x q) (q_y q) (q_z q) v.

(** [Eigen::Quaterniond(const Matrix3d &)]: the quaternion of a rotation
    matrix, branching on the trace and on the largest diagonal entry. *)
Definition Quaterniond_of_matrix (a : Matrix3d) : Quaternion :=
  let t := m00 a + m11 a + m22 a in
  if Rgt_dec t 0 then
    let t := sqrt (t + 1) in
    let w := 0.5 * t in
    let t := 0.5 / t in
    mkQuaternion ((m21 a - m12 a) * t) ((m02 a - m20 a) * t) ((m10 a - m01 a) * t) w
  else
    let i := 0%nat in
    let i := if Rgt_dec (m11 a) (m00 a) then 1%nat else i in
    let i := if Rgt_dec (m22 a) (coeff a i i) then 2%nat else i in
    let j := ((i + 1) mod 3)%nat in
    let k := ((j + 1) mod 3)%nat in
    let t := sqrt (coeff a i i - coeff a j j - coeff a k k + 1) in
    let q := set_coeff Quaternion_default i (0.5 * t) in
    let t := 0.5 / t in
    let q := set_w q ((coeff a k j - coeff a j k) * t) in
    let q := set_coeff q j ((coeff a j i + coeff a i j) * t) in
    set_coeff q k ((coeff a k i + coeff a i k) * t).

(** [tf2::fromMsg(const Pose &, Eigen::Affine3d &)]:
    [Translation3d(position) * Quaterniond(orientation)]. *)
Definition fromMsg (p : Pose) : Affine3d :=
  mkAffine3d (toRotationMatrix (orientation p))
             (mkVector3d (p_x (position p)) (p_y (position p)) (p_z (position p))).

(** The opposite quaternion, which stands for the same rotation. *)
Definition quat_opp (q : Quaternion) : Quaternion :=
  mkQuaternion (- q_x q) (- q_y q) (- q_z q) (- q_w q).

(** [tf2::toMsg(const Eigen::Affine3d &)]: the translation, and the
    quaternion of the linear part with its sign chosen so that [w] is not
    negative. *)
Definition toMsg (a : Affine3d) : Pose :=
  let q := Quaterniond_of_matrix (linear a) in
  mkPose (mkPoint (v_x (translation a)) (v_y (translation a)) (v_z (translation a)))
         (if Rlt_dec (q_w q) 0 then quat_opp q else q).

(** [tf2::transformToEigen]: the rigid transform of a [Transform] message. *)
Definition transformToEigen (t : Transform) : Affine3d :=
  fromMsg (mkPose (tf_translation t) (tf_rotation t)).

(** [tf2::doTransform(const PoseStamped &, PoseStamped &, const
    TransformStamped &)]: the pose seen through the transform, stamped with
    the transform's header.  The conversions between quaternions and
    rotation matrices inside the library are modelled by those above. *)
Definition doTransform (t_in : PoseStamped) (tr : TransformStamped) : PoseStamped :=
  mkPoseStamped (ts_header tr)
    (toMsg (affine_mul (transformToEigen (transform tr)) (fromMsg (ps_pose t_in)))).

(** ** localization_util *)

(** Modelled from the spec: [pose_to_affine3d] of
    [localization_util/util_func.hpp] is not part of the sources at hand; it
    is the utility that turns a pose (translation and orientation) into a
    composable rigid transform. *)
Definition pose_to_affine3d (ros_pose : Pose) : Affine3d := fromMsg ros_pose.

(** Modelled from the spec: [norm] of [localization_util/util_func.hpp] is
    not part of the sources at hand; it is the Euclidean distance between two
    positions. *)
Definition norm (p1 p2 : Point) : R :=
  sqrt ((p_x p1 - p_x p2) ^ 2 + (p_y p1 - p_y p2) ^ 2 + (p_z p1 - p_z p2) ^ 2).

(** [std::max(a, b)]: [(a < b) ? b : a]. *)
Definition std_max (a b : R) : R := if Rlt_dec a b then b else a.

(** ** The node *)

(** [aruco::DetectionMode] *)
Inductive DetectionMode := DM_NORMAL | DM_FAST | DM_VIDEO_FAST.

(** [aruco::CameraParameters]: the 3x4 projection matrix (row-major), the
    distortion coefficients and the image size. *)
Record CameraParameters := mkCameraParameters {
  camera_matrix : list R; distortion_coeff : list R; cam_width : Z; cam_height : Z }.

Definition CameraParameters_default : CameraParameters :=
  mkCameraParameters [] [] (-1) (-1).

(** The exceptions of [tf2_ros::Buffer::lookupTransform]; every one of them
    derives from [tf2::TransformException]. *)
Inductive TransformException :=
| LookupException | ConnectivityException | ExtrapolationException
| InvalidArgumentException | TimeoutException.

(** What a [tf2_ros::Buffer] answers to
    [lookupTransform(target_frame, source_frame, tf2::TimePointZero)]: the
    latest available transform, or an exception. *)
Definition Buffer : Type := string → string → TransformStamped + TransformException.

(** A freshly made buffer knows no frame. *)
Definition Buffer_empty : Buffer := λ _ _, inr LookupException.

(** The member variables of [ArTagBasedLocalizer].  A subscription handle is
    [true] once created.  The tf buffer and the publishers are created by
    [setup] before the subscriptions, so they exist whenever a callback runs;
    of the buffer the model keeps the content. *)
Record Node := mkNode {
  marker_size_ : R;
  target_tag_ids_ : list string;
  base_covariance_ : list R;
  distance_threshold_squared_ : R;
  ekf_time_tolerance_ : R;
  ekf_position_tolerance_ : R;
  detector_ : DetectionMode * R;
  tf_buffer_ : Buffer;
  tf_listener_ : bool;
  map_bin_sub_ : bool;
  image_sub_ : bool;
  cam_info_sub_ : bool;
  ekf_pose_sub_ : bool;
  landmark_map_ : gmap string Pose;
  latest_ekf_pose_ : PoseWithCovarianceStamped;
  cam_info_received_ : bool;
  cam_param_ : CameraParameters }.

(** [RCLCPP_*] log lines, by what they report. *)
Inductive LogLine :=
| InvalidDetectionMode (detection_mode : string)
| ParameterInfo
| SetupSuccessful
| NoSubscribers
| NoCamInfo
| CvBridgeException
| NotInTargetTagIds (tag_id : string)
| NotInLandmarkMap (tag_id : string)
| CouldNotTransform (ex : TransformException)
| EkfPoseOlder (tolerance : R) (ekf_stamp : Time) (tag_stamp : Time)
| PoseDiffers (tolerance : R) (curr_pose : Point) (latest_ekf_pose : Point).

Inductive Severity := DEBUG | INFO | ERROR.

(** [diagnostic_msgs::msg::DiagnosticStatus] levels *)
Inductive DiagLevel := DIAG_OK | DIAG_WARN.

(** What a member function does to the outside world. *)
Inductive Effect :=
| Log (s : Severity) (l : LogLine)
| PublishPose (msg : PoseWithCovarianceStamped)
| PublishMarkerArray (landmarks : gmap string Pose)
| SendTransform (t : TransformStamped)
| PublishImage (stamp : Time)
| PublishDiagnostics (now : Time) (level : DiagLevel) (detected_tags : Z).

(** The result of running a member function: it returns a value, leaves the
    node in some state and has produced some effects, or it does not return
    normally (undefined behaviour or an uncaught exception) and nothing is
    known of its effects. *)
Inductive Result (A : Type) : Type :=
| Ok (a : A) (n : Node) (out : list Effect)
| Fault.
Arguments Ok {A} a n out.
Arguments Fault {A}.

Definition M (A : Type) : Type := Node → Result A.

#[global] Instance M_ret : MRet M := λ A a n, Ok a n [].

#[global] Instance M_bind : MBind M := λ A B f m n,
  match m n with
  | Ok a n' out =>
      match f a n' with
      | Ok b n'' out' => Ok b n'' (out ++ out')
      | Fault => Fault
      end
  | Fault => Fault
  end.

Definition get : M Node := λ n, Ok n n [].
Definition put (n : Node) : M unit := λ _, Ok tt n [].
Definition emit (e : Effect) : M unit := λ n, Ok tt n [e].
Definition fault {A : Type} : M A := λ _, Fault.

(** The effects of a run; none when it faults. *)
Definition effects {A : Type} (r : Result A) : list Effect :=
  match r with Ok _ _ out => out | Fault => [] end.

Definition is_PublishPose (e : Effect) : bool :=
  match e with PublishPose _ => true | _ => false end.

(** The run published no pose. *)
Definition no_pose {A : Type} (r : Result A) : Prop :=
  filter (λ e, is_PublishPose e = true) (effects r) = [].

(** Assignments to member variables. *)
Definition set_landmark_map_ (v : gmap string Pose) (n : Node) : Node :=
  mkNode (marker_size_ n) (target_tag_ids_ n) (base_covariance_ n)
    (distance_threshold_squared_ n) (ekf_time_tolerance_ n) (ekf_position_tolerance_ n)
    (detector_ n) (tf_buffer_ n) (tf_listener_ n)
    (map_bin_sub_ n) (image_sub_ n) (cam_info_sub_ n)
    (ekf_pose_sub_ n) v (latest_ekf_pose_ n) (cam_info_received_ n)
    (cam_param_ n).

Definition set_latest_ekf_pose_ (v : PoseWithCovarianceStamped) (n : Node) : Node :=
  mkNode (marker_size_ n) (target_tag_ids_ n) (base_covariance_ n)
    (distance_threshold_squared_ n) (ekf_time_tolerance_ n) (ekf_position_tolerance_ n)
    (detector_ n) (tf_buffer_ n) (tf_listener_ n)
    (map_bin_sub_ n) (image_sub_ n) (cam_info_sub_ n)
    (ekf_pose_sub_ n) (landmark_map_ n) v (cam_info_received_ n)
    (cam_param_ n).

Definition set_cam_param_ (v : CameraParameters) (n : Node) : Node :=
  mkNode (marker_size_ n) (target_tag_ids_ n) (base_covariance_ n)
    (distance_threshold_squared_ n) (ekf_time_tolerance_ n) (ekf_position_tolerance_ n)
    (detector_ n) (tf_buffer_ n) (tf_listener_ n)
    (map_bin_sub_ n) (image_sub_ n) (cam_info_sub_ n)
    (ekf_pose_sub_ n) (landmark_map_ n) (latest_ekf_pose_ n) (cam_info_received_ n) v.

Definition set_cam_info_received_ (v : bool) (n : Node) : Node :=
  mkNode (marker_size_ n) (target_tag_ids_ n) (base_covariance_ n)
    (distance_threshold_squared_ n) (ekf_time_tolerance_ n) (ekf_position_tolerance_ n)
    (detector_ n) (tf_buffer_ n) (tf_listener_ n)
    (map_bin_sub_ n) (image_sub_ n) (cam_info_sub_ n)
    (ekf_pose_sub_ n) (landmark_map_ n) (latest_ekf_pose_ n) v (cam_param_ n).

Definition set_tf_buffer_ (v : Buffer) (n : Node) : Node :=
  mkNode (marker_size_ n) (target_tag_ids_ n) (base_covariance_ n)
    (distance_threshold_squared_ n) (ekf_time_tolerance_ n) (ekf_position_tolerance_ n)
    (detector_ n) v (tf_listener_ n)
    (map_bin_sub_ n) (image_sub_ n) (cam_info_sub_ n)
    (ekf_pose_sub_ n) (landmark_map_ n) (latest_ekf_pose_ n)
    (cam_info_received_ n) (cam_param_ n).

(** The node parameters that [setup] declares. *)
Record Parameters := mkParameters {
  marker_size : R;
  target_tag_ids : list string;
  base_covariance : list R;
  distance_threshold : R;
  ekf_time_tolerance : R;
  ekf_position_tolerance : R;
  detection_mode : string;
  min_marker_size : R }.

(** The constructor: [cam_info_received_(false)]; containers are empty, no
    subscription exists, messages are default-constructed.  The numeric
    members are not initialised by the constructor and are assigned by
    [setup] before any callback can read them; the model starts them at
    zero. *)
Definition ArTagBasedLocalizer : Node :=
  mkNode 0 [] [] 0 0 0 (DM_NORMAL, 0) Buffer_empty false false false false false
    ∅ PoseWithCovarianceStamped_default false CameraParameters_default.

(** The assignments at the head of [setup], up to the detection mode. *)
Definition declare_parameters (p : Parameters) (n : Node) : Node :=
  mkNode (marker_size p) (target_tag_ids p) (base_covariance p)
    (distance_threshold p ^ 2) (ekf_time_tolerance p) (ekf_position_tolerance p)
    (detector_ n) (tf_buffer_ n) (tf_listener_ n)
    (map_bin_sub_ n) (image_sub_ n) (cam_info_sub_ n)
    (ekf_pose_sub_ n) (landmark_map_ n) (latest_ekf_pose_ n)
    (cam_info_received_ n) (cam_param_ n).

Definition setDetectionMode (dm : DetectionMode) (min_size : R) (n : Node) : Node :=
  mkNode (marker_size_ n) (target_tag_ids_ n) (base_covariance_ n)
    (distance_threshold_squared_ n) (ekf_time_tolerance_ n) (ekf_position_tolerance_ n)
    (dm, min_size) (tf_buffer_ n) (tf_listener_ n)
    (map_bin_sub_ n) (image_sub_ n) (cam_info_sub_ n)
    (ekf_pose_sub_ n) (landmark_map_ n) (latest_ekf_pose_ n)
    (cam_info_received_ n) (cam_param_ n).

(** The tail of [setup]: a new tf buffer and its listener, the four
    subscriptions (and the publishers). *)
Definition create_handles (n : Node) : Node :=
  mkNode (marker_size_ n) (target_tag_ids_ n) (base_covariance_ n)
    (distance_threshold_squared_ n) (ekf_time_tolerance_ n) (ekf_position_tolerance_ n)
    (detector_ n) Buffer_empty true true true true true
    (landmark_map_ n) (latest_ekf_pose_ n) (cam_info_received_ n) (cam_param_ n).

(** [ArTagBasedLocalizer::setup] *)
Definition setup (p : Parameters) : M bool :=
  n ← get;
  put (declare_parameters p n);;
  match
    (if decide (detection_mode p = "DM_NORMAL") then Some DM_NORMAL
     else if decide (detection_mode p = "DM_FAST") then Some DM_FAST
     else if decide (detection_mode p = "DM_VIDEO_FAST") then Some DM_VIDEO_FAST
     else None)
  with
  | None =>
      emit (Log ERROR (InvalidDetectionMode (detection_mode p)));;
      mret false
  | Some dm =>
      n ← get;
      put (setDetectionMode dm (min_marker_size p) n);;
      emit (Log INFO ParameterInfo);;
      n ← get;
      put (create_handles n);;
      emit (Log INFO SetupSuccessful);;
      mret true
  end.

(** [ArTagBasedLocalizer::map_bin_callback]; [landmarks] is what
    [parse_landmark] reads in the map message. *)
Definition map_bin_callback (landmarks : gmap string Pose) : M unit :=
  n ← get;
  put (set_landmark_map_ landmarks n);;
  emit (PublishMarkerArray landmarks).

(** [sensor_msgs::msg::CameraInfo], as far as the node reads it: the
    projection matrix [p] (twelve doubles) and the [uint32] fields [width]
    and [height], each in [0, 2^32). *)
Record CameraInfo := mkCameraInfo { cam_p : list R; width : Z; height : Z }.

(** [static_cast<int>] of a [uint32_t]: the value modulo 2^32, read as a
    32-bit two's complement integer. *)
Definition static_cast_int (v : Z) : Z :=
  ((v + 2147483648) mod 4294967296 - 2147483648)%Z.

(** [ArTagBasedLocalizer::cam_info_callback] *)
Definition cam_info_callback (msg : CameraInfo) : M unit :=
  n ← get;
  if cam_info_received_ n then mret tt
  else
    let camera_matrix := take 12 (cam_p msg) in
    let distortion_coeff := replicate 4 0 in
    let size := (static_cast_int (width msg), static_cast_int (height msg)) in
    put (set_cam_param_
           (mkCameraParameters camera_matrix distortion_coeff (fst size) (snd size)) n);;
    n ← get;
    put (set_cam_info_received_ true n).

(** [ArTagBasedLocalizer::ekf_pose_callback] *)
Definition ekf_pose_callback (msg : PoseWithCovarianceStamped) : M unit :=
  n ← get;
  put (set_latest_ekf_pose_ msg n).

(** ** Fusing one detection *)

(** The [return] statement that a call of [publish_pose_as_base_link]
    reaches: one per gating check, in the order of the source, and the end of
    the function, after the pose has been published. *)
Inductive Verdict :=
| NotTarget | NotInMap | OutOfRange | NoTransform | StaleEkfPose | FarFromEkfPose
| Published.

(** The loop [for (int i = 0; i < 36; i++) covariance[i] = coeff *
    base_covariance_[i]]; [None] when it reads beyond the end of the
    vector. *)
Definition scale_covariance (coeff : R) (base : list R) : option (list R) :=
  mapM (λ i : nat, b ← base !! i; Some (coeff * b)) (seq 0 36).

(** [ArTagBasedLocalizer::publish_pose_as_base_link] *)
Definition publish_pose_as_base_link
    (sensor_to_tag : PoseStamped) (tag_id : string) : M Verdict :=
  n ← get;
  (* Check tag_id *)
  if decide (tag_id ∉ target_tag_ids_ n) then
    emit (Log INFO (NotInTargetTagIds tag_id));;
    mret NotTarget
  else if decide (landmark_map_ n !! tag_id = None) then
    emit (Log INFO (NotInLandmarkMap tag_id));;
    mret NotInMap
  else
  (* Range filter *)
  let pos := position (ps_pose sensor_to_tag) in
  let distance_squared := p_x pos * p_x pos + p_y pos * p_y pos + p_z pos * p_z pos in
  if Rlt_dec (distance_threshold_squared_ n) distance_squared then
    mret OutOfRange
  else
  (* Transform to base_link *)
  match tf_buffer_ n "base_link" (frame_id (ps_header sensor_to_tag)) with
  | inr ex =>
      emit (Log INFO (CouldNotTransform ex));;
      mret NoTransform
  | inl tr =>
  let base_link_to_tag :=
    mkPoseStamped (mkHeader (stamp (ps_header (doTransform sensor_to_tag tr))) "base_link")
                  (ps_pose (doTransform sensor_to_tag tr)) in
  (* (1) map_to_tag *)
  match landmark_map_ n !! tag_id with
  | None => fault
  | Some map_to_tag =>
  let map_to_tag_affine := pose_to_affine3d map_to_tag in
  (* (2) tag_to_base_link *)
  let base_link_to_tag_affine := pose_to_affine3d (ps_pose base_link_to_tag) in
  let tag_to_base_link_affine := affine_inverse base_link_to_tag_affine in
  (* calculate map_to_base_link *)
  let map_to_base_link_affine := affine_mul map_to_tag_affine tag_to_base_link_affine in
  let map_to_base_link := toMsg map_to_base_link_affine in
  let diff_time :=
    Time_minus (rclcpp_Time (stamp (ps_header sensor_to_tag)))
               (rclcpp_Time (stamp (header (latest_ekf_pose_ n)))) in
  if Rgt_dec (seconds diff_time) (ekf_time_tolerance_ n) then
    emit (Log INFO (EkfPoseOlder (ekf_time_tolerance_ n)
                      (stamp (header (latest_ekf_pose_ n)))
                      (stamp (ps_header sensor_to_tag))));;
    mret StaleEkfPose
  else
  let curr_pose := map_to_base_link in
  let latest_ekf_pose := pose (pose_cov (latest_ekf_pose_ n)) in
  let diff_position := norm (position curr_pose) (position latest_ekf_pose) in
  if Rgt_dec diff_position (ekf_position_tolerance_ n) then
    emit (Log INFO (PoseDiffers (ekf_position_tolerance_ n)
                      (position curr_pose) (position latest_ekf_pose)));;
    mret FarFromEkfPose
  else
  (* Construct output message *)
  let distance := sqrt distance_squared in
  let scale := distance / 5 in
  let coeff := std_max 1 (scale ^ 3) in
  match scale_covariance coeff (base_covariance_ n) with
  | None => fault
  | Some cov =>
      emit (PublishPose
              (mkPoseWithCovarianceStamped
                 (mkHeader (stamp (ps_header sensor_to_tag)) "map")
                 (mkPoseWithCovariance curr_pose cov)));;
      mret Published
  end
  end
  end.

(** ** The image callback and the executor *)

(** [aruco::Marker], as far as the node reads it: the identifier and the
    camera-to-marker pose that [aruco_marker_to_tf2] and [tf2::toMsg] make of
    its rotation and translation vectors. *)
Record Marker := mkMarker { id : Z; cam_to_marker : Pose }.

(** An incoming image together with what the external collaborators make of
    it: whether [cv_bridge::toCvCopy] decodes it, the markers that
    [detector_.detect] finds, the subscriber counts of the two output topics
    and the clock. *)
Record Image := mkImage {
  image_header : Header;
  decodes : bool;
  detected : list Marker;
  image_pub_subscribers : nat;
  pose_pub_subscribers : nat;
  now : Time }.

Fixpoint for_each {A : Type} (body : A → M unit) (l : list A) : M unit :=
  match l with
  | [] => mret tt
  | x :: l' => body x;; for_each body l'
  end.

(** [ArTagBasedLocalizer::image_callback] *)
Definition image_callback (msg : Image) : M unit :=
  n ← get;
  if decide (image_pub_subscribers msg = 0%nat ∧ pose_pub_subscribers msg = 0%nat) then
    emit (Log DEBUG NoSubscribers)
  else if negb (cam_info_received_ n) then
    emit (Log DEBUG NoCamInfo)
  else
  let curr_stamp := stamp (image_header msg) in
  if negb (decodes msg) then
    emit (Log ERROR CvBridgeException)
  else
  for_each (λ marker,
    emit (SendTransform
            (mkTransformStamped
               (mkHeader curr_stamp (frame_id (image_header msg)))
               ("detected_marker_" +:+ pretty (id marker))
               (mkTransform (position (cam_to_marker marker))
                            (orientation (cam_to_marker marker)))));;
    publish_pose_as_base_link
      (mkPoseStamped (mkHeader curr_stamp (frame_id (image_header msg)))
                     (cam_to_marker marker))
      (pretty (id marker));;
    mret tt) (detected msg);;
  (if decide (0 < image_pub_subscribers msg)%nat then emit (PublishImage curr_stamp)
   else mret tt);;
  let detected_tags := Z.of_nat (length (detected msg)) in
  emit (PublishDiagnostics (now msg)
          (if decide (0 < detected_tags)%Z then DIAG_OK else DIAG_WARN) detected_tags).

(** What the outside world delivers to the node. *)
Inductive Incoming :=
| MapBin (landmarks : gmap string Pose)
| ImageIn (msg : Image)
| CameraInfoIn (msg : CameraInfo)
| EkfPoseIn (msg : PoseWithCovarianceStamped)
| TfIn (content : Buffer).

(** The executor: a message runs its callback when the subscription exists;
    the tf listener, when it exists, replaces the content of the buffer. *)
Definition deliver (e : Incoming) : M unit :=
  n ← get;
  match e with
  | MapBin landmarks => if map_bin_sub_ n then map_bin_callback landmarks else mret tt
  | ImageIn msg => if image_sub_ n then image_callback msg else mret tt
  | CameraInfoIn msg => if cam_info_sub_ n then cam_info_callback msg else mret tt
  | EkfPoseIn msg => if ekf_pose_sub_ n then ekf_pose_callback msg else mret tt
  | TfIn content => if tf_listener_ n then put (set_tf_buffer_ content n) else mret tt
  end.

(** [rclcpp::spin]: the incoming events one after the other. *)
Definition spin (events : list Incoming) : M unit := for_each deliver events.

(** ** The quantities that [publish_pose_as_base_link] computes *)

(** [distance_squared]: the squared norm of the detection's translation. *)
Definition distance_squared (sensor_to_tag : PoseStamped) : R :=
  let pos := position (ps_pose sensor_to_tag) in
  p_x pos * p_x pos + p_y pos * p_y pos + p_z pos * p_z pos.

(** [base_link_to_tag.pose]: the detection seen from the body frame. *)
Definition base_link_to_tag (sensor_to_tag : PoseStamped) (tr : TransformStamped) : Pose :=
  ps_pose (doTransform sensor_to_tag tr).

(** [map_to_base_link]: the candidate fused pose. *)
Definition map_to_base_link
    (map_to_tag : Pose) (sensor_to_tag : PoseStamped) (tr : TransformStamped) : Pose :=
  toMsg (affine_mul (pose_to_affine3d map_to_tag)
           (affine_inverse (pose_to_affine3d (base_link_to_tag sensor_to_tag tr)))).

(** [diff_time.seconds()]: detection stamp minus reference stamp. *)
Definition diff_time (sensor_to_tag : PoseStamped) (n : Node) : R :=
  seconds (Time_minus (rclcpp_Time (stamp (ps_header sensor_to_tag)))
                      (rclcpp_Time (stamp (header (latest_ekf_pose_ n))))).

(** [diff_position]: candidate position against the reference position. *)
Definition diff_position
    (map_to_tag : Pose) (sensor_to_tag : PoseStamped) (tr : TransformStamped) (n : Node) : R :=
  norm (position (map_to_base_link map_to_tag sensor_to_tag tr))
       (position (pose (pose_cov (latest_ekf_pose_ n)))).

(** [coeff]: the factor applied to the base covariance. *)
Definition covariance_coeff (sensor_to_tag : PoseStamped) : R :=
  std_max 1 ((sqrt (distance_squared sensor_to_tag) / 5) ^ 3).

(** The message that the function publishes. *)
Definition fused_message
    (map_to_tag : Pose) (sensor_to_tag : PoseStamped) (tr : TransformStamped)
    (cov : list R) : PoseWithCovarianceStamped :=
  mkPoseWithCovarianceStamped
    (mkHeader (stamp (ps_header sensor_to_tag)) "map")
    (mkPoseWithCovariance (map_to_base_link map_to_tag sensor_to_tag tr) cov).

(** ** The paths through [publish_pose_as_base_link] *)

(** Every call takes exactly one of the paths. *)
Inductive runs (sensor_to_tag : PoseStamped) (tag_id : string) (n : Node) :
    Result Verdict → Prop :=
| runs_NotTarget :
    tag_id ∉ target_tag_ids_ n →
    runs sensor_to_tag tag_id n (Ok NotTarget n [Log INFO (NotInTargetTagIds tag_id)])
| runs_NotInMap :
    tag_id ∈ target_tag_ids_ n →
    landmark_map_ n !! tag_id = None →
    runs sensor_to_tag tag_id n (Ok NotInMap n [Log INFO (NotInLandmarkMap tag_id)])
| runs_OutOfRange map_to_tag :
    tag_id ∈ target_tag_ids_ n →
    landmark_map_ n !! tag_id = Some map_to_tag →
    distance_threshold_squared_ n < distance_squared sensor_to_tag →
    runs sensor_to_tag tag_id n (Ok OutOfRange n [])
| runs_NoTransform map_to_tag ex :
    tag_id ∈ target_tag_ids_ n →
    landmark_map_ n !! tag_id = Some map_to_tag →
    ¬ distance_threshold_squared_ n < distance_squared sensor_to_tag →
    tf_buffer_ n "base_link" (frame_id (ps_header sensor_to_tag)) = inr ex →
    runs sensor_to_tag tag_id n (Ok NoTransform n [Log INFO (CouldNotTransform ex)])
| runs_StaleEkfPose map_to_tag tr :
    tag_id ∈ target_tag_ids_ n →
    landmark_map_ n !! tag_id = Some map_to_tag →
    ¬ distance_threshold_squared_ n < distance_squared sensor_to_tag →
    tf_buffer_ n "base_link" (frame_id (ps_header sensor_to_tag)) = inl tr →
    diff_time sensor_to_tag n > ekf_time_tolerance_ n →
    runs sensor_to_tag tag_id n
      (Ok StaleEkfPose n
         [Log INFO (EkfPoseOlder (ekf_time_tolerance_ n)
                      (stamp (header (latest_ekf_pose_ n)))
                      (stamp (ps_header sensor_to_tag)))])
| runs_FarFromEkfPose map_to_tag tr :
    tag_id ∈ target_tag_ids_ n →
    landmark_map_ n !! tag_id = Some map_to_tag →
    ¬ distance_threshold_squared_ n < distance_squared sensor_to_tag →
    tf_buffer_ n "base_link" (frame_id (ps_header sensor_to_tag)) = inl tr →
    ¬ diff_time sensor_to_tag n > ekf_time_tolerance_ n →
    diff_position map_to_tag sensor_to_tag tr n > ekf_position_tolerance_ n →
    runs sensor_to_tag tag_id n
      (Ok FarFromEkfPose n
         [Log INFO (PoseDiffers (ekf_position_tolerance_ n)
                      (position (map_to_base_link map_to_tag sensor_to_tag tr))
                      (position (pose (pose_cov (latest_ekf_pose_ n)))))])
| runs_Published map_to_tag tr cov :
    tag_id ∈ target_tag_ids_ n →
    landmark_map_ n !! tag_id = Some map_to_tag →
    ¬ distance_threshold_squared_ n < distance_squared sensor_to_tag →
    tf_buffer_ n "base_link" (frame_id (ps_header sensor_to_tag)) = inl tr →
    ¬ diff_time sensor_to_tag n > ekf_time_tolerance_ n →
    ¬ diff_position map_to_tag sensor_to_tag tr n > ekf_position_tolerance_ n →
    scale_covariance (covariance_coeff sensor_to_tag) (base_covariance_ n) = Some cov →
    runs sensor_to_tag tag_id n
      (Ok Published n [PublishPose (fused_message map_to_tag sensor_to_tag tr cov)])
| runs_Fault map_to_tag tr :
    tag_id ∈ target_tag_ids_ n →
    landmark_map_ n !! tag_id = Some map_to_tag →
    ¬ distance_threshold_squared_ n < distance_squared sensor_to_tag →
    tf_buffer_ n "base_link" (frame_id (ps_header sensor_to_tag)) = inl tr →
    ¬ diff_time sensor_to_tag n > ekf_time_tolerance_ n →
    ¬ diff_position map_to_tag sensor_to_tag tr n > ekf_position_tolerance_ n →
    scale_covariance (covariance_coeff sensor_to_tag) (base_covariance_ n) = None →
    runs sensor_to_tag tag_id n Fault.

(** ** Rigid transform algebra *)

Definition transform_point (a : Affine3d) (v : Vector3d) : Vector3d :=
  vec_add (mat_vec (linear a) v) (translation a).

(** ** Unit quaternions *)

Definition unit_quaternion (q : Quaternion) : Prop :=
  q_x q * q_x q + q_y q * q_y q + q_z q * q_z q + q_w q * q_w q = 1.

Definition quat_mul (a b : Quaternion) : Quaternion :=
  mkQuaternion
    (q_w a * q_x b + q_x a * q_w b + q_y a * q_z b - q_z a * q_y b)
    (q_w a * q_y b - q_x a * q_z b + q_y a * q_w b + q_z a * q_x b)
    (q_w a * q_z b + q_x a * q_y b - q_y a * q_x b + q_z a * q_w b)
    (q_w a * q_w b - q_x a * q_x b - q_y a * q_y b - q_z a * q_z b).

(** The rotation matrix of a quaternion scaled by its squared norm. *)
Definition scaled_rotation (q : Quaternion) : Matrix3d :=
  let x := q_x q in let y := q_y q in let z := q_z q in let w := q_w q in
  mkMatrix3d
    (w * w + x * x - y * y - z * z) (2 * (x * y - w * z)) (2 * (x * z + w * y))
    (2 * (x * y + w * z)) (w * w - x * x + y * y - z * z) (2 * (y * z - w * x))
    (2 * (x * z - w * y)) (2 * (y * z + w * x)) (w * w - x * x - y * y + z * z).

(** ** Pose composition, in the words of the specification *)

(** [bodyToLandmark]: the sensor-to-body transform composed with the
    detection's sensor-to-landmark pose. *)
Definition bodyToLandmark (sensor_to_body : Transform) (sensor_to_landmark : Pose) : Affine3d :=
  affine_mul (transformToEigen sensor_to_body) (fromMsg sensor_to_landmark).

(** [mapToBody = mapToLandmark ∘ invert(bodyToLandmark)] *)
Definition mapToBody
    (map_to_landmark : Pose) (sensor_to_body : Transform) (sensor_to_landmark : Pose) : Affine3d :=
  affine_mul (fromMsg map_to_landmark)
             (affine_inverse (bodyToLandmark sensor_to_body sensor_to_landmark)).

(** A pose at [(x, y, z)] with the identity orientation. *)
Definition pose_at (x y z : R) : Pose := mkPose (mkPoint x y z) Quaternion_default.

Definition Transform_Identity : Transform := mkTransform (mkPoint 0 0 0) Quaternion_default.

(** ** The gating policy, in the words of the specification *)

Inductive Gate :=
| WhitelistCheck | RegistryCheck | RangeCheck | FrameTransformCheck
| TemporalCheck | SpatialCheck.

(** The fixed order in which the checks are applied. *)
Definition gating_order : list Gate :=
  [WhitelistCheck; RegistryCheck; RangeCheck; FrameTransformCheck;
   TemporalCheck; SpatialCheck].

Definition precedes (g' g : Gate) : Prop :=
  ∃ i j : nat, gating_order !! i = Some g' ∧ gating_order !! j = Some g ∧ (i < j)%nat.

(** The candidate fused pose (step 4.4), once the landmark and the transform
    are known. *)
Definition candidate (n : Node) (sensor_to_tag : PoseStamped) (tag_id : string) : option Pose :=
  map_to_tag ← landmark_map_ n !! tag_id;
  match tf_buffer_ n "base_link" (frame_id (ps_header sensor_to_tag)) with
  | inl tr => Some (map_to_base_link map_to_tag sensor_to_tag tr)
  | inr _ => None
  end.

(** What each check demands of a detection. *)
Definition admissible
    (g : Gate) (n : Node) (sensor_to_tag : PoseStamped) (tag_id : string) : Prop :=
  match g with
  | WhitelistCheck => tag_id ∈ target_tag_ids_ n
  | RegistryCheck => is_Some (landmark_map_ n !! tag_id)
  | RangeCheck => distance_squared sensor_to_tag <= distance_threshold_squared_ n
  | FrameTransformCheck =>
      ∃ tr, tf_buffer_ n "base_link" (frame_id (ps_header sensor_to_tag)) = inl tr
  | TemporalCheck => ¬ diff_time sensor_to_tag n > ekf_time_tolerance_ n
  | SpatialCheck =>
      ∀ c, candidate n sensor_to_tag tag_id = Some c →
           ¬ norm (position c) (position (pose (pose_cov (latest_ekf_pose_ n))))
             > ekf_position_tolerance_ n
  end.

(** [g] is the first check that the detection fails. *)
Definition first_failing
    (g : Gate) (n : Node) (sensor_to_tag : PoseStamped) (tag_id : string) : Prop :=
  ¬ admissible g n sensor_to_tag tag_id ∧
  ∀ g', precedes g' g → admissible g' n sensor_to_tag tag_id.

(** The [return] statement that rejects at a check. *)
Definition rejection (g : Gate) : Verdict :=
  match g with
  | WhitelistCheck => NotTarget
  | RegistryCheck => NotInMap
  | RangeCheck => OutOfRange
  | FrameTransformCheck => NoTransform
  | TemporalCheck => StaleEkfPose
  | SpatialCheck => FarFromEkfPose
  end.

(** The [return] statement reached, when the call returns. *)
Definition verdict (r : Result Verdict) : option Verdict :=
  match r with Ok v _ _ => Some v | Fault => None end.

Definition gate_index (g : Gate) : nat :=
  match g with
  | WhitelistCheck => 0 | RegistryCheck => 1 | RangeCheck => 2
  | FrameTransformCheck => 3 | TemporalCheck => 4 | SpatialCheck => 5
  end.

(** ** Observing a run *)

(** The verdict and the effects of a run, leaving the node aside. *)
Definition observable (r : Result Verdict) : option Verdict * list Effect :=
  (verdict r, effects r).

Definition is_Log (e : Effect) : bool :=
  match e with Log _ _ => true | _ => false end.

Definition not_PublishPose (e : Effect) : Prop := is_PublishPose e = false.

(** ** Startup and the executor *)

(** The detection modes that [setup] recognises. *)
Definition recognized_detection_modes : list string :=
  ["DM_NORMAL"; "DM_FAST"; "DM_VIDEO_FAST"].

(** No subscription and no tf listener exist: the state of a node on which
    [setup] has not run to its end. *)
Definition idle (n : Node) : Prop :=
  map_bin_sub_ n = false ∧ image_sub_ n = false ∧ cam_info_sub_ n = false ∧
  ekf_pose_sub_ n = false ∧ tf_listener_ n = false.

(** An event that may reach the node before the first reference pose, when
    every image is stamped later than [tolerance] seconds after time zero. *)
Definition before_first_reference (tolerance : R) (e : Incoming) : Prop :=
  match e with
  | EkfPoseIn _ => False
  | ImageIn msg => seconds (rclcpp_Time (stamp (image_header msg))) > tolerance
  | _ => True
  end.

(** The node still holds the default reference pose, and its time tolerance
    is [tolerance]. *)
Definition awaiting_reference (tolerance : R) (n : Node) : Prop :=
  latest_ekf_pose_ n = PoseWithCovarianceStamped_default ∧
  ekf_time_tolerance_ n = tolerance.

(** ** A concrete node and what reaches it *)

(** A diagonal base covariance: 0.04 on the diagonal of the 6x6 matrix. *)
Definition example_covariance : list R :=
  map (λ i : nat, if decide (i mod 7 = 0)%nat then 0.04 else 0) (seq 0 36).

Definition example_transform : TransformStamped :=
  mkTransformStamped (mkHeader (mkTime 10 0) "base_link") "camera" Transform_Identity.

Definition example_buffer : Buffer := λ target source,
  if decide (target = "base_link" ∧ source = "camera") then inl example_transform
  else inr LookupException.

Definition example_reference : PoseWithCovarianceStamped :=
  mkPoseWithCovarianceStamped (mkHeader (mkTime 10 0) "map")
    (mkPoseWithCovariance (pose_at 8 0 0) (replicate 36 0)).

Definition example_camera_info : CameraInfo :=
  mkCameraInfo [600; 0; 320; 0; 0; 600; 240; 0; 0; 0; 1; 0] 640 480.

(** The parameters of a node that looks for landmark "5", with a position
    tolerance of 1 m. *)
Definition example_parameters
    (distance_threshold time_tolerance : R) (cov : list R) : Parameters :=
  mkParameters 0.4 ["5"] cov distance_threshold time_tolerance 1 "DM_NORMAL" 0.

(** What reaches the node after [setup]: a map with landmark "5" at
    (10, 0, 0), the camera calibration, the camera-to-body transform and a
    reference pose at (8, 0, 0), stamped 10 s. *)
Definition example_events : list Incoming :=
  [MapBin {[ "5" := pose_at 10 0 0 ]}; CameraInfoIn example_camera_info;
   TfIn example_buffer; EkfPoseIn example_reference].

(** The node after [setup] and [example_events]. *)
Definition configured_node
    (distance_threshold time_tolerance : R) (cov : list R) : Node :=
  mkNode 0.4 ["5"] cov (distance_threshold ^ 2) time_tolerance 1 (DM_NORMAL, 0)
    example_buffer true true true true true {[ "5" := pose_at 10 0 0 ]}
    example_reference true
    (mkCameraParameters [600; 0; 320; 0; 0; 600; 240; 0; 0; 0; 1; 0] [0; 0; 0; 0] 640 480).

(** Thresholds 20 m and 0.5 s. *)
Definition example_node : Node := configured_node 20 0.5 example_covariance.

(** A detection by the camera at [(x, y, z)], stamped [sec.nsec]. *)
Definition example_detection (sec nsec : Z) (x y z : R) : PoseStamped :=
  mkPoseStamped (mkHeader (mkTime sec nsec) "camera") (pose_at x y z).

(** An image in which the detector finds marker 5 at (2, 0, 0). *)
Definition example_image : Image :=
  mkImage (mkHeader (mkTime 10 400000000) "camera") true [mkMarker 5 (pose_at 2 0 0)]
    0 1 (mkTime 10 450000000).

(** A detection by a sensor whose frame the buffer does not know. *)
Definition lidar_detection : PoseStamped :=
  mkPoseStamped (mkHeader (mkTime 10 400000000) "lidar") (pose_at 2 0 0).

(** A buffer that agrees with [example_buffer] on the camera frame. *)
Definition other_buffer : Buffer := λ target source,
  if decide (source = "camera") then inl example_transform else inr TimeoutException.

(** The node right after [setup], and what reaches it before any reference
    pose: the map, the transform and an image stamped 10.4 s. *)
Definition fresh_node : Node :=
  create_handles
    (setDetectionMode DM_NORMAL 0
       (declare_parameters (example_parameters 20 0.5 example_covariance)
          ArTagBasedLocalizer)).

Definition early_events : list Incoming :=
  [MapBin {[ "5" := pose_at 10 0 0 ]}; CameraInfoIn example_camera_info;
   TfIn example_buffer; ImageIn example_image].

(** ** The callbacks, piece by piece *)

(** The transform that [image_callback] broadcasts for a marker. *)
Definition marker_transform (msg : Image) (marker : Marker) : TransformStamped :=
  mkTransformStamped
    (mkHeader (stamp (image_header msg)) (frame_id (image_header msg)))
    ("detected_marker_" +:+ pretty (id marker))
    (mkTransform (position (cam_to_marker marker)) (orientation (cam_to_marker marker))).

(** The detection that [image_callback] hands to
    [publish_pose_as_base_link] for a marker. *)
Definition marker_detection (msg : Image) (marker : Marker) : PoseStamped :=
  mkPoseStamped (mkHeader (stamp (image_header msg)) (frame_id (image_header msg)))
                (cam_to_marker marker).

(** The body of the loop over the detected markers. *)
Definition process_marker (msg : Image) (marker : Marker) : M unit :=
  emit (SendTransform (marker_transform msg marker));;
  publish_pose_as_base_link (marker_detection msg marker) (pretty (id marker));;
  mret tt.

(** The three early returns of [image_callback] are passed. *)
Definition image_is_processed (msg : Image) (n : Node) : Prop :=
  ¬ (image_pub_subscribers msg = 0%nat ∧ pose_pub_subscribers msg = 0%nat) ∧
  cam_info_received_ n = true ∧ decodes msg = true.

Definition is_SendTransform (e : Effect) : bool :=
  match e with SendTransform _ => true | _ => false end.

Definition is_PublishDiagnostics (e : Effect) : bool :=
  match e with PublishDiagnostics _ _ _ => true | _ => false end.

(** The members that [setup] assigns from the parameters. *)
Definition configuration (n : Node) :
    R * list string * list R * R * R * R * (DetectionMode * R) :=
  (marker_size_ n, target_tag_ids_ n, base_covariance_ n,
   distance_threshold_squared_ n, ekf_time_tolerance_ n, ekf_position_tolerance_ n,
   detector_ n).

Definition is_MapBin (e : Incoming) : bool :=
  match e with MapBin _ => true | _ => false end.

Definition is_EkfPoseIn (e : Incoming) : bool :=
  match e with EkfPoseIn _ => true | _ => false end.

(** The handles that [setup] creates. *)
Definition subscriptions (n : Node) : bool * bool * bool * bool * bool :=
  (tf_listener_ n, map_bin_sub_ n, image_sub_ n, cam_info_sub_ n, ekf_pose_sub_ n).

(** The parameters with another distance threshold. *)
Definition with_distance_threshold (d : R) (p : Parameters) : Parameters :=
  mkParameters (marker_size p) (target_tag_ids p) (base_covariance p) d
    (ekf_time_tolerance p) (ekf_position_tolerance p) (detection_mode p) (min_marker_size p).

(** The conjugate of a quaternion: the inverse rotation, for a unit one. *)
Definition quat_conj (q : Quaternion) : Quaternion :=
  mkQuaternion (- q_x q) (- q_y q) (- q_z q) (q_w q).

Definition set_base_covariance_ (v : list R) (n : Node) : Node :=
  mkNode (marker_size_ n) (target_tag_ids_ n) v
    (distance_threshold_squared_ n) (ekf_time_tolerance_ n) (ekf_position_tolerance_ n)
    (detector_ n) (tf_buffer_ n) (tf_listener_ n)
    (map_bin_sub_ n) (image_sub_ n) (cam_info_sub_ n)
    (ekf_pose_sub_ n) (landmark_map_ n) (latest_ekf_pose_ n)
    (cam_info_received_ n) (cam_param_ n).

(** An image with two markers, of which only marker 5 is a target. *)
Definition two_marker_image : Image :=
  mkImage (mkHeader (mkTime 10 400000000) "camera") true
    [mkMarker 7 (pose_at 1 0 0); mkMarker 5 (pose_at 2 0 0)]
    1 1 (mkTime 10 450000000).

(** What [example_node] does with it: marker 7 is broadcast and rejected,
    marker 5 is broadcast and fused. *)
Definition two_marker_effects : list Effect :=
  [SendTransform (marker_transform two_marker_image (mkMarker 7 (pose_at 1 0 0)));
   Log INFO (NotInTargetTagIds "7");
   SendTransform (marker_transform two_marker_image (mkMarker 5 (pose_at 2 0 0)));
   PublishPose
     (fused_message (pose_at 10 0 0) (example_detection 10 400000000 2 0 0) example_transform
        (map (Rmult (covariance_coeff (example_detection 10 400000000 2 0 0)))
           (take 36 example_covariance)));
   PublishImage (mkTime 10 400000000);
   PublishDiagnostics (mkTime 10 450000000) DIAG_OK 2].

(** Images that nobody listens to, that cannot be decoded, and that is
    stamped 0.6 s after the reference pose. *)
Definition unheard_image : Image :=
  mkImage (mkHeader (mkTime 10 400000000) "camera") true [mkMarker 5 (pose_at 2 0 0)]
    0 0 (mkTime 10 450000000).

Definition undecodable_image : Image :=
  mkImage (mkHeader (mkTime 10 400000000) "camera") false [mkMarker 5 (pose_at 2 0 0)]
    0 1 (mkTime 10 450000000).

Definition late_image : Image :=
  mkImage (mkHeader (mkTime 10 600000000) "camera") true [mkMarker 5 (pose_at 2 0 0)]
    0 1 (mkTime 10 650000000).

(** Another reference pose, half a metre further and 0.2 s later. *)
Definition other_reference : PoseWithCovarianceStamped :=
  mkPoseWithCovarianceStamped (mkHeader (mkTime 10 200000000) "map")
    (mkPoseWithCovariance (pose_at 8.5 0 0) (replicate 36 1)).

(** A camera mount and a detection that rotate: a turn about z by the angle
    of cosine 7/25 for the mount, a half turn about x for the marker. *)
Definition turned_transform : TransformStamped :=
  mkTransformStamped (mkHeader (mkTime 10 0) "base_link") "camera"
    (mkTransform (mkPoint 1 0 0) (mkQuaternion 0 0 (3 / 5) (4 / 5))).

Definition turned_detection : PoseStamped :=
  mkPoseStamped (mkHeader (mkTime 10 400000000) "camera")
    (mkPose (mkPoint 2 0 0) (mkQuaternion 1 0 0 0)).

(** [example_node] with that camera mount, and with its reference pose where
    the turned detection puts the body. *)
Definition turned_buffer : Buffer := λ target source,
  if decide (target = "base_link" ∧ source = "camera") then inl turned_transform
  else inr LookupException.

Definition turned_reference : PoseWithCovarianceStamped :=
  mkPoseWithCovarianceStamped (mkHeader (mkTime 10 0) "map")
    (mkPoseWithCovariance (pose_at 7.72 (-0.96) 0) (replicate 36 0)).

Definition turned_node : Node :=
  set_latest_ekf_pose_ turned_reference (set_tf_buffer_ turned_buffer example_node).

(** ** Rigid transforms, in the words of the specification *)

(** A pose is a rigid transform: rotate by the quaternion, then translate.
    A quaternion [(u, w)] turns a vector [v] into
    [v + 2 (w (u × v) + u × (u × v))]. *)
Definition rotate (q : Quaternion) (p : Point) : Point :=
  let cx := q_y q * p_z p - q_z q * p_y p in
  let cy := q_z q * p_x p - q_x q * p_z p in
  let cz := q_x q * p_y p - q_y q * p_x p in
  mkPoint (p_x p + 2 * (q_w q * cx + (q_y q * cz - q_z q * cy)))
          (p_y p + 2 * (q_w q * cy + (q_z q * cx - q_x q * cz)))
          (p_z p + 2 * (q_w q * cz + (q_x q * cy - q_y q * cx))).

(** [a ∘ b]: apply [b], then [a]. *)
Definition compose (a b : Pose) : Pose :=
  let r := rotate (orientation a) (position b) in
  mkPose (mkPoint (p_x (position a) + p_x r) (p_y (position a) + p_y r)
                  (p_z (position a) + p_z r))
         (quat_mul (orientation a) (orientation b)).

(** [invert(a)]: turn back by the conjugate, and undo the translation. *)
Definition invert (a : Pose) : Pose :=
  let q := quat_conj (orientation a) in
  let r := rotate q (position a) in
  mkPose (mkPoint (- p_x r) (- p_y r) (- p_z r)) q.

Definition Pose_of_Transform (t : Transform) : Pose :=
  mkPose (tf_translation t) (tf_rotation t).

(** [mapToBody = mapToLandmark ∘ invert(bodyToLandmark)], with
    [bodyToLandmark] the sensor-to-body transform composed with the
    detection's sensor-to-landmark pose. *)
Definition mapToBody_pose
    (map_to_landmark : Pose) (sensor_to_body : Transform) (sensor_to_landmark : Pose) : Pose :=
  compose map_to_landmark
    (invert (compose (Pose_of_Transform sensor_to_body) sensor_to_landmark)).

(** * Part II: the properties *)

(** ** The paths through [publish_pose_as_base_link] *)

Ltac run_monad :=
  cbv beta iota zeta delta
    [publish_pose_as_base_link mbind M_bind mret M_ret get put emit fault].

Ltac unfold_quantities :=
  cbv beta iota zeta delta
    [distance_squared covariance_coeff diff_time diff_position fused_message
     map_to_base_link base_link_to_tag] in *.

Ltac absurd_gate :=
  exfalso; unfold_quantities; first [congruence | lra | tauto].

Ltac step_decide :=
  match goal with
  | |- context [decide ?P] => destruct (decide P)
  | |- context [Rlt_dec ?a ?b] => destruct (Rlt_dec a b)
  | |- context [Rgt_dec ?a ?b] => destruct (Rgt_dec a b)
  end; try contradiction; try absurd_gate; run_monad.

Ltac run_gates := run_monad; repeat step_decide.

Section Paths.
Variables (sensor_to_tag : PoseStamped) (tag_id : string) (n : Node).

Lemma path_NotTarget :
  tag_id ∉ target_tag_ids_ n →
  publish_pose_as_base_link sensor_to_tag tag_id n
  = Ok NotTarget n [Log INFO (NotInTargetTagIds tag_id)].
Proof.
  intros H. run_gates. reflexivity.
Qed.

Lemma path_NotInMap :
  tag_id ∈ target_tag_ids_ n →
  landmark_map_ n !! tag_id = None →
  publish_pose_as_base_link sensor_to_tag tag_id n
  = Ok NotInMap n [Log INFO (NotInLandmarkMap tag_id)].
Proof.
  intros H1 H2. run_gates. reflexivity.
Qed.

Variable map_to_tag : Pose.
Hypothesis Hwhitelist : tag_id ∈ target_tag_ids_ n.
Hypothesis Hregistry : landmark_map_ n !! tag_id = Some map_to_tag.

Lemma path_OutOfRange :
  distance_threshold_squared_ n < distance_squared sensor_to_tag →
  publish_pose_as_base_link sensor_to_tag tag_id n = Ok OutOfRange n [].
Proof.
  intros H. run_gates. reflexivity.
Qed.

Hypothesis Hrange : ¬ distance_threshold_squared_ n < distance_squared sensor_to_tag.

Lemma path_NoTransform ex :
  tf_buffer_ n "base_link" (frame_id (ps_header sensor_to_tag)) = inr ex →
  publish_pose_as_base_link sensor_to_tag tag_id n
  = Ok NoTransform n [Log INFO (CouldNotTransform ex)].
Proof.
  intros H. run_gates.
  all: rewrite H; reflexivity.
Qed.

Variable tr : TransformStamped.
Hypothesis Htransform :
  tf_buffer_ n "base_link" (frame_id (ps_header sensor_to_tag)) = inl tr.

Lemma path_StaleEkfPose :
  diff_time sensor_to_tag n > ekf_time_tolerance_ n →
  publish_pose_as_base_link sensor_to_tag tag_id n
  = Ok StaleEkfPose n
      [Log INFO (EkfPoseOlder (ekf_time_tolerance_ n)
                   (stamp (header (latest_ekf_pose_ n)))
                   (stamp (ps_header sensor_to_tag)))].
Proof.
  intros H. run_gates.
  all: rewrite Htransform, Hregistry; run_gates; reflexivity.
Qed.

Hypothesis Htime : ¬ diff_time sensor_to_tag n > ekf_time_tolerance_ n.

Lemma path_FarFromEkfPose :
  diff_position map_to_tag sensor_to_tag tr n > ekf_position_tolerance_ n →
  publish_pose_as_base_link sensor_to_tag tag_id n
  = Ok FarFromEkfPose n
      [Log INFO (PoseDiffers (ekf_position_tolerance_ n)
                   (position (map_to_base_link map_to_tag sensor_to_tag tr))
                   (position (pose (pose_cov (latest_ekf_pose_ n)))))].
Proof.
  intros H. run_gates.
  all: rewrite Htransform, Hregistry; run_gates; reflexivity.
Qed.

Hypothesis Hposition :
  ¬ diff_position map_to_tag sensor_to_tag tr n > ekf_position_tolerance_ n.

Lemma path_Published cov :
  scale_covariance (covariance_coeff sensor_to_tag) (base_covariance_ n) = Some cov →
  publish_pose_as_base_link sensor_to_tag tag_id n
  = Ok Published n [PublishPose (fused_message map_to_tag sensor_to_tag tr cov)].
Proof.
  intros H. run_gates.
  all: rewrite Htransform, Hregistry; run_gates.
  all: unfold_quantities; rewrite H; reflexivity.
Qed.

Lemma path_Fault :
  scale_covariance (covariance_coeff sensor_to_tag) (base_covariance_ n) = None →
  publish_pose_as_base_link sensor_to_tag tag_id n = Fault.
Proof.
  intros H. run_gates.
  all: rewrite Htransform, Hregistry; run_gates.
  all: unfold_quantities; rewrite H; reflexivity.
Qed.
End Paths.

Lemma publish_pose_runs sensor_to_tag tag_id n :
  runs sensor_to_tag tag_id n (publish_pose_as_base_link sensor_to_tag tag_id n).
Proof.
  destruct (decide (tag_id ∈ target_tag_ids_ n)) as [Hw|Hw].
  2: { rewrite path_NotTarget by exact Hw. now constructor. }
  destruct (landmark_map_ n !! tag_id) as [map_to_tag|] eqn:Hm.
  2: { rewrite path_NotInMap by assumption. now constructor. }
  destruct (Rlt_dec (distance_threshold_squared_ n) (distance_squared sensor_to_tag))
    as [Hr|Hr].
  { rewrite (path_OutOfRange _ _ _ map_to_tag) by assumption. econstructor; eassumption. }
  destruct (tf_buffer_ n "base_link" (frame_id (ps_header sensor_to_tag)))
    as [tr|ex] eqn:Ht.
  2: { rewrite (path_NoTransform _ _ _ map_to_tag Hw Hm Hr ex Ht).
       econstructor; eassumption. }
  destruct (Rgt_dec (diff_time sensor_to_tag n) (ekf_time_tolerance_ n)) as [Hs|Hs].
  { rewrite (path_StaleEkfPose _ _ _ map_to_tag Hw Hm Hr tr Ht Hs).
    econstructor; eassumption. }
  destruct (Rgt_dec (diff_position map_to_tag sensor_to_tag tr n)
                    (ekf_position_tolerance_ n)) as [Hp|Hp].
  { rewrite (path_FarFromEkfPose _ _ _ map_to_tag Hw Hm Hr tr Ht Hs Hp).
    econstructor; eassumption. }
  destruct (scale_covariance (covariance_coeff sensor_to_tag) (base_covariance_ n))
    as [cov|] eqn:Hc.
  - rewrite (path_Published _ _ _ map_to_tag Hw Hm Hr tr Ht Hs Hp cov Hc).
    econstructor; eassumption.
  - rewrite (path_Fault _ _ _ map_to_tag Hw Hm Hr tr Ht Hs Hp Hc).
    econstructor; eassumption.
Qed.

(** ** The covariance loop *)

Lemma mapM_scale_Some (c : R) (base : list R) (k s : nat) (cov : list R) :
  (s ≤ length base)%nat →
  mapM (λ i : nat, b ← base !! i; Some (c * b)) (seq s k) = Some cov ↔
  (s + k ≤ length base)%nat ∧ cov = map (Rmult c) (take k (drop s base)).
Proof.
  revert s cov. induction k as [|k IH]; intros s cov Hs.
  - cbn. split.
    + intros [= <-]. split; [lia | reflexivity].
    + intros [_ ->]. reflexivity.
  - cbn [seq mapM]. destruct (base !! s) as [b|] eqn:Hb.
    + pose proof (lookup_lt_Some _ _ _ Hb) as Hlt.
      rewrite (drop_S _ _ _ Hb). cbn.
      destruct (mapM _ (seq (S s) k)) as [rest|] eqn:Hrest; cbn.
      * apply IH in Hrest as [Hle ->]; [|lia]. split.
        -- intros [= <-]. split; [lia | reflexivity].
        -- intros [_ ->]. reflexivity.
      * split; [discriminate|]. intros [Hle _]. exfalso.
        assert (Hsome : mapM (λ i : nat, b0 ← base !! i; Some (c * b0)) (seq (S s) k)
                        = Some (map (Rmult c) (take k (drop (S s) base)))).
        { apply IH; [lia|]. split; [lia | reflexivity]. }
        congruence.
    + pose proof (lookup_ge_None_1 _ _ Hb) as Hge. cbn.
      split; [discriminate|]. intros [Hle _]. lia.
Qed.

Lemma scale_covariance_Some (c : R) (base cov : list R) :
  scale_covariance c base = Some cov ↔
  (36 ≤ length base)%nat ∧ cov = map (Rmult c) (take 36 base).
Proof.
  unfold scale_covariance. rewrite mapM_scale_Some by lia.
  rewrite drop_0. reflexivity.
Qed.

Lemma scale_covariance_None (c : R) (base : list R) :
  scale_covariance c base = None ↔ (length base < 36)%nat.
Proof.
  destruct (scale_covariance c base) as [cov|] eqn:H.
  - apply scale_covariance_Some in H as [Hle _]. split; [discriminate | lia].
  - split; [|reflexivity]. intros _.
    destruct (le_lt_dec 36 (length base)) as [Hle|Hlt]; [|exact Hlt].
    assert (scale_covariance c base = Some (map (Rmult c) (take 36 base)))
      by (apply scale_covariance_Some; auto).
    congruence.
Qed.

(** ** Rigid transform algebra *)

Ltac mat_eq :=
  cbv [mat_mul mat_vec mat_inverse determinant vec_add vec_opp affine_mul
       affine_inverse transform_point toRotationMatrix Matrix3d_Identity Affine3d_Identity
       Quaternion_default linear translation
       m00 m01 m02 m10 m11 m12 m20 m21 m22 v_x v_y v_z q_x q_y q_z q_w];
  repeat match goal with
         | |- mkAffine3d _ _ = mkAffine3d _ _ => f_equal
         | |- mkMatrix3d _ _ _ _ _ _ _ _ _ = mkMatrix3d _ _ _ _ _ _ _ _ _ => f_equal
         | |- mkVector3d _ _ _ = mkVector3d _ _ _ => f_equal
         end;
  try lra; try (field; assumption).

Lemma toRotationMatrix_default : toRotationMatrix Quaternion_default = Matrix3d_Identity.
Proof. mat_eq. Qed.

Lemma mat_mul_Identity_l a : mat_mul Matrix3d_Identity a = a.
Proof. destruct a. mat_eq. Qed.

Lemma mat_mul_Identity_r a : mat_mul a Matrix3d_Identity = a.
Proof. destruct a. mat_eq. Qed.

Lemma mat_inverse_Identity : mat_inverse Matrix3d_Identity = Matrix3d_Identity.
Proof. mat_eq. Qed.

Lemma mat_mul_inverse_r a :
  determinant a ≠ 0 → mat_mul a (mat_inverse a) = Matrix3d_Identity.
Proof. intros H. destruct a. unfold determinant in H. simpl in H. mat_eq. Qed.

Lemma mat_mul_inverse_l a :
  determinant a ≠ 0 → mat_mul (mat_inverse a) a = Matrix3d_Identity.
Proof. intros H. destruct a. unfold determinant in H. simpl in H. mat_eq. Qed.

(** [affine_mul a b] is "apply [b], then [a]". *)
Lemma transform_point_affine_mul a b v :
  transform_point (affine_mul a b) v = transform_point a (transform_point b v).
Proof. destruct a as [[] []], b as [[] []], v. mat_eq. Qed.

Lemma affine_mul_assoc a b c :
  affine_mul (affine_mul a b) c = affine_mul a (affine_mul b c).
Proof. destruct a as [[] []], b as [[] []], c as [[] []]. mat_eq. Qed.

(** [affine_inverse] inverts: composing a transform with its inverse is the
    identity. *)
Lemma affine_mul_inverse_r a :
  determinant (linear a) ≠ 0 → affine_mul a (affine_inverse a) = Affine3d_Identity.
Proof.
  intros H. destruct a as [[] []]. unfold determinant in H. simpl in H. mat_eq.
Qed.

Lemma affine_mul_inverse_l a :
  determinant (linear a) ≠ 0 → affine_mul (affine_inverse a) a = Affine3d_Identity.
Proof.
  intros H. destruct a as [[] []]. unfold determinant in H. simpl in H. mat_eq.
Qed.

Lemma sqrt_4 : sqrt 4 = 2.
Proof. replace 4 with (2 * 2) by lra. apply sqrt_square. lra. Qed.

Lemma Quaterniond_of_matrix_Identity :
  Quaterniond_of_matrix Matrix3d_Identity = Quaternion_default.
Proof.
  unfold Quaterniond_of_matrix, Matrix3d_Identity. simpl.
  destruct (Rgt_dec (1 + 1 + 1) 0) as [_|H]; [|exfalso; lra].
  replace (1 + 1 + 1 + 1) with 4 by lra. rewrite sqrt_4.
  unfold Quaternion_default. f_equal; lra.
Qed.

(** ** Unit quaternions *)

Ltac quat_eq :=
  cbv [mat_mul toRotationMatrix scaled_rotation quat_mul quat_opp
       m00 m01 m02 m10 m11 m12 m20 m21 m22 q_x q_y q_z q_w];
  f_equal.

Lemma unit_quat_mul a b : unit_quaternion a → unit_quaternion b → unit_quaternion (quat_mul a b).
Proof.
  destruct a as [ax ay az aw], b as [bx by' bz bw]. unfold unit_quaternion, quat_mul. simpl.
  intros Ha Hb.
  replace 1 with ((ax * ax + ay * ay + az * az + aw * aw) * (bx * bx + by' * by' + bz * bz + bw * bw))
    by (rewrite Ha, Hb; ring).
  ring.
Qed.

Lemma toRotationMatrix_scaled q : unit_quaternion q → toRotationMatrix q = scaled_rotation q.
Proof.
  destruct q as [x y z w]. unfold unit_quaternion. simpl. intros Hu.
  quat_eq; lra.
Qed.

Lemma scaled_rotation_mul a b :
  mat_mul (scaled_rotation a) (scaled_rotation b) = scaled_rotation (quat_mul a b).
Proof. destruct a, b. quat_eq; ring. Qed.

Lemma toRotationMatrix_quat_mul a b :
  unit_quaternion a → unit_quaternion b →
  mat_mul (toRotationMatrix a) (toRotationMatrix b) = toRotationMatrix (quat_mul a b).
Proof.
  intros Ha Hb.
  rewrite (toRotationMatrix_scaled a Ha), (toRotationMatrix_scaled b Hb),
          (toRotationMatrix_scaled _ (unit_quat_mul a b Ha Hb)).
  apply scaled_rotation_mul.
Qed.

Lemma toRotationMatrix_opp q : toRotationMatrix (quat_opp q) = toRotationMatrix q.
Proof. destruct q. quat_eq; ring. Qed.

Lemma Rabs_cases w : w <> 0 -> (0 < w /\ Rabs w = w) \/ (w < 0 /\ Rabs w = - w).
Proof.
  intros H. destruct (Rlt_dec 0 w).
  - left. split; [lra | apply Rabs_right; lra].
  - right. split; [lra | apply Rabs_left; lra].
Qed.

Lemma sqrt_4_sq w : sqrt (4 * (w * w)) = 2 * Rabs w.
Proof.
  replace (4 * (w * w)) with ((2 * Rabs w) * (2 * Rabs w)).
  - apply sqrt_square. pose proof (Rabs_pos w). lra.
  - pose proof (Rsqr_abs w) as H. unfold Rsqr in H. rewrite H. ring.
Qed.

Lemma sq_nonneg a : 0 <= a * a.
Proof. apply Rle_0_sqr. Qed.

Lemma sq_pos_neq a : 0 < a * a → a <> 0.
Proof. intros H ->. lra. Qed.

(** The quaternion read back from the rotation matrix of a unit quaternion is
    that quaternion or its opposite. *)
Lemma Quaterniond_of_toRotationMatrix q :
  unit_quaternion q →
  Quaterniond_of_matrix (toRotationMatrix q) = q ∨
  Quaterniond_of_matrix (toRotationMatrix q) = quat_opp q.
Proof.
  destruct q as [x y z w]. unfold unit_quaternion. simpl. intros Hu.
  pose proof (sq_nonneg x) as Hx. pose proof (sq_nonneg y) as Hy.
  pose proof (sq_nonneg z) as Hz. pose proof (sq_nonneg w) as Hw.
  unfold Quaterniond_of_matrix, quat_opp.
  cbv [toRotationMatrix m00 m01 m02 m10 m11 m12 m20 m21 m22 q_x q_y q_z q_w].
  destruct (Rgt_dec _ 0) as [Ht|Ht].
  - replace (1 - (2 * y * y + 2 * z * z) + (1 - (2 * x * x + 2 * z * z)) +
             (1 - (2 * x * x + 2 * y * y)) + 1) with (4 * (w * w)) by lra.
    rewrite sqrt_4_sq.
    assert (Hw0 : w <> 0) by (apply sq_pos_neq; lra).
    destruct (Rabs_cases w Hw0) as [[Hs ->]|[Hs ->]]; [left|right]; f_equal;
      replace 0.5 with (/ 2) by lra; field; lra.
  - destruct (Rgt_dec (1 - (2 * x * x + 2 * z * z)) (1 - (2 * y * y + 2 * z * z))) as [H1|H1];
      cbv [coeff m00 m01 m02 m10 m11 m12 m20 m21 m22];
      destruct (Rgt_dec _ _) as [H2|H2];
      cbv [coeff Nat.add Nat.modulo Nat.divmod fst snd Nat.sub set_coeff set_w Quaternion_default
           m00 m01 m02 m10 m11 m12 m20 m21 m22 q_x q_y q_z q_w].
    + (* i = 2 *)
      replace (1 - (2 * x * x + 2 * y * y) - (1 - (2 * y * y + 2 * z * z)) -
               (1 - (2 * x * x + 2 * z * z)) + 1) with (4 * (z * z)) by lra.
      rewrite sqrt_4_sq.
      assert (Hz0 : z <> 0) by (apply sq_pos_neq; lra).
      destruct (Rabs_cases z Hz0) as [[Hs ->]|[Hs ->]]; [left|right]; f_equal;
      replace 0.5 with (/ 2) by lra; field; lra.
    + (* i = 1 *)
      replace (1 - (2 * x * x + 2 * z * z) - (1 - (2 * x * x + 2 * y * y)) -
               (1 - (2 * y * y + 2 * z * z)) + 1) with (4 * (y * y)) by lra.
      rewrite sqrt_4_sq.
      assert (Hy0 : y <> 0) by (apply sq_pos_neq; lra).
      destruct (Rabs_cases y Hy0) as [[Hs ->]|[Hs ->]]; [left|right]; f_equal;
      replace 0.5 with (/ 2) by lra; field; lra.
    + (* i = 2 *)
      replace (1 - (2 * x * x + 2 * y * y) - (1 - (2 * y * y + 2 * z * z)) -
               (1 - (2 * x * x + 2 * z * z)) + 1) with (4 * (z * z)) by lra.
      rewrite sqrt_4_sq.
      assert (Hz0 : z <> 0) by (apply sq_pos_neq; lra).
      destruct (Rabs_cases z Hz0) as [[Hs ->]|[Hs ->]]; [left|right]; f_equal;
      replace 0.5 with (/ 2) by lra; field; lra.
    + (* i = 0 *)
      replace (1 - (2 * y * y + 2 * z * z) - (1 - (2 * x * x + 2 * z * z)) -
               (1 - (2 * x * x + 2 * y * y)) + 1) with (4 * (x * x)) by lra.
      rewrite sqrt_4_sq.
      assert (Hx0 : x <> 0) by (apply sq_pos_neq; lra).
      destruct (Rabs_cases x Hx0) as [[Hs ->]|[Hs ->]]; [left|right]; f_equal;
      replace 0.5 with (/ 2) by lra; field; lra.
Qed.

Lemma rotation_round_trip q :
  unit_quaternion q →
  toRotationMatrix (Quaterniond_of_matrix (toRotationMatrix q)) = toRotationMatrix q.
Proof.
  intros Hu. destruct (Quaterniond_of_toRotationMatrix q Hu) as [-> | ->];
    [reflexivity | apply toRotationMatrix_opp].
Qed.

(** ** Pose composition *)

Lemma fromMsg_pose_at x y z :
  fromMsg (pose_at x y z) = mkAffine3d Matrix3d_Identity (mkVector3d x y z).
Proof. unfold fromMsg, pose_at. simpl. now rewrite toRotationMatrix_default. Qed.

Lemma toMsg_translation x y z :
  toMsg (mkAffine3d Matrix3d_Identity (mkVector3d x y z)) = pose_at x y z.
Proof.
  unfold toMsg, pose_at. cbn [linear translation v_x v_y v_z].
  rewrite Quaterniond_of_matrix_Identity. cbn [Quaternion_default q_w].
  destruct (Rlt_dec 1 0) as [H|_]; [exfalso; lra | reflexivity].
Qed.

(** The pose message that [doTransform] hands back is the composition. *)
Lemma base_link_to_tag_bodyToLandmark sensor_to_tag tr :
  base_link_to_tag sensor_to_tag tr
  = toMsg (bodyToLandmark (transform tr) (ps_pose sensor_to_tag)).
Proof. reflexivity. Qed.

(** Between unit quaternions, reading the composition back from the message
    loses nothing. *)
Lemma fromMsg_toMsg_bodyToLandmark sensor_to_body sensor_to_landmark :
  unit_quaternion (tf_rotation sensor_to_body) →
  unit_quaternion (orientation sensor_to_landmark) →
  fromMsg (toMsg (bodyToLandmark sensor_to_body sensor_to_landmark))
  = bodyToLandmark sensor_to_body sensor_to_landmark.
Proof.
  intros Ht Hd. unfold bodyToLandmark, transformToEigen, fromMsg, toMsg, affine_mul.
  cbn [linear translation position orientation p_x p_y p_z vec_add v_x v_y v_z].
  f_equal.
  rewrite (toRotationMatrix_quat_mul _ _ Ht Hd).
  destruct (Rlt_dec _ 0); rewrite ?toRotationMatrix_opp;
    apply rotation_round_trip, unit_quat_mul; assumption.
Qed.

Lemma map_to_base_link_mapToBody map_to_tag sensor_to_tag tr :
  unit_quaternion (tf_rotation (transform tr)) →
  unit_quaternion (orientation (ps_pose sensor_to_tag)) →
  map_to_base_link map_to_tag sensor_to_tag tr
  = toMsg (mapToBody map_to_tag (transform tr) (ps_pose sensor_to_tag)).
Proof.
  intros Ht Hd. unfold map_to_base_link, mapToBody, pose_to_affine3d.
  rewrite base_link_to_tag_bodyToLandmark, (fromMsg_toMsg_bodyToLandmark _ _ Ht Hd).
  reflexivity.
Qed.

Lemma unit_Quaternion_default : unit_quaternion Quaternion_default.
Proof. unfold unit_quaternion, Quaternion_default. simpl. lra. Qed.

Lemma mapToBody_translations (xl yl zl xt yt zt xd yd zd : R) :
  toMsg (mapToBody (pose_at xl yl zl) (mkTransform (mkPoint xt yt zt) Quaternion_default)
                   (pose_at xd yd zd))
  = pose_at (xl - (xt + xd)) (yl - (yt + yd)) (zl - (zt + zd)).
Proof.
  unfold mapToBody, bodyToLandmark, transformToEigen.
  cbn [tf_translation tf_rotation].
  change (mkPose (mkPoint xt yt zt) Quaternion_default) with (pose_at xt yt zt).
  rewrite !fromMsg_pose_at.
  assert (E : affine_mul (mkAffine3d Matrix3d_Identity (mkVector3d xl yl zl))
                (affine_inverse
                   (affine_mul (mkAffine3d Matrix3d_Identity (mkVector3d xt yt zt))
                               (mkAffine3d Matrix3d_Identity (mkVector3d xd yd zd))))
              = mkAffine3d Matrix3d_Identity
                  (mkVector3d (xl - (xt + xd)) (yl - (yt + yd)) (zl - (zt + zd))))
    by mat_eq.
  rewrite E. apply toMsg_translation.
Qed.

(** The candidate pose between poses that only translate. *)
Lemma map_to_base_link_translations sensor_to_tag tr (xl yl zl xt yt zt xd yd zd : R) :
  transform tr = mkTransform (mkPoint xt yt zt) Quaternion_default →
  ps_pose sensor_to_tag = pose_at xd yd zd →
  map_to_base_link (pose_at xl yl zl) sensor_to_tag tr
  = pose_at (xl - (xt + xd)) (yl - (yt + yd)) (zl - (zt + zd)).
Proof.
  intros Ht Hd. rewrite map_to_base_link_mapToBody.
  - rewrite Ht, Hd. apply mapToBody_translations.
  - rewrite Ht. apply unit_Quaternion_default.
  - rewrite Hd. apply unit_Quaternion_default.
Qed.

Lemma norm_same p1 : norm p1 p1 = 0.
Proof.
  unfold norm. replace (_ + _ + _) with 0 by ring. apply sqrt_0.
Qed.

Lemma unit_quat_conj q : unit_quaternion q → unit_quaternion (quat_conj q).
Proof.
  destruct q as [x y z w]. unfold unit_quaternion, quat_conj. simpl. intros H.
  rewrite <- H. ring.
Qed.

Lemma unit_quat_opp q : unit_quaternion q → unit_quaternion (quat_opp q).
Proof.
  destruct q as [x y z w]. unfold unit_quaternion, quat_opp. simpl. intros H.
  rewrite <- H. ring.
Qed.

Lemma determinant_toRotationMatrix q :
  unit_quaternion q → determinant (toRotationMatrix q) = 1.
Proof.
  intros Hu. rewrite (toRotationMatrix_scaled q Hu).
  destruct q as [x y z w]. unfold unit_quaternion in Hu. simpl in Hu.
  replace 1 with ((x * x + y * y + z * z + w * w) ^ 3) by (rewrite Hu; ring).
  cbv [determinant scaled_rotation m00 m01 m02 m10 m11 m12 m20 m21 m22 q_x q_y q_z q_w].
  ring.
Qed.

(** The inverse of the rotation of a unit quaternion is the rotation of its
    conjugate. *)
Lemma mat_inverse_toRotationMatrix q :
  unit_quaternion q → mat_inverse (toRotationMatrix q) = toRotationMatrix (quat_conj q).
Proof.
  intros Hu. unfold mat_inverse. rewrite (determinant_toRotationMatrix q Hu).
  rewrite (toRotationMatrix_scaled q Hu),
          (toRotationMatrix_scaled _ (unit_quat_conj q Hu)).
  destruct q as [x y z w]. unfold unit_quaternion in Hu. simpl in Hu.
  cbv [scaled_rotation quat_conj m00 m01 m02 m10 m11 m12 m20 m21 m22 q_x q_y q_z q_w].
  f_equal; rewrite Rinv_1, Rmult_1_r;
    match goal with
    | |- _ = ?r =>
        replace r with ((x * x + y * y + z * z + w * w) * r) by (rewrite Hu; ring)
    end; ring.
Qed.

(** A rigid transform whose linear part is the rotation of a unit quaternion
    goes through a pose message unchanged. *)
Lemma fromMsg_toMsg_rotation a q :
  linear a = toRotationMatrix q → unit_quaternion q → fromMsg (toMsg a) = a.
Proof.
  destruct a as [l [tx ty tz]]. cbn [linear]. intros -> Hu.
  unfold fromMsg, toMsg.
  cbn [linear translation position orientation p_x p_y p_z v_x v_y v_z].
  f_equal.
  destruct (Rlt_dec _ 0); rewrite ?toRotationMatrix_opp; apply rotation_round_trip, Hu.
Qed.

Lemma unit_toMsg a q :
  linear a = toRotationMatrix q → unit_quaternion q →
  unit_quaternion (orientation (toMsg a)).
Proof.
  intros Hl Hu. unfold toMsg. cbn [orientation]. rewrite Hl.
  destruct (Quaterniond_of_toRotationMatrix q Hu) as [-> | ->];
    destruct (Rlt_dec _ 0); auto using unit_quat_opp.
Qed.

Lemma toMsg_w_nonneg a : 0 <= q_w (orientation (toMsg a)).
Proof.
  unfold toMsg. cbn [orientation].
  destruct (Rlt_dec (q_w (Quaterniond_of_matrix (linear a))) 0) as [H|H].
  - unfold quat_opp. cbn [q_w]. lra.
  - lra.
Qed.

Lemma affine_mul_Identity_r a : affine_mul a Affine3d_Identity = a.
Proof. destruct a as [[] []]. mat_eq. Qed.

Lemma linear_bodyToLandmark sensor_to_body sensor_to_landmark :
  unit_quaternion (tf_rotation sensor_to_body) →
  unit_quaternion (orientation sensor_to_landmark) →
  linear (bodyToLandmark sensor_to_body sensor_to_landmark)
  = toRotationMatrix (quat_mul (tf_rotation sensor_to_body) (orientation sensor_to_landmark)).
Proof.
  intros Ht Hd. unfold bodyToLandmark, transformToEigen, fromMsg, affine_mul.
  cbn [linear orientation]. apply toRotationMatrix_quat_mul; assumption.
Qed.

Lemma linear_mapToBody map_to_landmark sensor_to_body sensor_to_landmark :
  unit_quaternion (orientation map_to_landmark) →
  unit_quaternion (tf_rotation sensor_to_body) →
  unit_quaternion (orientation sensor_to_landmark) →
  linear (mapToBody map_to_landmark sensor_to_body sensor_to_landmark)
  = toRotationMatrix
      (quat_mul (orientation map_to_landmark)
         (quat_conj (quat_mul (tf_rotation sensor_to_body) (orientation sensor_to_landmark)))).
Proof.
  intros Hl Ht Hd.
  pose proof (unit_quat_mul _ _ Ht Hd) as Hb.
  unfold mapToBody.
  change (linear (affine_mul ?a (affine_inverse ?b)))
    with (mat_mul (linear a) (mat_inverse (linear b))).
  rewrite (linear_bodyToLandmark _ _ Ht Hd), (mat_inverse_toRotationMatrix _ Hb).
  unfold fromMsg. cbn [linear].
  apply toRotationMatrix_quat_mul; [exact Hl | apply unit_quat_conj, Hb].
Qed.

(** ** The composition, by quaternion algebra *)

(** The rotation matrix of a quaternion acts on a vector as the quaternion
    does. *)
Lemma mat_vec_toRotationMatrix q p :
  mat_vec (toRotationMatrix q) (mkVector3d (p_x p) (p_y p) (p_z p))
  = mkVector3d (p_x (rotate q p)) (p_y (rotate q p)) (p_z (rotate q p)).
Proof.
  destruct q as [x y z w], p as [px py pz].
  cbv [mat_vec toRotationMatrix rotate m00 m01 m02 m10 m11 m12 m20 m21 m22
       v_x v_y v_z q_x q_y q_z q_w p_x p_y p_z].
  f_equal; ring.
Qed.

Lemma fromMsg_compose a b :
  unit_quaternion (orientation a) → unit_quaternion (orientation b) →
  fromMsg (compose a b) = affine_mul (fromMsg a) (fromMsg b).
Proof.
  intros Ha Hb. unfold fromMsg, compose, affine_mul.
  cbn [linear translation position orientation p_x p_y p_z].
  rewrite mat_vec_toRotationMatrix, (toRotationMatrix_quat_mul _ _ Ha Hb).
  cbv [vec_add v_x v_y v_z]. f_equal. f_equal; ring.
Qed.

Lemma fromMsg_invert a :
  unit_quaternion (orientation a) → fromMsg (invert a) = affine_inverse (fromMsg a).
Proof.
  intros Ha. unfold fromMsg, invert, affine_inverse.
  cbn [linear translation position orientation p_x p_y p_z].
  rewrite (mat_inverse_toRotationMatrix _ Ha), mat_vec_toRotationMatrix.
  reflexivity.
Qed.

Lemma unit_mapToBody_pose map_to_landmark sensor_to_body sensor_to_landmark :
  unit_quaternion (orientation map_to_landmark) →
  unit_quaternion (tf_rotation sensor_to_body) →
  unit_quaternion (orientation sensor_to_landmark) →
  unit_quaternion
    (orientation (mapToBody_pose map_to_landmark sensor_to_body sensor_to_landmark)).
Proof.
  intros Hl Ht Hd. unfold mapToBody_pose, compose, invert, Pose_of_Transform.
  cbn [orientation].
  apply unit_quat_mul; [exact Hl|]. apply unit_quat_conj, unit_quat_mul; assumption.
Qed.

(** The transform that the code composes with matrices is the pose that the
    specification composes. *)
Lemma mapToBody_fromMsg map_to_landmark sensor_to_body sensor_to_landmark :
  unit_quaternion (orientation map_to_landmark) →
  unit_quaternion (tf_rotation sensor_to_body) →
  unit_quaternion (orientation sensor_to_landmark) →
  mapToBody map_to_landmark sensor_to_body sensor_to_landmark
  = fromMsg (mapToBody_pose map_to_landmark sensor_to_body sensor_to_landmark).
Proof.
  intros Hl Ht Hd. unfold mapToBody_pose.
  assert (Hb : unit_quaternion
                 (orientation (compose (Pose_of_Transform sensor_to_body) sensor_to_landmark))).
  { unfold compose, Pose_of_Transform. cbn [orientation]. apply unit_quat_mul; assumption. }
  rewrite fromMsg_compose, (fromMsg_invert _ Hb), fromMsg_compose.
  - reflexivity.
  - exact Ht.
  - exact Hd.
  - exact Hl.
  - unfold invert. cbn [orientation]. apply unit_quat_conj, Hb.
Qed.

Lemma quat_opp_involutive q : quat_opp (quat_opp q) = q.
Proof. destruct q. unfold quat_opp. cbn [q_x q_y q_z q_w]. f_equal; lra. Qed.

(** A pose with a unit quaternion comes back from its rigid transform with
    the same position, and with the same orientation up to the sign of the
    quaternion. *)
Lemma toMsg_fromMsg p :
  unit_quaternion (orientation p) →
  position (toMsg (fromMsg p)) = position p ∧
  (orientation (toMsg (fromMsg p)) = orientation p ∨
   orientation (toMsg (fromMsg p)) = quat_opp (orientation p)).
Proof.
  destruct p as [[x y z] q]. cbn [orientation position]. intros Hu.
  unfold toMsg, fromMsg.
  cbn [linear translation position orientation p_x p_y p_z v_x v_y v_z].
  split; [reflexivity|].
  destruct (Quaterniond_of_toRotationMatrix q Hu) as [-> | ->];
    destruct (Rlt_dec _ 0); rewrite ?quat_opp_involutive; auto.
Qed.

(** A detection that passes the six checks is published, provided the base
    covariance has the 36 entries that the loop reads. *)
Lemma all_checks_publish sensor_to_tag tag_id n map_to_tag tr :
  tag_id ∈ target_tag_ids_ n →
  landmark_map_ n !! tag_id = Some map_to_tag →
  distance_squared sensor_to_tag <= distance_threshold_squared_ n →
  tf_buffer_ n "base_link" (frame_id (ps_header sensor_to_tag)) = inl tr →
  diff_time sensor_to_tag n <= ekf_time_tolerance_ n →
  diff_position map_to_tag sensor_to_tag tr n <= ekf_position_tolerance_ n →
  (36 ≤ length (base_covariance_ n))%nat →
  publish_pose_as_base_link sensor_to_tag tag_id n
  = Ok Published n
      [PublishPose
         (fused_message map_to_tag sensor_to_tag tr
            (map (Rmult (covariance_coeff sensor_to_tag)) (take 36 (base_covariance_ n))))].
Proof.
  intros Hw Hm Hr Ht Hs Hp Hc.
  apply (path_Published _ _ _ map_to_tag Hw Hm) with (tr := tr); try assumption;
    try (apply Rle_not_lt; assumption).
  apply scale_covariance_Some. split; [exact Hc | reflexivity].
Qed.

(** C1.  A detection that passes the six checks is published with the pose
    [mapToLandmark ∘ invert(bodyToLandmark)], [bodyToLandmark] being the
    sensor-to-body transform composed with the detection's pose.  The code
    composes and inverts 4x4 matrices, and reads [bodyToLandmark] back from
    the pose message that the transform service returns; for unit
    quaternions the published position is that of the composition made by
    quaternion algebra alone, and the published orientation is its
    orientation, up to the sign of the quaternion, with [w] not negative.
    In particular a landmark "5" at (10, 0, 0), seen at (2, 0, 0) through an
    identity sensor-to-body transform, with the reference pose at (8, 0, 0)
    and within the tolerances, gives the fused pose (8, 0, 0). *)
Theorem fused_pose_is_composition :
  (∀ sensor_to_tag tag_id n map_to_tag tr,
     tag_id ∈ target_tag_ids_ n →
     landmark_map_ n !! tag_id = Some map_to_tag →
     distance_squared sensor_to_tag <= distance_threshold_squared_ n →
     tf_buffer_ n "base_link" (frame_id (ps_header sensor_to_tag)) = inl tr →
     diff_time sensor_to_tag n <= ekf_time_tolerance_ n →
     diff_position map_to_tag sensor_to_tag tr n <= ekf_position_tolerance_ n →
     (36 ≤ length (base_covariance_ n))%nat →
     ∃ msg,
       publish_pose_as_base_link sensor_to_tag tag_id n = Ok Published n [PublishPose msg] ∧
       pose (pose_cov msg)
       = toMsg (affine_mul (fromMsg map_to_tag)
                  (affine_inverse
                     (fromMsg (toMsg (bodyToLandmark (transform tr)
                                        (ps_pose sensor_to_tag)))))) ∧
       (unit_quaternion (tf_rotation (transform tr)) →
        unit_quaternion (orientation (ps_pose sensor_to_tag)) →
        pose (pose_cov msg)
        = toMsg (mapToBody map_to_tag (transform tr) (ps_pose sensor_to_tag))) ∧
       (unit_quaternion (orientation map_to_tag) →
        unit_quaternion (tf_rotation (transform tr)) →
        unit_quaternion (orientation (ps_pose sensor_to_tag)) →
        let expected := mapToBody_pose map_to_tag (transform tr) (ps_pose sensor_to_tag) in
        position (pose (pose_cov msg)) = position expected ∧
        (orientation (pose (pose_cov msg)) = orientation expected ∨
         orientation (pose (pose_cov msg)) = quat_opp (orientation expected)) ∧
        0 <= q_w (orientation (pose (pose_cov msg))))) ∧
  (∀ sensor_to_tag n tr,
     "5" ∈ target_tag_ids_ n →
     landmark_map_ n !! "5" = Some (pose_at 10 0 0) →
     ps_pose sensor_to_tag = pose_at 2 0 0 →
     tf_buffer_ n "base_link" (frame_id (ps_header sensor_to_tag)) = inl tr →
     transform tr = Transform_Identity →
     position (pose (pose_cov (latest_ekf_pose_ n))) = mkPoint 8 0 0 →
     2 * 2 <= distance_threshold_squared_ n →
     diff_time sensor_to_tag n <= ekf_time_tolerance_ n →
     0 <= ekf_position_tolerance_ n →
     (36 ≤ length (base_covariance_ n))%nat →
     ∃ msg,
       publish_pose_as_base_link sensor_to_tag "5" n = Ok Published n [PublishPose msg] ∧
       pose (pose_cov msg) = pose_at 8 0 0).
Proof.
  split.
  - intros sensor_to_tag tag_id n map_to_tag tr Hw Hm Hr Ht Hs Hp Hc.
    eexists. split; [|split; [|split]].
    + apply (all_checks_publish _ _ _ map_to_tag tr); assumption.
    + reflexivity.
    + intros Hut Hud. cbn [fused_message pose_cov pose].
      apply map_to_base_link_mapToBody; assumption.
    + intros Hul Hut Hud expected. cbn [fused_message pose_cov pose].
      rewrite (map_to_base_link_mapToBody _ _ _ Hut Hud),
              (mapToBody_fromMsg _ _ _ Hul Hut Hud).
      destruct (toMsg_fromMsg expected (unit_mapToBody_pose _ _ _ Hul Hut Hud))
        as [Hpos Hori].
      split; [exact Hpos|]. split; [exact Hori | apply toMsg_w_nonneg].
  - intros sensor_to_tag n tr Hw Hm Hpose Ht Htr Href Hr Hs Hp Hc.
    assert (Hfused : map_to_base_link (pose_at 10 0 0) sensor_to_tag tr = pose_at 8 0 0).
    { rewrite (map_to_base_link_translations _ _ 10 0 0 0 0 0 2 0 0 Htr Hpose).
      unfold pose_at. repeat f_equal; lra. }
    eexists. split.
    + apply (all_checks_publish _ _ _ (pose_at 10 0 0) tr); try assumption.
      * unfold distance_squared. rewrite Hpose. simpl. lra.
      * unfold diff_position. rewrite Hfused, Href.
        change (position (pose_at 8 0 0)) with (mkPoint 8 0 0).
        rewrite norm_same. exact Hp.
    + cbn [fused_message pose_cov pose]. exact Hfused.
Qed.

(** ** The gating order *)

Lemma no_pose_logs {A} (a : A) n s l : no_pose (Ok a n [Log s l]).
Proof. reflexivity. Qed.

Lemma no_pose_nil {A} (a : A) n : no_pose (Ok a n []).
Proof. reflexivity. Qed.

Lemma no_pose_Fault {A} : no_pose (@Fault A).
Proof. reflexivity. Qed.

Lemma gating_order_index (i : nat) g : gating_order !! i = Some g → i = gate_index g.
Proof.
  unfold gating_order.
  do 6 (destruct i as [|i]; [intros [= <-]; reflexivity|]).
  intros H. discriminate H.
Qed.

Lemma precedes_lt g' g : precedes g' g → (gate_index g' < gate_index g)%nat.
Proof.
  intros (i & j & Hi & Hj & Hij).
  apply gating_order_index in Hi, Hj. lia.
Qed.

Lemma precedes_index (i j : nat) g' g :
  gating_order !! i = Some g' → gating_order !! j = Some g → (i < j)%nat → precedes g' g.
Proof. intros. exists i, j. auto. Qed.

Lemma candidate_Some n sensor_to_tag tag_id map_to_tag tr :
  landmark_map_ n !! tag_id = Some map_to_tag →
  tf_buffer_ n "base_link" (frame_id (ps_header sensor_to_tag)) = inl tr →
  candidate n sensor_to_tag tag_id = Some (map_to_base_link map_to_tag sensor_to_tag tr).
Proof. intros Hm Ht. unfold candidate. rewrite Hm. simpl. rewrite Ht. reflexivity. Qed.

(** A rejected or faulting run publishes nothing. *)
Lemma runs_no_pose sensor_to_tag tag_id n r :
  runs sensor_to_tag tag_id n r → verdict r ≠ Some Published → no_pose r.
Proof. intros H Hv. destruct H; try reflexivity. now destruct Hv. Qed.

(** C2.  The six checks are applied in the order whitelist, registry, range,
    frame transform, temporal, spatial: the call returns at the first check
    that fails, without publishing a pose.  In particular an identifier
    outside the whitelist or outside the landmark registry never yields a
    fused pose, whatever the other fields. *)
Theorem gating_order_first_failure sensor_to_tag tag_id n :
  (∀ g, first_failing g n sensor_to_tag tag_id →
        verdict (publish_pose_as_base_link sensor_to_tag tag_id n) = Some (rejection g) ∧
        no_pose (publish_pose_as_base_link sensor_to_tag tag_id n)) ∧
  (∀ g, verdict (publish_pose_as_base_link sensor_to_tag tag_id n) = Some (rejection g) →
        first_failing g n sensor_to_tag tag_id) ∧
  (tag_id ∉ target_tag_ids_ n →
     no_pose (publish_pose_as_base_link sensor_to_tag tag_id n)) ∧
  (landmark_map_ n !! tag_id = None →
     no_pose (publish_pose_as_base_link sensor_to_tag tag_id n)).
Proof.
  pose proof (publish_pose_runs sensor_to_tag tag_id n) as Hruns.
  assert (P01 := precedes_index 0 1 WhitelistCheck RegistryCheck eq_refl eq_refl ltac:(lia)).
  assert (P02 := precedes_index 0 2 WhitelistCheck RangeCheck eq_refl eq_refl ltac:(lia)).
  assert (P03 := precedes_index 0 3 WhitelistCheck FrameTransformCheck eq_refl eq_refl ltac:(lia)).
  assert (P04 := precedes_index 0 4 WhitelistCheck TemporalCheck eq_refl eq_refl ltac:(lia)).
  assert (P05 := precedes_index 0 5 WhitelistCheck SpatialCheck eq_refl eq_refl ltac:(lia)).
  assert (P12 := precedes_index 1 2 RegistryCheck RangeCheck eq_refl eq_refl ltac:(lia)).
  assert (P13 := precedes_index 1 3 RegistryCheck FrameTransformCheck eq_refl eq_refl ltac:(lia)).
  assert (P14 := precedes_index 1 4 RegistryCheck TemporalCheck eq_refl eq_refl ltac:(lia)).
  assert (P15 := precedes_index 1 5 RegistryCheck SpatialCheck eq_refl eq_refl ltac:(lia)).
  assert (P23 := precedes_index 2 3 RangeCheck FrameTransformCheck eq_refl eq_refl ltac:(lia)).
  assert (P24 := precedes_index 2 4 RangeCheck TemporalCheck eq_refl eq_refl ltac:(lia)).
  assert (P25 := precedes_index 2 5 RangeCheck SpatialCheck eq_refl eq_refl ltac:(lia)).
  assert (P34 := precedes_index 3 4 FrameTransformCheck TemporalCheck eq_refl eq_refl ltac:(lia)).
  assert (P35 := precedes_index 3 5 FrameTransformCheck SpatialCheck eq_refl eq_refl ltac:(lia)).
  assert (P45 := precedes_index 4 5 TemporalCheck SpatialCheck eq_refl eq_refl ltac:(lia)).
  split; [|split; [|split]].
  - (* the first failing check decides the return statement, and nothing is
       published *)
    intros g [Hfail Hbefore].
    assert (Hv : verdict (publish_pose_as_base_link sensor_to_tag tag_id n)
                 = Some (rejection g)).
    { destruct g; cbn [admissible] in Hfail.
      + rewrite path_NotTarget by exact Hfail. reflexivity.
      + pose proof (Hbefore _ P01) as Hw. cbn [admissible] in Hw.
        rewrite path_NotInMap; [reflexivity | exact Hw |].
        destruct (landmark_map_ n !! tag_id) eqn:E; [|reflexivity].
        exfalso. apply Hfail. eauto.
      + pose proof (Hbefore _ P02) as Hw.
        pose proof (Hbefore _ P12) as [map_to_tag Hm]. cbn [admissible] in Hw.
        rewrite (path_OutOfRange _ _ _ map_to_tag Hw Hm); [reflexivity|]. lra.
      + pose proof (Hbefore _ P03) as Hw.
        pose proof (Hbefore _ P13) as [map_to_tag Hm].
        pose proof (Hbefore _ P23) as Hr. cbn [admissible] in Hw, Hr.
        destruct (tf_buffer_ n "base_link" (frame_id (ps_header sensor_to_tag)))
          as [tr|ex] eqn:Ht; [exfalso; apply Hfail; eauto|].
        rewrite (path_NoTransform _ _ _ map_to_tag Hw Hm (Rle_not_lt _ _ Hr) ex Ht).
        reflexivity.
      + pose proof (Hbefore _ P04) as Hw.
        pose proof (Hbefore _ P14) as [map_to_tag Hm].
        pose proof (Hbefore _ P24) as Hr.
        pose proof (Hbefore _ P34) as [tr Ht]. cbn [admissible] in Hw, Hr.
        rewrite (path_StaleEkfPose _ _ _ map_to_tag Hw Hm (Rle_not_lt _ _ Hr) tr Ht);
          [reflexivity|].
        destruct (Rgt_dec (diff_time sensor_to_tag n) (ekf_time_tolerance_ n)); tauto.
      + pose proof (Hbefore _ P05) as Hw.
        pose proof (Hbefore _ P15) as [map_to_tag Hm].
        pose proof (Hbefore _ P25) as Hr.
        pose proof (Hbefore _ P35) as [tr Ht].
        pose proof (Hbefore _ P45) as Hs. cbn [admissible] in Hw, Hr, Hs.
        rewrite (path_FarFromEkfPose _ _ _ map_to_tag Hw Hm (Rle_not_lt _ _ Hr) tr Ht Hs);
          [reflexivity|].
        destruct (Rgt_dec (diff_position map_to_tag sensor_to_tag tr n)
                          (ekf_position_tolerance_ n)) as [Hy|Hn]; [exact Hy|].
        exfalso. apply Hfail. intros c Hc.
        rewrite (candidate_Some _ _ _ _ _ Hm Ht) in Hc. injection Hc as <-.
        unfold diff_position in Hn. exact Hn. }
    split; [exact Hv|].
    apply (runs_no_pose _ _ _ _ Hruns). rewrite Hv. destruct g; discriminate.
  - (* a rejection at [g] means that [g] is the first failing check *)
    intros g Hv. revert Hv.
    destruct Hruns as [Hw|Hw Hm|mt Hw Hm Hr|mt ex Hw Hm Hr Ht|mt tr Hw Hm Hr Ht Hs
                      |mt tr Hw Hm Hr Ht Hs Hp|mt tr cov Hw Hm Hr Ht Hs Hp Hc
                      |mt tr Hw Hm Hr Ht Hs Hp Hc];
      cbn [verdict]; intros Hv; try discriminate Hv;
      injection Hv as Hv; destruct g; try discriminate Hv.
    all: split; [cbn [admissible]|intros g' Hlt%precedes_lt].
    all: try (destruct g'; cbn [gate_index] in Hlt; try lia;
              cbn [admissible]; eauto; lra).
    all: try tauto; try lra.
    + rewrite Hm. intros [x Hx]. discriminate.
    + rewrite Ht. intros [x Hx]. discriminate.
    + intros Hc. unfold diff_position in Hp.
      apply (Hc _ (candidate_Some _ _ _ _ _ Hm Ht)). exact Hp.
  - intros Hw. rewrite path_NotTarget by exact Hw. reflexivity.
  - intros Hm. destruct Hruns; try reflexivity; congruence.
Qed.

(** ** Covariance scaling *)

Lemma sqrt_distance_squared sensor_to_tag :
  0 <= distance_squared sensor_to_tag ∧
  sqrt (distance_squared sensor_to_tag) * sqrt (distance_squared sensor_to_tag)
  = distance_squared sensor_to_tag.
Proof.
  assert (H : 0 <= distance_squared sensor_to_tag).
  { unfold distance_squared. nra. }
  split; [exact H | apply sqrt_sqrt, H].
Qed.

Lemma std_max_ge_l a b : a <= std_max a b.
Proof. unfold std_max. destruct (Rlt_dec a b); lra. Qed.

Lemma covariance_coeff_at_3 sensor_to_tag :
  sqrt (distance_squared sensor_to_tag) = 3 → covariance_coeff sensor_to_tag = 1.
Proof.
  intros H. unfold covariance_coeff, std_max. rewrite H.
  destruct (Rlt_dec 1 ((3 / 5) ^ 3)) as [Hlt|_]; [exfalso; lra | reflexivity].
Qed.

Lemma covariance_coeff_at_10 sensor_to_tag :
  sqrt (distance_squared sensor_to_tag) = 10 → covariance_coeff sensor_to_tag = 8.
Proof.
  intros H. unfold covariance_coeff, std_max. rewrite H.
  destruct (Rlt_dec 1 ((10 / 5) ^ 3)) as [_|Hge]; [|exfalso]; lra.
Qed.

Lemma map_Rmult_1 (l : list R) : map (Rmult 1) l = l.
Proof. induction l as [|x l IH]; simpl; [reflexivity|]. rewrite IH. f_equal. lra. Qed.

(** A pose that the run publishes is the message built from the landmark,
    the transform and the scaled base covariance. *)
Lemma published_message sensor_to_tag tag_id n msg :
  PublishPose msg ∈ effects (publish_pose_as_base_link sensor_to_tag tag_id n) →
  ∃ map_to_tag tr,
    landmark_map_ n !! tag_id = Some map_to_tag ∧
    tf_buffer_ n "base_link" (frame_id (ps_header sensor_to_tag)) = inl tr ∧
    distance_squared sensor_to_tag <= distance_threshold_squared_ n ∧
    (36 ≤ length (base_covariance_ n))%nat ∧
    msg = fused_message map_to_tag sensor_to_tag tr
            (map (Rmult (covariance_coeff sensor_to_tag)) (take 36 (base_covariance_ n))) ∧
    publish_pose_as_base_link sensor_to_tag tag_id n = Ok Published n [PublishPose msg].
Proof.
  intros Hin.
  pose proof (publish_pose_runs sensor_to_tag tag_id n) as Hruns.
  revert Hin.
  destruct Hruns as [Hw|Hw Hm|mt Hw Hm Hr|mt ex Hw Hm Hr Ht|mt tr Hw Hm Hr Ht Hs
                    |mt tr Hw Hm Hr Ht Hs Hp|mt tr cov Hw Hm Hr Ht Hs Hp Hc
                    |mt tr Hw Hm Hr Ht Hs Hp Hc];
    cbn [effects]; intros Hin.
  all: try (apply list_elem_of_singleton in Hin; discriminate Hin).
  all: try (apply not_elem_of_nil in Hin; contradiction).
  apply list_elem_of_singleton in Hin. injection Hin as ->.
  apply scale_covariance_Some in Hc as [Hlen ->].
  exists mt, tr. repeat split; try assumption; try reflexivity. lra.
Qed.

(** C3.  Each of the 36 covariance entries of an emitted pose is [coeff]
    times the base entry, with [coeff = max(1, (distance / 5)^3)] and
    [distance] the norm of the detection's translation, whose square the range
    check has compared with the squared threshold.  So [coeff] is at least 1; at distance 3 the covariance is the
    base covariance; at distance 10 each entry is 8 times the base entry. *)
Theorem covariance_scaling sensor_to_tag tag_id n msg :
  PublishPose msg ∈ effects (publish_pose_as_base_link sensor_to_tag tag_id n) →
  let distance := sqrt (distance_squared sensor_to_tag) in
  let coeff := std_max 1 ((distance / 5) ^ 3) in
  (distance * distance = distance_squared sensor_to_tag ∧
   distance_squared sensor_to_tag <= distance_threshold_squared_ n) ∧
  length (covariance (pose_cov msg)) = 36%nat ∧
  (∀ i : nat, (i < 36)%nat →
     ∃ b, base_covariance_ n !! i = Some b ∧
          covariance (pose_cov msg) !! i = Some (coeff * b)) ∧
  1 <= coeff ∧
  (distance = 3 → covariance (pose_cov msg) = take 36 (base_covariance_ n)) ∧
  (distance = 10 →
     ∀ (i : nat) b, (i < 36)%nat → base_covariance_ n !! i = Some b →
                    covariance (pose_cov msg) !! i = Some (8 * b)).
Proof.
  intros Hin distance coeff.
  destruct (published_message _ _ _ _ Hin) as (mt & tr & Hm & Ht & Hr & Hlen & -> & _).
  cbn [fused_message pose_cov covariance].
  change (covariance_coeff sensor_to_tag) with coeff.
  assert (Hentry : ∀ (i : nat) b, (i < 36)%nat → base_covariance_ n !! i = Some b →
            map (Rmult coeff) (take 36 (base_covariance_ n)) !! i = Some (coeff * b)).
  { intros i b Hi Hb. rewrite list_lookup_fmap, lookup_take_lt by exact Hi.
    rewrite Hb. reflexivity. }
  split; [|split; [|split; [|split; [|split]]]].
  - split; [apply sqrt_distance_squared | exact Hr].
  - rewrite length_map, length_take. lia.
  - intros i Hi.
    destruct (lookup_lt_is_Some_2 (base_covariance_ n) i ltac:(lia)) as [b Hb].
    exists b. split; [exact Hb | apply Hentry; assumption].
  - apply std_max_ge_l.
  - intros Hd. unfold coeff, distance in *.
    change (std_max 1 ((sqrt (distance_squared sensor_to_tag) / 5) ^ 3))
      with (covariance_coeff sensor_to_tag).
    rewrite (covariance_coeff_at_3 _ Hd). apply map_Rmult_1.
  - intros Hd i b Hi Hb. unfold coeff, distance in *.
    rewrite <- (covariance_coeff_at_10 _ Hd). apply Hentry; assumption.
Qed.

(** ** The spatial check, the transform lookup and the node state *)

(** C7.  The spatial consistency check computes the candidate fused position
    and rejects, without output, exactly when its Euclidean distance to the
    reference position strictly exceeds the position tolerance; a distance
    equal to the tolerance is accepted. *)
Theorem spatial_consistency_check sensor_to_tag tag_id n map_to_tag tr :
  tag_id ∈ target_tag_ids_ n →
  landmark_map_ n !! tag_id = Some map_to_tag →
  distance_squared sensor_to_tag <= distance_threshold_squared_ n →
  tf_buffer_ n "base_link" (frame_id (ps_header sensor_to_tag)) = inl tr →
  diff_time sensor_to_tag n <= ekf_time_tolerance_ n →
  let candidate_position :=
    position (map_to_base_link map_to_tag sensor_to_tag tr) in
  let reference_position := position (pose (pose_cov (latest_ekf_pose_ n))) in
  let distance := norm candidate_position reference_position in
  (verdict (publish_pose_as_base_link sensor_to_tag tag_id n) = Some FarFromEkfPose
   ↔ distance > ekf_position_tolerance_ n) ∧
  (distance > ekf_position_tolerance_ n →
   no_pose (publish_pose_as_base_link sensor_to_tag tag_id n)) ∧
  (distance = ekf_position_tolerance_ n →
   verdict (publish_pose_as_base_link sensor_to_tag tag_id n) ≠ Some FarFromEkfPose) ∧
  (distance <= ekf_position_tolerance_ n →
   (36 ≤ length (base_covariance_ n))%nat →
   ∃ msg,
     publish_pose_as_base_link sensor_to_tag tag_id n = Ok Published n [PublishPose msg] ∧
     position (pose (pose_cov msg)) = candidate_position).
Proof.
  intros Hw Hm Hr Ht Hs candidate_position reference_position distance.
  assert (Hd : distance = diff_position map_to_tag sensor_to_tag tr n) by reflexivity.
  assert (Hr' := Rle_not_lt _ _ Hr). assert (Hs' := Rle_not_gt _ _ Hs).
  assert (Hiff : verdict (publish_pose_as_base_link sensor_to_tag tag_id n)
                 = Some FarFromEkfPose ↔ distance > ekf_position_tolerance_ n).
  { rewrite Hd. split.
    - intros Hv.
      destruct (Rgt_dec (diff_position map_to_tag sensor_to_tag tr n)
                        (ekf_position_tolerance_ n)) as [Hy|Hn]; [exact Hy|].
      exfalso. revert Hv.
      destruct (scale_covariance (covariance_coeff sensor_to_tag) (base_covariance_ n))
        as [cov|] eqn:Hc.
      + rewrite (path_Published _ _ _ map_to_tag Hw Hm Hr' tr Ht Hs' Hn cov Hc).
        discriminate.
      + rewrite (path_Fault _ _ _ map_to_tag Hw Hm Hr' tr Ht Hs' Hn Hc). discriminate.
    - intros Hp.
      rewrite (path_FarFromEkfPose _ _ _ map_to_tag Hw Hm Hr' tr Ht Hs' Hp).
      reflexivity. }
  split; [exact Hiff|]. split; [|split].
  - rewrite Hd. intros Hp.
    rewrite (path_FarFromEkfPose _ _ _ map_to_tag Hw Hm Hr' tr Ht Hs' Hp). reflexivity.
  - intros Heq Hv. apply Hiff in Hv. lra.
  - rewrite Hd. intros Hp Hc. eexists. split.
    + apply (all_checks_publish _ _ _ map_to_tag tr); assumption.
    + reflexivity.
Qed.

(** C8.  The frame transform check asks the buffer for the transform from the
    detection's frame to [base_link] at the latest time; whatever exception
    the lookup throws is caught: the call returns normally, logs, and
    publishes nothing.  Only that one query of the buffer matters. *)
Theorem frame_transform_failure sensor_to_tag tag_id n :
  (∀ map_to_tag ex,
     tag_id ∈ target_tag_ids_ n →
     landmark_map_ n !! tag_id = Some map_to_tag →
     distance_squared sensor_to_tag <= distance_threshold_squared_ n →
     tf_buffer_ n "base_link" (frame_id (ps_header sensor_to_tag)) = inr ex →
     publish_pose_as_base_link sensor_to_tag tag_id n
     = Ok NoTransform n [Log INFO (CouldNotTransform ex)] ∧
     no_pose (publish_pose_as_base_link sensor_to_tag tag_id n)) ∧
  (∀ content : Buffer,
     content "base_link" (frame_id (ps_header sensor_to_tag))
     = tf_buffer_ n "base_link" (frame_id (ps_header sensor_to_tag)) →
     observable (publish_pose_as_base_link sensor_to_tag tag_id (set_tf_buffer_ content n))
     = observable (publish_pose_as_base_link sensor_to_tag tag_id n)).
Proof.
  split.
  - intros map_to_tag ex Hw Hm Hr Ht.
    rewrite (path_NoTransform _ _ _ map_to_tag Hw Hm (Rle_not_lt _ _ Hr) ex Ht).
    split; reflexivity.
  - intros content Hq.
    pose proof (publish_pose_runs sensor_to_tag tag_id n) as Hruns.
    destruct Hruns as [Hw|Hw Hm|mt Hw Hm Hr|mt ex Hw Hm Hr Ht|mt tr Hw Hm Hr Ht Hs
                      |mt tr Hw Hm Hr Ht Hs Hp|mt tr cov Hw Hm Hr Ht Hs Hp Hc
                      |mt tr Hw Hm Hr Ht Hs Hp Hc].
    + rewrite path_NotTarget by exact Hw. reflexivity.
    + rewrite path_NotInMap by assumption. reflexivity.
    + rewrite (path_OutOfRange _ _ _ mt) by assumption. reflexivity.
    + rewrite (path_NoTransform _ _ (set_tf_buffer_ content n) mt Hw Hm Hr ex).
      * reflexivity.
      * cbn [set_tf_buffer_ tf_buffer_]. congruence.
    + rewrite (path_StaleEkfPose _ _ (set_tf_buffer_ content n) mt Hw Hm Hr tr).
      * reflexivity.
      * cbn [set_tf_buffer_ tf_buffer_]. congruence.
      * exact Hs.
    + rewrite (path_FarFromEkfPose _ _ (set_tf_buffer_ content n) mt Hw Hm Hr tr).
      * reflexivity.
      * cbn [set_tf_buffer_ tf_buffer_]. congruence.
      * exact Hs.
      * exact Hp.
    + rewrite (path_Published _ _ (set_tf_buffer_ content n) mt Hw Hm Hr tr) with (cov := cov).
      * reflexivity.
      * cbn [set_tf_buffer_ tf_buffer_]. congruence.
      * exact Hs.
      * exact Hp.
      * exact Hc.
    + rewrite (path_Fault _ _ (set_tf_buffer_ content n) mt Hw Hm Hr tr).
      * reflexivity.
      * cbn [set_tf_buffer_ tf_buffer_]. congruence.
      * exact Hs.
      * exact Hp.
      * exact Hc.
Qed.

Lemma Ok_inj {A} (a a' : A) n n' out out' :
  Ok a n out = Ok a' n' out' → a = a' ∧ n = n' ∧ out = out'.
Proof. intros [= -> -> ->]. auto. Qed.

(** C9.  Processing a detection leaves the node as it was, fused or rejected:
    registry, reference pose, camera calibration and configuration are
    unchanged, and beyond a log line the only effect is the publication of at
    most one fused pose. *)
Theorem detection_leaves_node_unchanged sensor_to_tag tag_id n v n' out :
  publish_pose_as_base_link sensor_to_tag tag_id n = Ok v n' out →
  n' = n ∧
  (landmark_map_ n' = landmark_map_ n ∧
   latest_ekf_pose_ n' = latest_ekf_pose_ n ∧
   cam_param_ n' = cam_param_ n ∧
   cam_info_received_ n' = cam_info_received_ n ∧
   target_tag_ids_ n' = target_tag_ids_ n ∧
   distance_threshold_squared_ n' = distance_threshold_squared_ n ∧
   ekf_time_tolerance_ n' = ekf_time_tolerance_ n ∧
   ekf_position_tolerance_ n' = ekf_position_tolerance_ n ∧
   base_covariance_ n' = base_covariance_ n) ∧
  match v with
  | Published => ∃ msg, out = [PublishPose msg]
  | _ => Forall (λ e, is_Log e = true) out
  end.
Proof.
  destruct (publish_pose_runs sensor_to_tag tag_id n)
    as [Hw|Hw Hm|mt Hw Hm Hr|mt ex Hw Hm Hr Ht|mt tr Hw Hm Hr Ht Hs
       |mt tr Hw Hm Hr Ht Hs Hp|mt tr cov Hw Hm Hr Ht Hs Hp Hc
       |mt tr Hw Hm Hr Ht Hs Hp Hc];
    intros Hrun; try discriminate Hrun; apply Ok_inj in Hrun as (<- & <- & <-).
  all: split; [reflexivity|]; split; [repeat split; reflexivity|].
  all: try (repeat constructor; fail).
  eexists. reflexivity.
Qed.

(** ** The concrete node *)

Lemma configured_node_reached (distance_threshold time_tolerance : R) (cov : list R) :
  ∃ out,
    (setup (example_parameters distance_threshold time_tolerance cov) ≫= λ _,
     spin example_events) ArTagBasedLocalizer
    = Ok tt (configured_node distance_threshold time_tolerance cov) out.
Proof. eexists. reflexivity. Qed.

Lemma example_candidate sec ns x y z :
  map_to_base_link (pose_at 10 0 0) (example_detection sec ns x y z) example_transform
  = pose_at (10 - (0 + x)) (0 - (0 + y)) (0 - (0 + z)).
Proof. now apply map_to_base_link_translations. Qed.

Lemma example_diff_position d t cov sec ns x :
  diff_position (pose_at 10 0 0) (example_detection sec ns x 0 0) example_transform
    (configured_node d t cov)
  = sqrt ((2 - x) ^ 2).
Proof.
  unfold diff_position. rewrite example_candidate.
  unfold norm, pose_at, configured_node, example_reference;
    cbn [position pose pose_cov latest_ekf_pose_ p_x p_y p_z].
  unfold pose_at; cbn [position p_x p_y p_z].
  f_equal. ring.
Qed.

Lemma example_diff_time d t cov sec ns x y z :
  diff_time (example_detection sec ns x y z) (configured_node d t cov)
  = IZR (sec * 1000000000 + ns - 10000000000) / 1000000000.
Proof. reflexivity. Qed.

Lemma sqrt_le_1 a : 0 <= a → a <= 1 → sqrt a <= 1.
Proof. intros H0 H1. rewrite <- sqrt_1. now apply sqrt_le_1_alt. Qed.

(** The configured node fuses a detection of landmark "5" that is in range,
    fresh and within a metre of the reference. *)
Lemma configured_node_publishes d t cov sec ns x :
  x * x <= d ^ 2 →
  IZR (sec * 1000000000 + ns - 10000000000) / 1000000000 <= t →
  (2 - x) ^ 2 <= 1 →
  (36 ≤ length cov)%nat →
  publish_pose_as_base_link (example_detection sec ns x 0 0) "5" (configured_node d t cov)
  = Ok Published (configured_node d t cov)
      [PublishPose
         (fused_message (pose_at 10 0 0) (example_detection sec ns x 0 0) example_transform
            (map (Rmult (covariance_coeff (example_detection sec ns x 0 0))) (take 36 cov)))].
Proof.
  intros Hr Hs Hp Hc.
  apply (all_checks_publish _ _ (configured_node d t cov) (pose_at 10 0 0) example_transform).
  - left.
  - reflexivity.
  - unfold distance_squared, configured_node, example_detection, pose_at;
      cbn [position ps_pose p_x p_y p_z distance_threshold_squared_]. lra.
  - reflexivity.
  - rewrite example_diff_time. exact Hs.
  - rewrite example_diff_position. apply sqrt_le_1; [apply pow2_ge_0 | exact Hp].
  - exact Hc.
Qed.

(** ** The temporal and range checks *)

(** C5.  Past the first four checks a detection is rejected by the temporal
    check, without output, exactly when Δt = detection stamp − reference
    stamp strictly exceeds the configured time tolerance.  A negative Δt (a
    reference newer than the detection) is accepted, the tolerance being a
    duration, not negative.  With a tolerance of 0.5 s, Δt = 0.6 s is
    rejected and Δt = 0.4 s goes on to the spatial check. *)
Theorem temporal_consistency_check sensor_to_tag tag_id n map_to_tag tr :
  tag_id ∈ target_tag_ids_ n →
  landmark_map_ n !! tag_id = Some map_to_tag →
  distance_squared sensor_to_tag <= distance_threshold_squared_ n →
  tf_buffer_ n "base_link" (frame_id (ps_header sensor_to_tag)) = inl tr →
  (verdict (publish_pose_as_base_link sensor_to_tag tag_id n) = Some StaleEkfPose
   ↔ diff_time sensor_to_tag n > ekf_time_tolerance_ n) ∧
  (diff_time sensor_to_tag n > ekf_time_tolerance_ n →
   no_pose (publish_pose_as_base_link sensor_to_tag tag_id n)) ∧
  (0 <= ekf_time_tolerance_ n → diff_time sensor_to_tag n < 0 →
   verdict (publish_pose_as_base_link sensor_to_tag tag_id n) ≠ Some StaleEkfPose) ∧
  (ekf_time_tolerance_ n = 0.5 → diff_time sensor_to_tag n = 0.6 →
   verdict (publish_pose_as_base_link sensor_to_tag tag_id n) = Some StaleEkfPose ∧
   no_pose (publish_pose_as_base_link sensor_to_tag tag_id n)) ∧
  (ekf_time_tolerance_ n = 0.5 → diff_time sensor_to_tag n = 0.4 →
   verdict (publish_pose_as_base_link sensor_to_tag tag_id n) ≠ Some StaleEkfPose ∧
   (verdict (publish_pose_as_base_link sensor_to_tag tag_id n) = Some FarFromEkfPose
    ↔ diff_position map_to_tag sensor_to_tag tr n > ekf_position_tolerance_ n)).
Proof.
  intros Hw Hm Hr Ht. assert (Hr' := Rle_not_lt _ _ Hr).
  assert (Hpass : ¬ diff_time sensor_to_tag n > ekf_time_tolerance_ n →
            verdict (publish_pose_as_base_link sensor_to_tag tag_id n) ≠ Some StaleEkfPose ∧
            (verdict (publish_pose_as_base_link sensor_to_tag tag_id n) = Some FarFromEkfPose
             ↔ diff_position map_to_tag sensor_to_tag tr n > ekf_position_tolerance_ n)).
  { intros Hs.
    destruct (Rgt_dec (diff_position map_to_tag sensor_to_tag tr n)
                      (ekf_position_tolerance_ n)) as [Hp|Hp].
    - rewrite (path_FarFromEkfPose _ _ _ map_to_tag Hw Hm Hr' tr Ht Hs Hp).
      split; [discriminate | tauto].
    - destruct (scale_covariance (covariance_coeff sensor_to_tag) (base_covariance_ n))
        as [cov|] eqn:Hc.
      + rewrite (path_Published _ _ _ map_to_tag Hw Hm Hr' tr Ht Hs Hp cov Hc).
        split; [discriminate|]. split; [discriminate | contradiction].
      + rewrite (path_Fault _ _ _ map_to_tag Hw Hm Hr' tr Ht Hs Hp Hc).
        split; [discriminate|]. split; [discriminate | contradiction]. }
  assert (Hreject : diff_time sensor_to_tag n > ekf_time_tolerance_ n →
            verdict (publish_pose_as_base_link sensor_to_tag tag_id n) = Some StaleEkfPose ∧
            no_pose (publish_pose_as_base_link sensor_to_tag tag_id n)).
  { intros Hs. rewrite (path_StaleEkfPose _ _ _ map_to_tag Hw Hm Hr' tr Ht Hs).
    split; reflexivity. }
  split; [|split; [|split; [|split]]].
  - split; [|intros Hs; apply Hreject, Hs].
    intros Hv.
    destruct (Rgt_dec (diff_time sensor_to_tag n) (ekf_time_tolerance_ n)) as [Hs|Hs];
      [exact Hs|].
    destruct (Hpass Hs) as [Hne _]. contradiction.
  - intros Hs. apply Hreject, Hs.
  - intros Htol Hneg. apply Hpass. lra.
  - intros Htol Hdt. apply Hreject. lra.
  - intros Htol Hdt. apply Hpass. lra.
Qed.

(** What [setup] stores is the square of the configured threshold. *)
Lemma setup_distance_threshold p n b n' out :
  setup p n = Ok b n' out →
  distance_threshold_squared_ n' = distance_threshold p ^ 2.
Proof.
  unfold setup. cbv [mbind M_bind mret M_ret get put emit].
  destruct (decide (detection_mode p = "DM_NORMAL"));
    [|destruct (decide (detection_mode p = "DM_FAST"));
      [|destruct (decide (detection_mode p = "DM_VIDEO_FAST"))]];
    intros H; apply Ok_inj in H as (_ & <- & _); reflexivity.
Qed.

(** C6.  Past the whitelist and registry checks, the range check accepts a
    detection exactly when the squared norm of its translation is at most the
    squared distance threshold.  The threshold being a distance, not
    negative: a distance equal to it is accepted, and a distance strictly
    above it is rejected without output. *)
Theorem range_check sensor_to_tag tag_id n map_to_tag :
  tag_id ∈ target_tag_ids_ n →
  landmark_map_ n !! tag_id = Some map_to_tag →
  (verdict (publish_pose_as_base_link sensor_to_tag tag_id n) ≠ Some OutOfRange
   ↔ distance_squared sensor_to_tag <= distance_threshold_squared_ n) ∧
  (¬ distance_squared sensor_to_tag <= distance_threshold_squared_ n →
   publish_pose_as_base_link sensor_to_tag tag_id n = Ok OutOfRange n []) ∧
  (∀ threshold,
     0 <= threshold →
     distance_threshold_squared_ n = threshold ^ 2 →
     (sqrt (distance_squared sensor_to_tag) = threshold →
      verdict (publish_pose_as_base_link sensor_to_tag tag_id n) ≠ Some OutOfRange) ∧
     (sqrt (distance_squared sensor_to_tag) > threshold →
      publish_pose_as_base_link sensor_to_tag tag_id n = Ok OutOfRange n [] ∧
      no_pose (publish_pose_as_base_link sensor_to_tag tag_id n))).
Proof.
  intros Hw Hm.
  assert (Hreject : ¬ distance_squared sensor_to_tag <= distance_threshold_squared_ n →
            publish_pose_as_base_link sensor_to_tag tag_id n = Ok OutOfRange n []).
  { intros Hr. apply (path_OutOfRange _ _ _ map_to_tag Hw Hm). lra. }
  assert (Haccept : distance_squared sensor_to_tag <= distance_threshold_squared_ n →
            verdict (publish_pose_as_base_link sensor_to_tag tag_id n) ≠ Some OutOfRange).
  { intros Hr.
    destruct (publish_pose_runs sensor_to_tag tag_id n); cbn [verdict];
      try discriminate. lra. }
  split; [|split; [exact Hreject|]].
  - split; [|exact Haccept].
    intros Hv.
    destruct (Rle_dec (distance_squared sensor_to_tag) (distance_threshold_squared_ n))
      as [Hr|Hr]; [exact Hr|].
    rewrite (Hreject Hr) in Hv. now destruct Hv.
  - intros threshold H0 Hsq.
    destruct (sqrt_distance_squared sensor_to_tag) as [Hpos Hsqrt].
    assert (Hs0 := sqrt_pos (distance_squared sensor_to_tag)).
    split.
    + intros Heq. apply Haccept. rewrite Hsq, <- Hsqrt, Heq. lra.
    + intros Hgt.
      assert (Hr : ¬ distance_squared sensor_to_tag <= distance_threshold_squared_ n).
      { rewrite Hsq, <- Hsqrt. nra. }
      rewrite (Hreject Hr). split; reflexivity.
Qed.

(** ** Startup and the executor *)

Lemma bind_Ok {A B} (m : M A) (f : A → M B) n a n1 o1 b n2 o2 :
  m n = Ok a n1 o1 → f a n1 = Ok b n2 o2 → (m ≫= f) n = Ok b n2 (o1 ++ o2).
Proof. intros H1 H2. unfold mbind, M_bind. rewrite H1, H2. reflexivity. Qed.

Lemma setup_unrecognized p n :
  detection_mode p ∉ recognized_detection_modes →
  setup p n
  = Ok false (declare_parameters p n) [Log ERROR (InvalidDetectionMode (detection_mode p))].
Proof.
  intros H. unfold recognized_detection_modes in H.
  rewrite !not_elem_of_cons in H. destruct H as (H1 & H2 & H3 & _).
  unfold setup. cbv [mbind M_bind mret M_ret get put emit].
  destruct (decide (detection_mode p = "DM_NORMAL")); [contradiction|].
  destruct (decide (detection_mode p = "DM_FAST")); [contradiction|].
  destruct (decide (detection_mode p = "DM_VIDEO_FAST")); [contradiction|].
  reflexivity.
Qed.

Lemma setup_recognized p n :
  detection_mode p ∈ recognized_detection_modes →
  ∃ dm,
    setup p n
    = Ok true (create_handles (setDetectionMode dm (min_marker_size p) (declare_parameters p n)))
        [Log INFO ParameterInfo; Log INFO SetupSuccessful].
Proof.
  intros H. unfold recognized_detection_modes in H.
  unfold setup. cbv [mbind M_bind mret M_ret get put emit].
  destruct (decide (detection_mode p = "DM_NORMAL")); [eexists; reflexivity|].
  destruct (decide (detection_mode p = "DM_FAST")); [eexists; reflexivity|].
  destruct (decide (detection_mode p = "DM_VIDEO_FAST")); [eexists; reflexivity|].
  exfalso. rewrite !elem_of_cons in H.
  destruct H as [H|[H|[H|H]]]; try contradiction. now apply not_elem_of_nil in H.
Qed.

Lemma deliver_idle e n : idle n → deliver e n = Ok tt n [].
Proof.
  intros (H1 & H2 & H3 & H4 & H5). unfold deliver.
  cbv [mbind M_bind mret M_ret get]. destruct e; rewrite ?H1, ?H2, ?H3, ?H4, ?H5; reflexivity.
Qed.

Lemma spin_idle events n : idle n → spin events n = Ok tt n [].
Proof.
  intros H. unfold spin. induction events as [|e events IH]; [reflexivity|].
  cbn [for_each]. rewrite (bind_Ok _ _ _ _ _ _ _ _ _ (deliver_idle e n H) IH). reflexivity.
Qed.

Lemma idle_declare_parameters p n : idle n → idle (declare_parameters p n).
Proof. intros H. exact H. Qed.

Lemma idle_ArTagBasedLocalizer : idle ArTagBasedLocalizer.
Proof. repeat split. Qed.

(** The image callback hands the one marker of an image to
    [publish_pose_as_base_link]. *)
Lemma image_callback_single msg n marker v out :
  pose_pub_subscribers msg ≠ 0%nat →
  cam_info_received_ n = true →
  decodes msg = true →
  detected msg = [marker] →
  publish_pose_as_base_link
    (mkPoseStamped (mkHeader (stamp (image_header msg)) (frame_id (image_header msg)))
                   (cam_to_marker marker))
    (pretty (id marker)) n
  = Ok v n out →
  ∃ out', image_callback msg n = Ok tt n out' ∧ ∀ e, e ∈ out → e ∈ out'.
Proof.
  intros Hsub Hcam Hdec Hdet Hpub.
  unfold image_callback. cbv [mbind M_bind mret M_ret get emit].
  destruct (decide (image_pub_subscribers msg = 0%nat ∧ pose_pub_subscribers msg = 0%nat))
    as [[_ H]|_]; [contradiction|].
  rewrite Hcam, Hdec, Hdet. cbn [negb for_each].
  cbv [mbind M_bind mret M_ret get emit]. rewrite Hpub.
  destruct (decide (0 < image_pub_subscribers msg)%nat);
    (eexists; split; [reflexivity|]); intros e He;
    rewrite !elem_of_app; rewrite ?elem_of_cons; tauto.
Qed.

(** A base covariance of 37 entries does not make [setup] fail: the node
    subscribes, and fuses the marker of the next image. *)
Lemma oversized_covariance_runs :
  length (base_covariance (example_parameters 20 0.5 (replicate 37 0.04))) ≠ 36%nat ∧
  (∃ n out,
     setup (example_parameters 20 0.5 (replicate 37 0.04)) ArTagBasedLocalizer
     = Ok true n out ∧ image_sub_ n = true) ∧
  (∃ out,
     (setup (example_parameters 20 0.5 (replicate 37 0.04)) ≫= λ _, spin example_events)
       ArTagBasedLocalizer
     = Ok tt (configured_node 20 0.5 (replicate 37 0.04)) out) ∧
  (∃ n out msg,
     deliver (ImageIn example_image) (configured_node 20 0.5 (replicate 37 0.04))
     = Ok tt n out ∧ PublishPose msg ∈ out).
Proof.
  split; [cbn; lia|]. split; [eexists _, _; split; reflexivity|].
  split; [apply configured_node_reached|].
  destruct (image_callback_single example_image (configured_node 20 0.5 (replicate 37 0.04))
              (mkMarker 5 (pose_at 2 0 0)) Published
              [PublishPose
                 (fused_message (pose_at 10 0 0) (example_detection 10 400000000 2 0 0)
                    example_transform
                    (map (Rmult (covariance_coeff (example_detection 10 400000000 2 0 0)))
                       (take 36 (replicate 37 0.04))))])
    as (out & Hrun & Hin).
  - cbn. lia.
  - reflexivity.
  - reflexivity.
  - reflexivity.
  - apply (configured_node_publishes 20 0.5 (replicate 37 0.04) 10 400000000 2).
    + lra.
    + change (10 * 1000000000 + 400000000 - 10000000000)%Z with 400000000%Z. lra.
    + lra.
    + cbn. lia.
  - eexists _, out, _. split.
    + unfold deliver. cbv [mbind M_bind mret M_ret get]. cbn [image_sub_ configured_node].
      rewrite Hrun. reflexivity.
    + cbn [app]. apply Hin. left.
Qed.

(** C4, amended.  An unrecognised detection mode is fatal at startup:
    [setup] logs an error and returns false before any subscription exists, so
    the node never processes a message.  A base covariance array of more than
    36 entries is not: with a recognised mode [setup] succeeds, every
    detection is handled normally, and a published covariance is made of the
    first 36 entries. *)
Theorem invalid_detection_mode_is_fatal p n :
  idle n →
  (detection_mode p ∉ recognized_detection_modes →
   setup p n
   = Ok false (declare_parameters p n)
       [Log ERROR (InvalidDetectionMode (detection_mode p))] ∧
   ∀ events,
     (setup p ≫= λ _, spin events) n
     = Ok tt (declare_parameters p n)
         [Log ERROR (InvalidDetectionMode (detection_mode p))]) ∧
  (detection_mode p ∈ recognized_detection_modes →
   (36 ≤ length (base_covariance p))%nat →
   (∃ n' out,
      setup p n = Ok true n' out ∧ image_sub_ n' = true ∧
      base_covariance_ n' = base_covariance p) ∧
   ∀ sensor_to_tag tag_id n',
     base_covariance_ n' = base_covariance p →
     publish_pose_as_base_link sensor_to_tag tag_id n' ≠ Fault ∧
     ∀ msg,
       PublishPose msg ∈ effects (publish_pose_as_base_link sensor_to_tag tag_id n') →
       covariance (pose_cov msg)
       = map (Rmult (covariance_coeff sensor_to_tag)) (take 36 (base_covariance p))).
Proof.
  intros Hidle. split.
  - intros Hmode. pose proof (setup_unrecognized p n Hmode) as Hsetup.
    split; [exact Hsetup|]. intros events.
    rewrite (bind_Ok _ _ _ _ _ _ _ _ _ Hsetup
               (spin_idle events _ (idle_declare_parameters p n Hidle))).
    reflexivity.
  - intros Hmode Hlen. split.
    + destruct (setup_recognized p n Hmode) as [dm Hsetup].
      eexists _, _. split; [exact Hsetup|]. split; reflexivity.
    + intros sensor_to_tag tag_id n' Hcov. split.
      * destruct (publish_pose_runs sensor_to_tag tag_id n')
          as [Hw|Hw Hm|mt Hw Hm Hr|mt ex Hw Hm Hr Ht|mt tr Hw Hm Hr Ht Hs
             |mt tr Hw Hm Hr Ht Hs Hp|mt tr cov Hw Hm Hr Ht Hs Hp Hc
             |mt tr Hw Hm Hr Ht Hs Hp Hc];
          try discriminate.
        apply (scale_covariance_None (covariance_coeff sensor_to_tag)) in Hc.
        rewrite Hcov in Hc. lia.
      * intros msg Hin.
        destruct (published_message _ _ _ _ Hin) as (mt & tr & _ & _ & _ & _ & -> & _).
        cbn [fused_message pose_cov covariance]. rewrite Hcov. reflexivity.
Qed.

(** ** Before the first reference pose *)

Lemma quiet_no_pose {A} (a : A) n out :
  Forall not_PublishPose out → no_pose (Ok a n out).
Proof.
  intros Hq. unfold no_pose. cbn [effects].
  induction Hq as [|e out He _ IH]; [reflexivity|].
  rewrite filter_cons. unfold not_PublishPose in He.
  destruct (decide (is_PublishPose e = true)) as [Hy|_]; [congruence | exact IH].
Qed.

Lemma diff_time_default sensor_to_tag n :
  latest_ekf_pose_ n = PoseWithCovarianceStamped_default →
  diff_time sensor_to_tag n = seconds (rclcpp_Time (stamp (ps_header sensor_to_tag))).
Proof.
  intros H. unfold diff_time. rewrite H. unfold Time_minus. f_equal.
  change (rclcpp_Time (stamp (header PoseWithCovarianceStamped_default))) with 0%Z.
  apply Z.sub_0_r.
Qed.

Lemma publish_awaiting_reference sensor_to_tag tag_id n :
  latest_ekf_pose_ n = PoseWithCovarianceStamped_default →
  seconds (rclcpp_Time (stamp (ps_header sensor_to_tag))) > ekf_time_tolerance_ n →
  ∃ v out,
    publish_pose_as_base_link sensor_to_tag tag_id n = Ok v n out ∧
    v ≠ Published ∧ Forall not_PublishPose out.
Proof.
  intros Hdef Hlate. rewrite <- (diff_time_default _ _ Hdef) in Hlate.
  destruct (publish_pose_runs sensor_to_tag tag_id n)
    as [Hw|Hw Hm|mt Hw Hm Hr|mt ex Hw Hm Hr Ht|mt tr Hw Hm Hr Ht Hs
       |mt tr Hw Hm Hr Ht Hs Hp|mt tr cov Hw Hm Hr Ht Hs Hp Hc
       |mt tr Hw Hm Hr Ht Hs Hp Hc];
    try contradiction.
  all: eexists _, _; split; [reflexivity|]; split; [discriminate|].
  all: repeat constructor.
Qed.

Lemma for_each_quiet {A} (body : A → M unit) (l : list A) n :
  (∀ x, x ∈ l → ∃ out, body x n = Ok tt n out ∧ Forall not_PublishPose out) →
  ∃ out, for_each body l n = Ok tt n out ∧ Forall not_PublishPose out.
Proof.
  induction l as [|x l IH]; intros Hbody.
  - exists []. split; [reflexivity | constructor].
  - destruct (Hbody x) as (o1 & H1 & Hq1); [left|].
    destruct IH as (o2 & H2 & Hq2); [intros y Hy; apply Hbody; now right|].
    exists (o1 ++ o2). split.
    + cbn [for_each]. apply (bind_Ok _ _ _ _ _ _ _ _ _ H1 H2).
    + apply Forall_app. auto.
Qed.

Lemma image_callback_awaiting_reference msg n :
  latest_ekf_pose_ n = PoseWithCovarianceStamped_default →
  seconds (rclcpp_Time (stamp (image_header msg))) > ekf_time_tolerance_ n →
  ∃ out, image_callback msg n = Ok tt n out ∧ Forall not_PublishPose out.
Proof.
  intros Hdef Hlate. unfold image_callback.
  cbv [mbind M_bind mret M_ret get].
  destruct (decide (image_pub_subscribers msg = 0%nat ∧ pose_pub_subscribers msg = 0%nat)).
  { eexists. split; [reflexivity | repeat constructor]. }
  destruct (cam_info_received_ n); cbn [negb].
  2: { eexists. split; [reflexivity | repeat constructor]. }
  destruct (decodes msg); cbn [negb].
  2: { eexists. split; [reflexivity | repeat constructor]. }
  match goal with
  | |- context [for_each ?body (detected msg) n] =>
      destruct (for_each_quiet body (detected msg) n) as (o1 & H1 & Hq1)
  end.
  { intros marker _.
    destruct (publish_awaiting_reference
                (mkPoseStamped
                   (mkHeader (stamp (image_header msg)) (frame_id (image_header msg)))
                   (cam_to_marker marker))
                (pretty (id marker)) n Hdef Hlate) as (v & o & Hrun & _ & Hq).
    cbv [mbind M_bind mret M_ret emit]. rewrite Hrun.
    eexists. split; [reflexivity|].
    constructor; [reflexivity|]. rewrite app_nil_r. exact Hq. }
  rewrite H1.
  destruct (decide (0 < image_pub_subscribers msg)%nat);
    cbv [emit mret M_ret]; (eexists; split; [reflexivity|]);
    rewrite ?Forall_app; repeat split; try exact Hq1; repeat constructor.
Qed.

Lemma deliver_awaiting_reference tolerance e n :
  awaiting_reference tolerance n →
  before_first_reference tolerance e →
  ∃ n' out,
    deliver e n = Ok tt n' out ∧ awaiting_reference tolerance n' ∧
    Forall not_PublishPose out.
Proof.
  intros [Hdef Htol] He. unfold deliver. cbv [mbind M_bind mret M_ret get].
  destruct e as [landmarks|msg|msg|msg|content]; cbn [before_first_reference] in He.
  - destruct (map_bin_sub_ n).
    + eexists _, _. split; [reflexivity|]. split; [split; assumption | repeat constructor].
    + eexists _, _. split; [reflexivity|]. split; [split; assumption | constructor].
  - destruct (image_sub_ n).
    + rewrite <- Htol in He.
      destruct (image_callback_awaiting_reference msg n Hdef He) as (out & Hrun & Hq).
      rewrite Hrun. eexists _, _. split; [reflexivity|]. split; [split; assumption|].
      exact Hq.
    + eexists _, _. split; [reflexivity|]. split; [split; assumption | constructor].
  - destruct (cam_info_sub_ n).
    + unfold cam_info_callback. cbv [mbind M_bind mret M_ret get put].
      destruct (cam_info_received_ n);
        (eexists _, _; split; [reflexivity|]; split; [split; assumption | constructor]).
    + eexists _, _. split; [reflexivity|]. split; [split; assumption | constructor].
  - contradiction.
  - destruct (tf_listener_ n);
      (eexists _, _; split; [reflexivity|]; split; [split; assumption | constructor]).
Qed.

Lemma spin_awaiting_reference tolerance events n :
  awaiting_reference tolerance n →
  Forall (before_first_reference tolerance) events →
  ∃ n' out,
    spin events n = Ok tt n' out ∧ awaiting_reference tolerance n' ∧
    Forall not_PublishPose out.
Proof.
  intros Hn Hev. revert n Hn. unfold spin.
  induction Hev as [|e events He _ IH]; intros n Hn.
  - exists n, []. split; [reflexivity|]. split; [exact Hn | constructor].
  - destruct (deliver_awaiting_reference tolerance e n Hn He) as (n1 & o1 & H1 & Hn1 & Hq1).
    destruct (IH n1 Hn1) as (n2 & o2 & H2 & Hn2 & Hq2).
    exists n2, (o1 ++ o2). split.
    + cbn [for_each]. apply (bind_Ok _ _ _ _ _ _ _ _ _ H1 H2).
    + split; [exact Hn2 | apply Forall_app; auto].
Qed.

Lemma setup_awaiting_reference p :
  ∃ b n out,
    setup p ArTagBasedLocalizer = Ok b n out ∧
    awaiting_reference (ekf_time_tolerance p) n ∧ Forall not_PublishPose out.
Proof.
  destruct (decide (detection_mode p ∈ recognized_detection_modes)) as [Hm|Hm].
  - destruct (setup_recognized p ArTagBasedLocalizer Hm) as [dm Hsetup].
    eexists _, _, _. split; [exact Hsetup|]. split; [split; reflexivity | repeat constructor].
  - eexists _, _, _. split; [exact (setup_unrecognized p ArTagBasedLocalizer Hm)|].
    split; [split; reflexivity | repeat constructor].
Qed.

(** C10.  Until a reference pose arrives the node holds the default one,
    stamped zero.  A detection stamped later than the time tolerance after
    time zero is then rejected, at the temporal check at the latest, and no
    fused pose is published for such detections before the first reference
    update. *)
Theorem no_fusion_before_first_reference :
  (latest_ekf_pose_ ArTagBasedLocalizer = PoseWithCovarianceStamped_default ∧
   stamp (header PoseWithCovarianceStamped_default) = mkTime 0 0) ∧
  (∀ sensor_to_tag tag_id n,
     latest_ekf_pose_ n = PoseWithCovarianceStamped_default →
     seconds (rclcpp_Time (stamp (ps_header sensor_to_tag))) > ekf_time_tolerance_ n →
     no_pose (publish_pose_as_base_link sensor_to_tag tag_id n) ∧
     ∀ map_to_tag tr,
       tag_id ∈ target_tag_ids_ n →
       landmark_map_ n !! tag_id = Some map_to_tag →
       distance_squared sensor_to_tag <= distance_threshold_squared_ n →
       tf_buffer_ n "base_link" (frame_id (ps_header sensor_to_tag)) = inl tr →
       verdict (publish_pose_as_base_link sensor_to_tag tag_id n) = Some StaleEkfPose) ∧
  (∀ p events,
     Forall (before_first_reference (ekf_time_tolerance p)) events →
     ∃ n out,
       (setup p ≫= λ _, spin events) ArTagBasedLocalizer = Ok tt n out ∧
       latest_ekf_pose_ n = PoseWithCovarianceStamped_default ∧
       Forall not_PublishPose out).
Proof.
  split; [split; reflexivity|]. split.
  - intros sensor_to_tag tag_id n Hdef Hlate. split.
    + destruct (publish_awaiting_reference sensor_to_tag tag_id n Hdef Hlate)
        as (v & out & Hrun & _ & Hq).
      rewrite Hrun. apply quiet_no_pose, Hq.
    + intros map_to_tag tr Hw Hm Hr Ht.
      rewrite <- (diff_time_default _ _ Hdef) in Hlate.
      rewrite (path_StaleEkfPose _ _ _ map_to_tag Hw Hm (Rle_not_lt _ _ Hr) tr Ht Hlate).
      reflexivity.
  - intros p events Hev.
    destruct (setup_awaiting_reference p) as (b & n1 & o1 & H1 & Hn1 & Hq1).
    destruct (spin_awaiting_reference _ events n1 Hn1 Hev) as (n2 & o2 & H2 & [Hdef _] & Hq2).
    exists n2, (o1 ++ o2). split; [apply (bind_Ok _ _ _ _ _ _ _ _ _ H1 H2)|].
    split; [exact Hdef | apply Forall_app; auto].
Qed.

(** ** The theorems at the concrete node *)

Lemma sqrt_sq_plus_0 x : 0 <= x → sqrt (x * x + 0 * 0 + 0 * 0) = x.
Proof. intros H. replace (x * x + 0 * 0 + 0 * 0) with (x * x) by ring. now apply sqrt_square. Qed.

Lemma example_distance sec ns x :
  0 <= x → sqrt (distance_squared (example_detection sec ns x 0 0)) = x.
Proof. intros H. apply (sqrt_sq_plus_0 x H). Qed.

Lemma example_stamp_10_4 : (10 * 1000000000 + 400000000 - 10000000000)%Z = 400000000%Z.
Proof. reflexivity. Qed.

Lemma example_stamp_10_6 : (10 * 1000000000 + 600000000 - 10000000000)%Z = 600000000%Z.
Proof. reflexivity. Qed.

Lemma example_stamp_9_5 : (9 * 1000000000 + 500000000 - 10000000000)%Z = (-500000000)%Z.
Proof. reflexivity. Qed.

Lemma example_range sec ns x :
  x * x <= 400 →
  distance_squared (example_detection sec ns x 0 0)
  <= distance_threshold_squared_ example_node.
Proof.
  intros H. unfold distance_squared, example_node, configured_node, example_detection, pose_at;
    cbn [position ps_pose p_x p_y p_z distance_threshold_squared_]. lra.
Qed.

Lemma covariance_scaling_witness :
  length (covariance (pose_cov
            (fused_message (pose_at 10 0 0) (example_detection 10 400000000 3 0 0)
               example_transform
               (map (Rmult (covariance_coeff (example_detection 10 400000000 3 0 0)))
                  (take 36 example_covariance))))) = 36%nat ∧
  covariance (pose_cov
     (fused_message (pose_at 10 0 0) (example_detection 10 400000000 3 0 0)
        example_transform
        (map (Rmult (covariance_coeff (example_detection 10 400000000 3 0 0)))
           (take 36 example_covariance))))
  = take 36 (base_covariance_ example_node).
Proof.
  assert (Hin : PublishPose
            (fused_message (pose_at 10 0 0) (example_detection 10 400000000 3 0 0)
               example_transform
               (map (Rmult (covariance_coeff (example_detection 10 400000000 3 0 0)))
                  (take 36 example_covariance)))
          ∈ effects (publish_pose_as_base_link (example_detection 10 400000000 3 0 0) "5"
                       example_node)).
  { unfold example_node. rewrite configured_node_publishes.
    - left.
    - lra.
    - rewrite example_stamp_10_4. lra.
    - lra.
    - vm_compute. lia. }
  destruct (covariance_scaling _ _ _ _ Hin) as (_ & Hlen & _ & _ & H3 & _).
  split; [exact Hlen|]. apply H3. apply example_distance. lra.
Defined.

Lemma temporal_consistency_check_witness :
  (verdict (publish_pose_as_base_link (example_detection 10 600000000 2 0 0) "5" example_node)
   = Some StaleEkfPose ∧
   no_pose (publish_pose_as_base_link (example_detection 10 600000000 2 0 0) "5" example_node)) ∧
  verdict (publish_pose_as_base_link (example_detection 10 400000000 2 0 0) "5" example_node)
  ≠ Some StaleEkfPose ∧
  verdict (publish_pose_as_base_link (example_detection 9 500000000 2 0 0) "5" example_node)
  ≠ Some StaleEkfPose.
Proof.
  split; [|split].
  - apply (proj1 (proj2 (proj2 (proj2
             (temporal_consistency_check (example_detection 10 600000000 2 0 0) "5"
                example_node (pose_at 10 0 0) example_transform
                ltac:(left) eq_refl (example_range _ _ 2 ltac:(lra)) eq_refl))))).
    + reflexivity.
    + unfold example_node. rewrite example_diff_time, example_stamp_10_6. lra.
  - apply (proj2 (proj2 (proj2 (proj2
             (temporal_consistency_check (example_detection 10 400000000 2 0 0) "5"
                example_node (pose_at 10 0 0) example_transform
                ltac:(left) eq_refl (example_range _ _ 2 ltac:(lra)) eq_refl))))).
    + reflexivity.
    + unfold example_node. rewrite example_diff_time, example_stamp_10_4. lra.
  - apply (proj1 (proj2 (proj2
             (temporal_consistency_check (example_detection 9 500000000 2 0 0) "5"
                example_node (pose_at 10 0 0) example_transform
                ltac:(left) eq_refl (example_range _ _ 2 ltac:(lra)) eq_refl)))).
    + cbn [example_node configured_node ekf_time_tolerance_]. lra.
    + unfold example_node. rewrite example_diff_time, example_stamp_9_5. lra.
Defined.

Lemma range_check_witness :
  verdict (publish_pose_as_base_link (example_detection 10 400000000 20 0 0) "5" example_node)
  ≠ Some OutOfRange ∧
  publish_pose_as_base_link (example_detection 10 400000000 21 0 0) "5" example_node
  = Ok OutOfRange example_node [].
Proof.
  split.
  - apply (proj2 (proj2 (range_check (example_detection 10 400000000 20 0 0) "5"
                           example_node (pose_at 10 0 0) ltac:(left) eq_refl)) 20).
    + lra.
    + reflexivity.
    + apply example_distance. lra.
  - apply (proj2 (proj2 (range_check (example_detection 10 400000000 21 0 0) "5"
                           example_node (pose_at 10 0 0) ltac:(left) eq_refl)) 20).
    + lra.
    + reflexivity.
    + rewrite example_distance; lra.
Defined.

Lemma spatial_consistency_check_witness :
  verdict (publish_pose_as_base_link (example_detection 10 400000000 3 0 0) "5" example_node)
  ≠ Some FarFromEkfPose ∧
  no_pose (publish_pose_as_base_link (example_detection 10 400000000 4 0 0) "5" example_node).
Proof.
  split.
  - apply (proj1 (proj2 (proj2
             (spatial_consistency_check (example_detection 10 400000000 3 0 0) "5"
                example_node (pose_at 10 0 0) example_transform
                ltac:(left) eq_refl (example_range _ _ 3 ltac:(lra)) eq_refl
                ltac:(unfold example_node; rewrite example_diff_time, example_stamp_10_4;
                      cbn [configured_node ekf_time_tolerance_]; lra))))).
    change (diff_position (pose_at 10 0 0) (example_detection 10 400000000 3 0 0)
              example_transform example_node = 1).
    unfold example_node. rewrite example_diff_position.
    replace ((2 - 3) ^ 2) with 1 by lra. apply sqrt_1.
  - apply (proj1 (proj2
             (spatial_consistency_check (example_detection 10 400000000 4 0 0) "5"
                example_node (pose_at 10 0 0) example_transform
                ltac:(left) eq_refl (example_range _ _ 4 ltac:(lra)) eq_refl
                ltac:(unfold example_node; rewrite example_diff_time, example_stamp_10_4;
                      cbn [configured_node ekf_time_tolerance_]; lra)))).
    change (diff_position (pose_at 10 0 0) (example_detection 10 400000000 4 0 0)
              example_transform example_node > 1).
    unfold example_node. rewrite example_diff_position.
    replace ((2 - 4) ^ 2) with (2 * 2) by lra. rewrite sqrt_square; lra.
Defined.

Lemma frame_transform_failure_witness :
  (publish_pose_as_base_link lidar_detection "5" example_node
   = Ok NoTransform example_node [Log INFO (CouldNotTransform LookupException)] ∧
   no_pose (publish_pose_as_base_link lidar_detection "5" example_node)) ∧
  observable (publish_pose_as_base_link (example_detection 10 400000000 2 0 0) "5"
                (set_tf_buffer_ other_buffer example_node))
  = observable (publish_pose_as_base_link (example_detection 10 400000000 2 0 0) "5"
                  example_node).
Proof.
  split.
  - apply (proj1 (frame_transform_failure lidar_detection "5" example_node)
             (pose_at 10 0 0) LookupException).
    + left.
    + reflexivity.
    + apply (example_range 10 400000000 2). lra.
    + reflexivity.
  - apply (proj2 (frame_transform_failure (example_detection 10 400000000 2 0 0) "5"
                    example_node) other_buffer).
    reflexivity.
Defined.

Lemma detection_leaves_node_unchanged_witness :
  example_node = example_node ∧
  ∃ msg,
    [PublishPose
       (fused_message (pose_at 10 0 0) (example_detection 10 400000000 2 0 0)
          example_transform
          (map (Rmult (covariance_coeff (example_detection 10 400000000 2 0 0)))
             (take 36 example_covariance)))]
    = [PublishPose msg].
Proof.
  assert (Hrun := configured_node_publishes 20 0.5 example_covariance 10 400000000 2
                    ltac:(lra) ltac:(rewrite example_stamp_10_4; lra) ltac:(lra)
                    ltac:(vm_compute; lia)).
  destruct (detection_leaves_node_unchanged _ _ _ _ _ _ Hrun) as (Hn & _ & Hout).
  split; [exact Hn | exact Hout].
Defined.

Lemma no_fusion_before_first_reference_witness :
  no_pose (publish_pose_as_base_link (example_detection 10 400000000 2 0 0) "5" fresh_node) ∧
  ∃ n out,
    (setup (example_parameters 20 0.5 example_covariance) ≫= λ _, spin early_events)
      ArTagBasedLocalizer
    = Ok tt n out ∧
    latest_ekf_pose_ n = PoseWithCovarianceStamped_default ∧
    Forall not_PublishPose out.
Proof.
  assert (Hlate : seconds (rclcpp_Time (mkTime 10 400000000)) > 0.5).
  { unfold seconds, rclcpp_Time. cbn [sec nanosec].
    change (10 * 1000000000 + 400000000)%Z with 10400000000%Z. lra. }
  split.
  - apply (proj1 (proj2 no_fusion_before_first_reference)
             (example_detection 10 400000000 2 0 0) "5"%string fresh_node).
    + reflexivity.
    + exact Hlate.
  - apply (proj2 (proj2 no_fusion_before_first_reference)
             (example_parameters 20 0.5 example_covariance) early_events).
    repeat constructor. exact Hlate.
Defined.

Lemma gating_order_first_failure_witness :
  (verdict (publish_pose_as_base_link (example_detection 10 0 30 0 0) "5" example_node)
   = Some OutOfRange ∧
   no_pose (publish_pose_as_base_link (example_detection 10 0 30 0 0) "5" example_node)) ∧
  first_failing WhitelistCheck example_node (example_detection 10 0 2 0 0) "7" ∧
  no_pose (publish_pose_as_base_link (example_detection 10 0 2 0 0) "7" example_node) ∧
  no_pose (publish_pose_as_base_link (example_detection 10 0 2 0 0) "7" example_node).
Proof.
  split; [|split; [|split]].
  - apply (proj1 (gating_order_first_failure
                    (example_detection 10 0 30 0 0) "5" example_node) RangeCheck).
    split.
    + cbn [admissible]. unfold distance_squared. simpl. lra.
    + intros g' Hlt%precedes_lt.
      destruct g'; cbn [gate_index] in Hlt; try lia; cbn [admissible].
      * left.
      * exists (pose_at 10 0 0). reflexivity.
  - apply (proj1 (proj2 (gating_order_first_failure
                           (example_detection 10 0 2 0 0) "7" example_node))
             WhitelistCheck).
    rewrite path_NotTarget; [reflexivity|].
    intros H%list_elem_of_singleton. discriminate H.
  - apply (proj1 (proj2 (proj2 (gating_order_first_failure
                                  (example_detection 10 0 2 0 0) "7" example_node)))).
    intros H%list_elem_of_singleton. discriminate H.
  - apply (proj2 (proj2 (proj2 (gating_order_first_failure
                                  (example_detection 10 0 2 0 0) "7" example_node)))).
    reflexivity.
Defined.

Lemma invalid_detection_mode_is_fatal_witness :
  (∀ events,
     (setup (mkParameters 0.4 ["5"] example_covariance 20 0.5 1 "DM_SLOW" 0) ≫= λ _,
      spin events) ArTagBasedLocalizer
     = Ok tt
         (declare_parameters (mkParameters 0.4 ["5"] example_covariance 20 0.5 1 "DM_SLOW" 0)
            ArTagBasedLocalizer)
         [Log ERROR (InvalidDetectionMode "DM_SLOW")]) ∧
  (∃ n' out,
     setup (example_parameters 20 0.5 (replicate 37 0.04)) ArTagBasedLocalizer
     = Ok true n' out ∧
     image_sub_ n' = true ∧ base_covariance_ n' = replicate 37 0.04) ∧
  publish_pose_as_base_link (example_detection 10 400000000 2 0 0) "5"
    (configured_node 20 0.5 (replicate 37 0.04)) ≠ Fault.
Proof.
  split; [|split].
  - apply (proj1 (invalid_detection_mode_is_fatal
                    (mkParameters 0.4 ["5"] example_covariance 20 0.5 1 "DM_SLOW" 0)
                    ArTagBasedLocalizer idle_ArTagBasedLocalizer)).
    unfold recognized_detection_modes. cbn [detection_mode].
    rewrite !not_elem_of_cons. repeat split; try discriminate. apply not_elem_of_nil.
  - apply (proj2 (invalid_detection_mode_is_fatal
                    (example_parameters 20 0.5 (replicate 37 0.04)) ArTagBasedLocalizer
                    idle_ArTagBasedLocalizer)).
    + left.
    + cbn. lia.
  - apply (proj2 (invalid_detection_mode_is_fatal
                    (example_parameters 20 0.5 (replicate 37 0.04)) ArTagBasedLocalizer
                    idle_ArTagBasedLocalizer)).
    + left.
    + cbn. lia.
    + reflexivity.
Defined.

(** ** The callbacks, beyond the fusion of one detection *)

Lemma bind_Ok_inv {A B} (m : M A) (f : A → M B) n b n2 out :
  (m ≫= f) n = Ok b n2 out →
  ∃ a n1 o1 o2, m n = Ok a n1 o1 ∧ f a n1 = Ok b n2 o2 ∧ out = o1 ++ o2.
Proof.
  unfold mbind, M_bind. destruct (m n) as [a n1 o1|] eqn:H1; [|discriminate].
  destruct (f a n1) as [b' n2' o2|] eqn:H2; [|discriminate].
  intros H. apply Ok_inj in H as (Hb & Hn & Ho). subst.
  exists a, n1, o1, o2. auto.
Qed.

Lemma bind_Fault {A B} (m : M A) (f : A → M B) n :
  m n = Fault → (m ≫= f) n = Fault.
Proof. intros H. unfold mbind, M_bind. now rewrite H. Qed.

(** A call of [publish_pose_as_base_link] that returns hands the node back,
    with no effect, one log line, or one published pose. *)
Lemma publish_pose_returns sensor_to_tag tag_id n v n' out :
  publish_pose_as_base_link sensor_to_tag tag_id n = Ok v n' out →
  n' = n ∧
  (out = [] ∧ v = OutOfRange ∨
   (∃ line, out = [Log INFO line]) ∧ v ≠ OutOfRange ∧ v ≠ Published ∨
   (∃ msg, out = [PublishPose msg]) ∧ v = Published).
Proof.
  destruct (publish_pose_runs sensor_to_tag tag_id n)
    as [Hw|Hw Hm|mt Hw Hm Hr|mt ex Hw Hm Hr Ht|mt tr Hw Hm Hr Ht Hs
       |mt tr Hw Hm Hr Ht Hs Hp|mt tr cov Hw Hm Hr Ht Hs Hp Hc
       |mt tr Hw Hm Hr Ht Hs Hp Hc];
    intros Hrun; try discriminate Hrun; apply Ok_inj in Hrun as (<- & <- & <-).
  all: split; [reflexivity|].
  3: left; split; reflexivity.
  6: right; right; split; [eexists; reflexivity | reflexivity].
  all: right; left; split; [eexists; reflexivity | split; discriminate].
Qed.

Lemma process_marker_Ok msg marker n u n' out :
  process_marker msg marker n = Ok u n' out →
  n' = n ∧
  ∃ v o,
    publish_pose_as_base_link (marker_detection msg marker) (pretty (id marker)) n
    = Ok v n o ∧
    out = SendTransform (marker_transform msg marker) :: o.
Proof.
  unfold process_marker. cbv [mbind M_bind mret M_ret emit].
  destruct (publish_pose_as_base_link _ _ n) as [v n1 o|] eqn:Hrun; [|discriminate].
  destruct (publish_pose_returns _ _ _ _ _ _ Hrun) as [-> _].
  intros H. apply Ok_inj in H as (_ & <- & <-).
  split; [reflexivity|]. exists v, o. split; [reflexivity|].
  cbn [app]. now rewrite app_nil_r.
Qed.

Lemma process_marker_of_publish msg marker n v o :
  publish_pose_as_base_link (marker_detection msg marker) (pretty (id marker)) n
  = Ok v n o →
  process_marker msg marker n = Ok tt n (SendTransform (marker_transform msg marker) :: o).
Proof.
  intros Hrun. unfold process_marker. cbv [mbind M_bind mret M_ret emit].
  rewrite Hrun. cbn [app]. now rewrite app_nil_r.
Qed.

(** The loop over the markers: the node comes back as it was, and the
    effects are, marker after marker, the broadcast transform followed by what
    the fusion of the marker did. *)
Lemma marker_loop_Ok msg markers n u n' out :
  for_each (process_marker msg) markers n = Ok u n' out →
  n' = n ∧
  ∃ outs : list (list Effect),
    Forall2 (λ marker o,
               ∃ v o', publish_pose_as_base_link (marker_detection msg marker)
                         (pretty (id marker)) n = Ok v n o' ∧
                       o = SendTransform (marker_transform msg marker) :: o')
            markers outs ∧
    out = concat outs.
Proof.
  revert u n' out. induction markers as [|marker markers IH]; intros u n' out.
  - cbn [for_each]. intros H. apply Ok_inj in H as (_ & <- & <-).
    split; [reflexivity|]. exists []. split; [constructor | reflexivity].
  - cbn [for_each]. intros H.
    apply bind_Ok_inv in H as (a & n1 & o1 & o2 & H1 & H2 & ->).
    apply process_marker_Ok in H1 as (-> & v & o' & Hrun & ->).
    apply IH in H2 as (-> & outs & Hall & ->).
    split; [reflexivity|].
    exists ((SendTransform (marker_transform msg marker) :: o') :: outs).
    split; [|reflexivity]. constructor; [|exact Hall]. eauto.
Qed.

(** Past its early returns, [image_callback] is the loop over the markers
    followed by the debug image, when somebody listens to it, and by the
    diagnostics. *)
Lemma image_callback_processed msg n :
  image_is_processed msg n →
  image_callback msg n
  = match for_each (process_marker msg) (detected msg) n with
    | Ok _ n1 o1 =>
        Ok tt n1
          (o1 ++
           (if decide (0 < image_pub_subscribers msg)%nat
            then [PublishImage (stamp (image_header msg))] else []) ++
           [PublishDiagnostics (now msg)
              (if decide (0 < Z.of_nat (length (detected msg)))%Z then DIAG_OK else DIAG_WARN)
              (Z.of_nat (length (detected msg)))])
    | Fault => Fault
    end.
Proof.
  intros (Hsub & Hcam & Hdec). unfold image_callback.
  cbv [mbind M_bind mret M_ret get].
  destruct (decide (image_pub_subscribers msg = 0%nat ∧ pose_pub_subscribers msg = 0%nat));
    [contradiction|].
  rewrite Hcam, Hdec. cbn [negb].
  change (for_each _ (detected msg) n) with (for_each (process_marker msg) (detected msg) n).
  destruct (for_each (process_marker msg) (detected msg) n) as [u n1 o1|]; [|reflexivity].
  destruct (decide (0 < image_pub_subscribers msg)%nat); cbv [emit]; cbn [app];
    rewrite ?app_nil_r; reflexivity.
Qed.

Lemma image_callback_skipped msg n :
  ¬ image_is_processed msg n →
  ∃ s line, image_callback msg n = Ok tt n [Log s line].
Proof.
  intros Hnot. unfold image_callback. cbv [mbind M_bind mret M_ret get emit].
  destruct (decide (image_pub_subscribers msg = 0%nat ∧ pose_pub_subscribers msg = 0%nat))
    as [Hsub|Hsub]; [eexists _, _; reflexivity|].
  destruct (cam_info_received_ n) eqn:Hcam; cbn [negb]; [|eexists _, _; reflexivity].
  destruct (decodes msg) eqn:Hdec; cbn [negb]; [|eexists _, _; reflexivity].
  exfalso. apply Hnot. repeat split; assumption.
Qed.

Lemma image_is_processed_dec msg n :
  image_is_processed msg n ∨ ¬ image_is_processed msg n.
Proof.
  unfold image_is_processed.
  destruct (decide (image_pub_subscribers msg = 0%nat ∧ pose_pub_subscribers msg = 0%nat));
    destruct (cam_info_received_ n); destruct (decodes msg); intuition congruence.
Qed.

(** X3.  [image_callback] returns early, with one log line and nothing else,
    when nobody listens to its two outputs, when no camera info has arrived
    yet, and when the image cannot be decoded: whatever markers the image
    shows, nothing is broadcast or published and the node is unchanged. *)
Theorem image_callback_early_returns msg n :
  (image_pub_subscribers msg = 0%nat → pose_pub_subscribers msg = 0%nat →
   image_callback msg n = Ok tt n [Log DEBUG NoSubscribers]) ∧
  ((image_pub_subscribers msg ≠ 0%nat ∨ pose_pub_subscribers msg ≠ 0%nat) →
   cam_info_received_ n = false →
   image_callback msg n = Ok tt n [Log DEBUG NoCamInfo]) ∧
  ((image_pub_subscribers msg ≠ 0%nat ∨ pose_pub_subscribers msg ≠ 0%nat) →
   cam_info_received_ n = true → decodes msg = false →
   image_callback msg n = Ok tt n [Log ERROR CvBridgeException]).
Proof.
  unfold image_callback. cbv [mbind M_bind mret M_ret get emit].
  split; [|split].
  - intros H1 H2.
    destruct (decide (image_pub_subscribers msg = 0%nat ∧ pose_pub_subscribers msg = 0%nat))
      as [_|Hn]; [reflexivity | exfalso; auto].
  - intros Hsub Hcam.
    destruct (decide (image_pub_subscribers msg = 0%nat ∧ pose_pub_subscribers msg = 0%nat))
      as [[H1 H2]|_]; [exfalso; tauto|].
    rewrite Hcam. reflexivity.
  - intros Hsub Hcam Hdec.
    destruct (decide (image_pub_subscribers msg = 0%nat ∧ pose_pub_subscribers msg = 0%nat))
      as [[H1 H2]|_]; [exfalso; tauto|].
    rewrite Hcam, Hdec. reflexivity.
Qed.

(** What the loop over the markers emits: transforms, log lines, poses. *)
Lemma marker_loop_effects msg markers n u n' out :
  for_each (process_marker msg) markers n = Ok u n' out →
  Forall (λ e, is_SendTransform e = true ∨ is_Log e = true ∨ is_PublishPose e = true) out.
Proof.
  intros H. apply marker_loop_Ok in H as (_ & outs & Hall & ->).
  induction Hall as [|marker o markers outs (v & o' & Hrun & ->) _ IH]; [constructor|].
  cbn [concat]. apply Forall_app. split; [|exact IH].
  constructor; [left; reflexivity|].
  destruct (publish_pose_returns _ _ _ _ _ _ Hrun)
    as [_ [[-> _]|[[[line ->] _]|[[pmsg ->] _]]]].
  - constructor.
  - constructor; [right; left; reflexivity | constructor].
  - constructor; [right; right; reflexivity | constructor].
Qed.

(** X4.  An image that is processed ends with exactly one diagnostics
    message, the last effect: its level is OK when at least one marker was
    detected and WARN when none was, and it reports the number of detected
    markers, fused or not.  The debug image is published when, and only when,
    somebody listens to it. *)
Theorem image_callback_diagnostics msg n n' out :
  image_is_processed msg n →
  image_callback msg n = Ok tt n' out →
  (∃ out0,
     out = out0 ++
           [PublishDiagnostics (now msg)
              (match detected msg with [] => DIAG_WARN | _ => DIAG_OK end)
              (Z.of_nat (length (detected msg)))] ∧
     Forall (λ e, is_PublishDiagnostics e = false) out0) ∧
  (PublishImage (stamp (image_header msg)) ∈ out ↔ (0 < image_pub_subscribers msg)%nat).
Proof.
  intros Hproc Hrun. rewrite (image_callback_processed msg n Hproc) in Hrun.
  destruct (for_each (process_marker msg) (detected msg) n) as [u n1 o1|] eqn:Hloop;
    [|discriminate].
  apply Ok_inj in Hrun as (_ & _ & <-).
  pose proof (marker_loop_effects _ _ _ _ _ _ Hloop) as Hkinds.
  assert (Hlevel : (if decide (0 < Z.of_nat (length (detected msg)))%Z
                    then DIAG_OK else DIAG_WARN)
                   = match detected msg with [] => DIAG_WARN | _ => DIAG_OK end).
  { destruct (detected msg); cbn [length].
    - destruct (decide (0 < Z.of_nat 0)%Z); [lia | reflexivity].
    - destruct (decide (0 < Z.of_nat (S (length l)))%Z); [reflexivity | lia]. }
  rewrite Hlevel. split.
  - eexists. split; [rewrite app_assoc; reflexivity|].
    apply Forall_app. split.
    + eapply Forall_impl; [exact Hkinds|].
      intros [] [H|[H|H]]; cbn in *; congruence.
    + destruct (decide (0 < image_pub_subscribers msg)%nat); repeat constructor.
  - rewrite !elem_of_app. split.
    + intros [Hin|[Hin|Hin]].
      * exfalso. rewrite Forall_forall in Hkinds.
        destruct (Hkinds _ Hin) as [H|[H|H]]; discriminate H.
      * destruct (decide (0 < image_pub_subscribers msg)%nat); [assumption|].
        now apply not_elem_of_nil in Hin.
      * apply list_elem_of_singleton in Hin. discriminate Hin.
    + intros Hpos. right. left.
      destruct (decide (0 < image_pub_subscribers msg)%nat); [left | contradiction].
Qed.

Lemma filter_SendTransform_publish sensor_to_tag tag_id n v n' out :
  publish_pose_as_base_link sensor_to_tag tag_id n = Ok v n' out →
  filter (λ e, is_SendTransform e = true) out = [].
Proof.
  intros Hrun.
  destruct (publish_pose_returns _ _ _ _ _ _ Hrun)
    as [_ [[-> _]|[[[line ->] _]|[[pmsg ->] _]]]]; reflexivity.
Qed.

(** X5.  A processed image broadcasts one transform per detected marker, in
    the order of detection, named [detected_marker_<id>] and stamped like the
    image, whether or not the marker is then fused. *)
Theorem image_callback_broadcasts msg n n' out :
  image_is_processed msg n →
  image_callback msg n = Ok tt n' out →
  filter (λ e, is_SendTransform e = true) out
  = map (λ marker, SendTransform (marker_transform msg marker)) (detected msg) ∧
  ∀ marker, marker ∈ detected msg →
    child_frame_id (marker_transform msg marker) = "detected_marker_" +:+ pretty (id marker) ∧
    ts_header (marker_transform msg marker) = image_header msg.
Proof.
  intros Hproc Hrun. split.
  - rewrite (image_callback_processed msg n Hproc) in Hrun.
    destruct (for_each (process_marker msg) (detected msg) n) as [u n1 o1|] eqn:Hloop;
      [|discriminate].
    apply Ok_inj in Hrun as (_ & _ & <-).
    apply marker_loop_Ok in Hloop as (_ & outs & Hall & ->).
    rewrite !filter_app.
    assert (Htail : ∀ l1 l2 : list Effect,
              filter (λ e, is_SendTransform e = true) l1 = [] →
              filter (λ e, is_SendTransform e = true) l2 = [] →
              ∀ l, l ++ filter (λ e, is_SendTransform e = true) l1
                     ++ filter (λ e, is_SendTransform e = true) l2 = l).
    { intros l1 l2 -> -> l. now rewrite !app_nil_r. }
    rewrite Htail; [|destruct (decide (0 < image_pub_subscribers msg)%nat); reflexivity
                    |reflexivity].
    induction Hall as [|marker o markers outs (v & o' & Hpub & ->) _ IH]; [reflexivity|].
    cbn [concat map]. rewrite filter_app, IH, filter_cons.
    destruct (decide (is_SendTransform (SendTransform (marker_transform msg marker)) = true))
      as [_|Hn]; [|now destruct Hn].
    rewrite (filter_SendTransform_publish _ _ _ _ _ _ Hpub). reflexivity.
  - intros marker _. split; [reflexivity|].
    unfold marker_transform. cbn [ts_header]. now destruct (image_header msg).
Qed.

(** A published pose is stamped like the detection, in the [map] frame, and
    is that of a target tag found in the landmark map. *)
Lemma published_header_and_target sensor_to_tag tag_id n msg :
  PublishPose msg ∈ effects (publish_pose_as_base_link sensor_to_tag tag_id n) →
  header msg = mkHeader (stamp (ps_header sensor_to_tag)) "map" ∧
  tag_id ∈ target_tag_ids_ n ∧ is_Some (landmark_map_ n !! tag_id).
Proof.
  destruct (publish_pose_runs sensor_to_tag tag_id n)
    as [Hw|Hw Hm|mt Hw Hm Hr|mt ex Hw Hm Hr Ht|mt tr Hw Hm Hr Ht Hs
       |mt tr Hw Hm Hr Ht Hs Hp|mt tr cov Hw Hm Hr Ht Hs Hp Hc
       |mt tr Hw Hm Hr Ht Hs Hp Hc];
    cbn [effects]; intros Hin.
  all: try (apply list_elem_of_singleton in Hin; discriminate Hin).
  all: try (apply not_elem_of_nil in Hin; contradiction).
  apply list_elem_of_singleton in Hin. injection Hin as ->.
  split; [reflexivity|]. split; [exact Hw | eauto].
Qed.

(** A call of [image_callback] that returns hands the node back. *)
Lemma image_callback_node msg n u n' out :
  image_callback msg n = Ok u n' out → n' = n.
Proof.
  intros Hrun. destruct (image_is_processed_dec msg n) as [Hproc|Hskip].
  - rewrite (image_callback_processed msg n Hproc) in Hrun.
    destruct (for_each (process_marker msg) (detected msg) n) as [u1 n1 o1|] eqn:Hloop;
      [|discriminate].
    apply Ok_inj in Hrun as (_ & <- & _).
    now apply marker_loop_Ok in Hloop as (-> & _).
  - destruct (image_callback_skipped msg n Hskip) as (s & line & Hs).
    rewrite Hs in Hrun. now apply Ok_inj in Hrun as (_ & <- & _).
Qed.

(** Every pose among the effects of [image_callback] is the fusion of one of
    the image's markers. *)
Lemma image_callback_pose_origin msg n u n' out pmsg :
  image_callback msg n = Ok u n' out →
  PublishPose pmsg ∈ out →
  ∃ marker,
    marker ∈ detected msg ∧
    PublishPose pmsg
    ∈ effects (publish_pose_as_base_link (marker_detection msg marker)
                 (pretty (id marker)) n) ∧
    pretty (id marker) ∈ target_tag_ids_ n ∧
    header pmsg = mkHeader (stamp (image_header msg)) "map".
Proof.
  intros Hrun Hin. destruct (image_is_processed_dec msg n) as [Hproc|Hskip].
  2: { destruct (image_callback_skipped msg n Hskip) as (s & line & Hs).
       rewrite Hs in Hrun. apply Ok_inj in Hrun as (_ & _ & <-).
       apply list_elem_of_singleton in Hin. discriminate Hin. }
  rewrite (image_callback_processed msg n Hproc) in Hrun.
  destruct (for_each (process_marker msg) (detected msg) n) as [u1 n1 o1|] eqn:Hloop;
    [|discriminate].
  apply Ok_inj in Hrun as (_ & _ & <-).
  apply marker_loop_Ok in Hloop as (_ & outs & Hall & ->).
  apply elem_of_app in Hin as [Hin|Hin].
  2: { exfalso. apply elem_of_app in Hin as [Hin|Hin].
       - destruct (decide (0 < image_pub_subscribers msg)%nat).
         + apply list_elem_of_singleton in Hin. discriminate Hin.
         + now apply not_elem_of_nil in Hin.
       - apply list_elem_of_singleton in Hin. discriminate Hin. }
  induction Hall as [|marker o markers outs (v & o' & Hpub & ->) _ IH].
  { now apply not_elem_of_nil in Hin. }
  cbn [concat] in Hin. apply elem_of_app in Hin as [Hin|Hin].
  - apply elem_of_cons in Hin as [Hin|Hin]; [discriminate Hin|].
    assert (Heff : PublishPose pmsg
              ∈ effects (publish_pose_as_base_link (marker_detection msg marker)
                           (pretty (id marker)) n)).
    { rewrite Hpub. exact Hin. }
    destruct (published_header_and_target _ _ _ _ Heff) as (Hh & Hw & _).
    exists marker. split; [left|]. split; [exact Heff|]. split; [exact Hw | exact Hh].
  - destruct (IH Hin) as (marker' & Hm & Hrest).
    exists marker'. split; [now right | exact Hrest].
Qed.

(** X6.  [image_callback] never changes the node.  It publishes at most one
    pose per detected marker, and every pose it publishes is the fusion of one
    of the image's markers whose identifier, written in decimal, is a target
    tag; the pose is stamped like the image, in the [map] frame. *)
Theorem image_callback_keeps_node msg n u n' out :
  image_callback msg n = Ok u n' out →
  n' = n ∧
  (length (filter (λ e, is_PublishPose e = true) out) ≤ length (detected msg))%nat ∧
  ∀ pmsg, PublishPose pmsg ∈ out →
    ∃ marker,
      marker ∈ detected msg ∧
      PublishPose pmsg
      ∈ effects (publish_pose_as_base_link (marker_detection msg marker)
                   (pretty (id marker)) n) ∧
      pretty (id marker) ∈ target_tag_ids_ n ∧
      header pmsg = mkHeader (stamp (image_header msg)) "map".
Proof.
  intros Hrun. split; [exact (image_callback_node _ _ _ _ _ Hrun)|].
  split; [|intros pmsg Hin; exact (image_callback_pose_origin _ _ _ _ _ _ Hrun Hin)].
  destruct (image_is_processed_dec msg n) as [Hproc|Hskip].
  2: { destruct (image_callback_skipped msg n Hskip) as (s & line & Hs).
       rewrite Hs in Hrun. apply Ok_inj in Hrun as (_ & _ & <-). apply Nat.le_0_l. }
  rewrite (image_callback_processed msg n Hproc) in Hrun.
  destruct (for_each (process_marker msg) (detected msg) n) as [u1 n1 o1|] eqn:Hloop;
    [|discriminate].
  apply Ok_inj in Hrun as (_ & _ & <-).
  apply marker_loop_Ok in Hloop as (_ & outs & Hall & ->).
  rewrite filter_app.
  assert (Hnil : filter (λ e, is_PublishPose e = true)
                   ((if decide (0 < image_pub_subscribers msg)%nat
                     then [PublishImage (stamp (image_header msg))] else []) ++
                    [PublishDiagnostics (now msg)
                       (if decide (0 < Z.of_nat (length (detected msg)))%Z
                        then DIAG_OK else DIAG_WARN)
                       (Z.of_nat (length (detected msg)))]) = []).
  { destruct (decide (0 < image_pub_subscribers msg)%nat); reflexivity. }
  rewrite Hnil, app_nil_r. clear Hnil.
  induction Hall as [|marker o markers outs (v & o' & Hpub & ->) _ IH]; [cbn; lia|].
  cbn [concat length]. rewrite filter_app, length_app.
  assert (length (filter (λ e, is_PublishPose e = true)
                    (SendTransform (marker_transform msg marker) :: o')) ≤ 1)%nat.
  { destruct (publish_pose_returns _ _ _ _ _ _ Hpub)
      as [_ [[-> _]|[[[line ->] _]|[[pmsg ->] _]]]];
      [apply Nat.le_0_l | apply Nat.le_0_l | apply Nat.le_refl]. }
  cbn [length]. lia.
Qed.

(** A detection stamped later than the tolerance after the reference pose is
    rejected: the call returns and publishes nothing. *)
Lemma publish_stale sensor_to_tag tag_id n :
  diff_time sensor_to_tag n > ekf_time_tolerance_ n →
  ∃ v out,
    publish_pose_as_base_link sensor_to_tag tag_id n = Ok v n out ∧
    v ≠ Published ∧ Forall not_PublishPose out.
Proof.
  intros Hlate.
  destruct (publish_pose_runs sensor_to_tag tag_id n)
    as [Hw|Hw Hm|mt Hw Hm Hr|mt ex Hw Hm Hr Ht|mt tr Hw Hm Hr Ht Hs
       |mt tr Hw Hm Hr Ht Hs Hp|mt tr cov Hw Hm Hr Ht Hs Hp Hc
       |mt tr Hw Hm Hr Ht Hs Hp Hc];
    try contradiction.
  all: eexists _, _; split; [reflexivity|]; split; [discriminate|].
  all: repeat constructor.
Qed.

(** X7.  When the stamp of an image is later than the time tolerance after
    the stamp of the latest reference pose, none of its markers is fused: the
    callback returns, the node is unchanged and no pose is published,
    whatever the markers, the map and the transforms. *)
Theorem stale_image_fuses_nothing msg n :
  seconds (Time_minus (rclcpp_Time (stamp (image_header msg)))
                      (rclcpp_Time (stamp (header (latest_ekf_pose_ n)))))
  > ekf_time_tolerance_ n →
  ∃ out, image_callback msg n = Ok tt n out ∧ Forall not_PublishPose out.
Proof.
  intros Hlate. destruct (image_is_processed_dec msg n) as [Hproc|Hskip].
  2: { destruct (image_callback_skipped msg n Hskip) as (s & line & Hs).
       exists [Log s line]. split; [exact Hs | repeat constructor]. }
  rewrite (image_callback_processed msg n Hproc).
  destruct (for_each_quiet (process_marker msg) (detected msg) n) as (o1 & H1 & Hq1).
  { intros marker _.
    destruct (publish_stale (marker_detection msg marker) (pretty (id marker)) n Hlate)
      as (v & o & Hpub & _ & Hq).
    rewrite (process_marker_of_publish _ _ _ _ _ Hpub).
    eexists. split; [reflexivity|]. constructor; [reflexivity | exact Hq]. }
  rewrite H1. eexists. split; [reflexivity|].
  rewrite !Forall_app. split; [exact Hq1|].
  destruct (decide (0 < image_pub_subscribers msg)%nat); repeat constructor.
Qed.

(** ** The other callbacks and the executor *)

Lemma cam_info_callback_received msg n :
  cam_info_received_ n = true → cam_info_callback msg n = Ok tt n [].
Proof.
  intros H. unfold cam_info_callback. cbv [mbind M_bind mret M_ret get put].
  rewrite H. reflexivity.
Qed.

Lemma cam_info_ignored msgs n :
  cam_info_received_ n = true → for_each cam_info_callback msgs n = Ok tt n [].
Proof.
  intros H. induction msgs as [|msg msgs IH]; [reflexivity|].
  cbn [for_each].
  rewrite (bind_Ok _ _ _ _ _ _ _ _ _ (cam_info_callback_received msg n H) IH).
  reflexivity.
Qed.

Lemma static_cast_int_small v :
  (0 ≤ v < 2147483648)%Z → static_cast_int v = v.
Proof.
  intros Hv. unfold static_cast_int. rewrite Z.mod_small by lia. lia.
Qed.

Lemma static_cast_int_large v :
  (2147483648 ≤ v < 4294967296)%Z → static_cast_int v = (v - 4294967296)%Z.
Proof.
  intros Hv. unfold static_cast_int.
  replace (v + 2147483648)%Z with (v - 2147483648 + 1 * 4294967296)%Z by lia.
  rewrite Z.mod_add by lia. rewrite Z.mod_small by lia. lia.
Qed.

(** X1.  The first camera info that reaches a node without calibration sets
    the camera parameters: the twelve entries of its projection matrix, four
    zero distortion coefficients and its image size, narrowed from [uint32]
    to [int]: a size below 2^31 is stored as it is, a larger one is stored
    as the negative number 2^32 below it.  Every later camera info is
    ignored: the calibration is never replaced, and nothing is logged or
    published. *)
Theorem cam_info_first_wins first later n :
  cam_info_received_ n = false →
  let calibrated :=
    set_cam_info_received_ true
      (set_cam_param_
         (mkCameraParameters (take 12 (cam_p first)) [0; 0; 0; 0]
            (static_cast_int (width first)) (static_cast_int (height first)))
         n) in
  for_each cam_info_callback (first :: later) n = Ok tt calibrated [] ∧
  (length (cam_p first) = 12%nat → camera_matrix (cam_param_ calibrated) = cam_p first) ∧
  ((0 ≤ width first < 2147483648)%Z → cam_width (cam_param_ calibrated) = width first) ∧
  ((0 ≤ height first < 2147483648)%Z → cam_height (cam_param_ calibrated) = height first) ∧
  ((2147483648 ≤ width first < 4294967296)%Z →
   cam_width (cam_param_ calibrated) = (width first - 4294967296)%Z) ∧
  ((2147483648 ≤ height first < 4294967296)%Z →
   cam_height (cam_param_ calibrated) = (height first - 4294967296)%Z) ∧
  ∀ msg n', cam_info_received_ n' = true → cam_info_callback msg n' = Ok tt n' [].
Proof.
  intros Hnone calibrated. split; [|split; [|split; [|split; [|split; [|split]]]]].
  - assert (Hfirst : cam_info_callback first n = Ok tt calibrated []).
    { unfold cam_info_callback. cbv [mbind M_bind mret M_ret get put].
      rewrite Hnone. reflexivity. }
    cbn [for_each].
    rewrite (bind_Ok _ _ _ _ _ _ _ _ _ Hfirst (cam_info_ignored later calibrated eq_refl)).
    reflexivity.
  - intros Hlen. cbn [calibrated set_cam_info_received_ set_cam_param_ cam_param_ camera_matrix].
    apply take_ge. lia.
  - apply static_cast_int_small.
  - apply static_cast_int_small.
  - apply static_cast_int_large.
  - apply static_cast_int_large.
  - intros msg n'. apply cam_info_callback_received.
Qed.

(** X2.  Of the reference poses that reach the node only the last one is
    kept: each [ekf_pose_callback] overwrites the stored reference pose, stamp
    and covariance included, without looking at it, and has no other effect. *)
Theorem ekf_pose_latest_wins earlier last n :
  for_each ekf_pose_callback (earlier ++ [last]) n
  = Ok tt (set_latest_ekf_pose_ last n) [].
Proof.
  revert n. induction earlier as [|msg earlier IH]; intros n; [reflexivity|].
  cbn [app for_each].
  assert (Hmsg : ekf_pose_callback msg n = Ok tt (set_latest_ekf_pose_ msg n) [])
    by reflexivity.
  rewrite (bind_Ok _ _ _ _ _ _ _ _ _ Hmsg (IH _)). reflexivity.
Qed.

Lemma map_bin_reloads earlier last n :
  for_each map_bin_callback (earlier ++ [last]) n
  = Ok tt (set_landmark_map_ last n) (map PublishMarkerArray (earlier ++ [last])).
Proof.
  revert n. induction earlier as [|landmarks earlier IH]; intros n; [reflexivity|].
  cbn [app for_each map].
  assert (Hone : map_bin_callback landmarks n
                 = Ok tt (set_landmark_map_ landmarks n) [PublishMarkerArray landmarks])
    by reflexivity.
  rewrite (bind_Ok _ _ _ _ _ _ _ _ _ Hone (IH _)). reflexivity.
Qed.

(** X8.  A map message replaces the landmark map wholesale: after several
    of them the node holds the landmarks of the last one only, each having
    been republished as a marker array.  A target tag that the last map does
    not list is rejected as not being in the landmark map, even if an earlier
    map listed it. *)
Theorem map_reload_replaces_registry earlier last n :
  for_each map_bin_callback (earlier ++ [last]) n
  = Ok tt (set_landmark_map_ last n) (map PublishMarkerArray (earlier ++ [last])) ∧
  ∀ sensor_to_tag tag_id,
    tag_id ∈ target_tag_ids_ n → last !! tag_id = None →
    publish_pose_as_base_link sensor_to_tag tag_id (set_landmark_map_ last n)
    = Ok NotInMap (set_landmark_map_ last n) [Log INFO (NotInLandmarkMap tag_id)].
Proof.
  split; [apply map_bin_reloads|].
  intros sensor_to_tag tag_id Hw Hm.
  apply path_NotInMap; assumption.
Qed.

(** X9.  [setup] assigns the list and threshold parameters before it looks
    at the detection mode, and returns [true] exactly for a recognised mode;
    only then do the subscriptions and a new, empty tf buffer exist.  The
    distance threshold is stored squared, so that its sign is lost: the
    opposite threshold gives the same node.  The landmark map, the reference
    pose and the camera calibration are not touched. *)
Theorem setup_stores_parameters p n :
  ∃ b n' out,
    setup p n = Ok b n' out ∧
    (b = true ↔ detection_mode p ∈ recognized_detection_modes) ∧
    (target_tag_ids_ n' = target_tag_ids p ∧
     base_covariance_ n' = base_covariance p ∧
     distance_threshold_squared_ n' = distance_threshold p * distance_threshold p ∧
     ekf_time_tolerance_ n' = ekf_time_tolerance p ∧
     ekf_position_tolerance_ n' = ekf_position_tolerance p) ∧
    (landmark_map_ n' = landmark_map_ n ∧ latest_ekf_pose_ n' = latest_ekf_pose_ n ∧
     cam_info_received_ n' = cam_info_received_ n ∧ cam_param_ n' = cam_param_ n) ∧
    (b = true →
     subscriptions n' = (true, true, true, true, true) ∧ tf_buffer_ n' = Buffer_empty) ∧
    (b = false →
     subscriptions n' = subscriptions n ∧ detector_ n' = detector_ n ∧
     tf_buffer_ n' = tf_buffer_ n) ∧
    setup (with_distance_threshold (- distance_threshold p) p) n = Ok b n' out.
Proof.
  assert (Hsq : ∀ x : R, x ^ 2 = x * x) by (intros x; ring).
  assert (Hopp : declare_parameters (with_distance_threshold (- distance_threshold p) p) n
                 = declare_parameters p n).
  { unfold declare_parameters, with_distance_threshold.
    cbn [marker_size target_tag_ids base_covariance distance_threshold ekf_time_tolerance
         ekf_position_tolerance].
    f_equal. ring. }
  destruct (decide (detection_mode p ∈ recognized_detection_modes)) as [Hm|Hm].
  - destruct (setup_recognized p n Hm) as [dm Hsetup].
    destruct (setup_recognized (with_distance_threshold (- distance_threshold p) p) n Hm)
      as [dm' Hsetup'].
    assert (Hdm : dm' = dm).
    { revert Hsetup Hsetup'. unfold setup. cbv [mbind M_bind mret M_ret get put emit].
      cbn [with_distance_threshold detection_mode min_marker_size].
      destruct (decide (detection_mode p = "DM_NORMAL"));
        [|destruct (decide (detection_mode p = "DM_FAST"));
          [|destruct (decide (detection_mode p = "DM_VIDEO_FAST"))]];
        intros H1 H2; try discriminate H1;
        apply Ok_inj in H1 as (_ & H1 & _); apply Ok_inj in H2 as (_ & H2 & _);
        apply (f_equal detector_) in H1; apply (f_equal detector_) in H2;
        cbn [create_handles setDetectionMode detector_] in H1, H2; congruence. }
    subst dm'. rewrite Hopp in Hsetup'.
    eexists _, _, _. split; [exact Hsetup|].
    split; [tauto|]. split; [repeat split; apply Hsq|].
    split; [repeat split|]. split; [intros _; split; reflexivity|].
    split; [discriminate | exact Hsetup'].
  - pose proof (setup_unrecognized p n Hm) as Hsetup.
    pose proof (setup_unrecognized (with_distance_threshold (- distance_threshold p) p) n Hm)
      as Hsetup'.
    rewrite Hopp in Hsetup'.
    eexists _, _, _. split; [exact Hsetup|].
    split; [split; [discriminate | contradiction]|].
    split; [repeat split; apply Hsq|].
    split; [repeat split|]. split; [discriminate|].
    split; [intros _; repeat split | exact Hsetup'].
Qed.

(** What one delivered event may change in the node. *)
Lemma deliver_invariants e n u n' out :
  deliver e n = Ok u n' out →
  configuration n' = configuration n ∧
  subscriptions n' = subscriptions n ∧
  (cam_info_received_ n = true →
   cam_info_received_ n' = true ∧ cam_param_ n' = cam_param_ n) ∧
  (is_MapBin e = false → landmark_map_ n' = landmark_map_ n) ∧
  (is_EkfPoseIn e = false → latest_ekf_pose_ n' = latest_ekf_pose_ n).
Proof.
  unfold deliver. cbv [mbind M_bind mret M_ret get put].
  destruct e as [landmarks|msg|msg|msg|content].
  - destruct (map_bin_sub_ n); intros H; apply Ok_inj in H as (_ & <- & _);
      repeat split; auto; discriminate.
  - destruct (image_sub_ n).
    + destruct (image_callback msg n) as [u1 n1 o1|] eqn:Hrun; [|discriminate].
      apply image_callback_node in Hrun as ->.
      intros H; apply Ok_inj in H as (_ & <- & _). repeat split; auto.
    + intros H; apply Ok_inj in H as (_ & <- & _). repeat split; auto.
  - destruct (cam_info_sub_ n).
    + unfold cam_info_callback. cbv [mbind M_bind mret M_ret get put].
      destruct (cam_info_received_ n) eqn:Hcam;
        intros H; apply Ok_inj in H as (_ & <- & _);
        repeat split; auto; discriminate.
    + intros H; apply Ok_inj in H as (_ & <- & _). repeat split; auto.
  - destruct (ekf_pose_sub_ n); intros H; apply Ok_inj in H as (_ & <- & _);
      repeat split; auto; discriminate.
  - destruct (tf_listener_ n); intros H; apply Ok_inj in H as (_ & <- & _);
      repeat split; auto.
Qed.

(** X10.  Whatever the events that the executor delivers, the callbacks
    never write the parameters that [setup] has stored, nor the subscription
    handles; a calibration, once received, stays as it is; the landmark map
    changes only with a map message and the reference pose only with a
    reference pose message. *)
Theorem callbacks_keep_configuration events n u n' out :
  spin events n = Ok u n' out →
  configuration n' = configuration n ∧
  subscriptions n' = subscriptions n ∧
  (cam_info_received_ n = true →
   cam_info_received_ n' = true ∧ cam_param_ n' = cam_param_ n) ∧
  (Forall (λ e, is_MapBin e = false) events → landmark_map_ n' = landmark_map_ n) ∧
  (Forall (λ e, is_EkfPoseIn e = false) events → latest_ekf_pose_ n' = latest_ekf_pose_ n).
Proof.
  unfold spin. revert n u n' out.
  induction events as [|e events IH]; intros n u n' out Hrun.
  - cbn [for_each] in Hrun. apply Ok_inj in Hrun as (_ & <- & _). repeat split; auto.
  - cbn [for_each] in Hrun.
    apply bind_Ok_inv in Hrun as (a & n1 & o1 & o2 & H1 & H2 & _).
    apply deliver_invariants in H1 as (Hc1 & Hs1 & Hcam1 & Hmap1 & Hekf1).
    apply IH in H2 as (Hc2 & Hs2 & Hcam2 & Hmap2 & Hekf2).
    split; [congruence|]. split; [congruence|]. split; [|split].
    + intros Hcam. destruct (Hcam1 Hcam) as [Hr1 Hp1].
      destruct (Hcam2 Hr1) as [Hr2 Hp2]. split; congruence.
    + intros Hall. apply Forall_cons in Hall as [He Hall].
      rewrite (Hmap2 Hall). exact (Hmap1 He).
    + intros Hall. apply Forall_cons in Hall as [He Hall].
      rewrite (Hekf2 Hall). exact (Hekf1 He).
Qed.

Lemma deliver_pose_origin e n u n' out pmsg :
  deliver e n = Ok u n' out →
  PublishPose pmsg ∈ out →
  ∃ msg, e = ImageIn msg ∧ image_callback msg n = Ok tt n' out.
Proof.
  unfold deliver. cbv [mbind M_bind mret M_ret get put].
  destruct e as [landmarks|msg|msg|msg|content].
  - destruct (map_bin_sub_ n); intros H Hin; apply Ok_inj in H as (_ & _ & <-).
    + apply list_elem_of_singleton in Hin. discriminate Hin.
    + now apply not_elem_of_nil in Hin.
  - destruct (image_sub_ n).
    + destruct (image_callback msg n) as [[] n1 o1|] eqn:Hrun; [|discriminate].
      intros H Hin. apply Ok_inj in H as (_ & <- & <-). exists msg. split; [reflexivity|].
      exact Hrun.
    + intros H Hin. apply Ok_inj in H as (_ & _ & <-). now apply not_elem_of_nil in Hin.
  - destruct (cam_info_sub_ n).
    + unfold cam_info_callback. cbv [mbind M_bind mret M_ret get put].
      destruct (cam_info_received_ n);
        intros H Hin; apply Ok_inj in H as (_ & _ & <-); now apply not_elem_of_nil in Hin.
    + intros H Hin. apply Ok_inj in H as (_ & _ & <-). now apply not_elem_of_nil in Hin.
  - destruct (ekf_pose_sub_ n); intros H Hin; apply Ok_inj in H as (_ & _ & <-);
      now apply not_elem_of_nil in Hin.
  - destruct (tf_listener_ n); intros H Hin; apply Ok_inj in H as (_ & _ & <-);
      now apply not_elem_of_nil in Hin.
Qed.

(** X15.  The node publishes a pose only in answer to an image: every pose
    published while the executor delivers events is the fusion of a marker
    detected in one of the delivered images, whose identifier is among the
    target tags that [setup] stored; it is stamped like that image, in the
    [map] frame.  Maps, camera infos, reference poses and transforms alone
    never make the node publish a pose. *)
Theorem poses_come_from_images events n u n' out pmsg :
  spin events n = Ok u n' out →
  PublishPose pmsg ∈ out →
  ∃ msg marker,
    ImageIn msg ∈ events ∧ marker ∈ detected msg ∧
    pretty (id marker) ∈ target_tag_ids_ n ∧
    header pmsg = mkHeader (stamp (image_header msg)) "map".
Proof.
  unfold spin. revert n u n' out.
  induction events as [|e events IH]; intros n u n' out Hrun Hin.
  - cbn [for_each] in Hrun. apply Ok_inj in Hrun as (_ & _ & <-).
    now apply not_elem_of_nil in Hin.
  - cbn [for_each] in Hrun.
    apply bind_Ok_inv in Hrun as (a & n1 & o1 & o2 & H1 & H2 & ->).
    apply elem_of_app in Hin as [Hin|Hin].
    + destruct (deliver_pose_origin _ _ _ _ _ _ H1 Hin) as (msg & -> & Himage).
      destruct (image_callback_pose_origin _ _ _ _ _ _ Himage Hin)
        as (marker & Hm & _ & Hw & Hh).
      exists msg, marker. split; [left | auto].
    + destruct (IH _ _ _ _ H2 Hin) as (msg & marker & He & Hm & Hw & Hh).
      apply deliver_invariants in H1 as (Hconf & _).
      assert (Htargets : target_tag_ids_ n1 = target_tag_ids_ n).
      { unfold configuration in Hconf. congruence. }
      rewrite Htargets in Hw.
      exists msg, marker. split; [now right | auto].
Qed.

(** ** The fused pose, once more *)

(** X11.  The pose that is published places the body where the tag is seen
    at its mapped pose: composed with the sensor-to-body transform and the
    detection, it gives back the landmark's pose in the map.  Its orientation
    is a unit quaternion, and its [w] is never negative.  (Orientations are
    unit quaternions; doubles are real numbers.) *)
Theorem fused_pose_places_the_tag sensor_to_tag tag_id n msg map_to_tag tr :
  PublishPose msg ∈ effects (publish_pose_as_base_link sensor_to_tag tag_id n) →
  landmark_map_ n !! tag_id = Some map_to_tag →
  tf_buffer_ n "base_link" (frame_id (ps_header sensor_to_tag)) = inl tr →
  unit_quaternion (orientation map_to_tag) →
  unit_quaternion (tf_rotation (transform tr)) →
  unit_quaternion (orientation (ps_pose sensor_to_tag)) →
  affine_mul (pose_to_affine3d (pose (pose_cov msg)))
             (bodyToLandmark (transform tr) (ps_pose sensor_to_tag))
  = pose_to_affine3d map_to_tag ∧
  unit_quaternion (orientation (pose (pose_cov msg))) ∧
  0 <= q_w (orientation (pose (pose_cov msg))).
Proof.
  intros Hin Hm Ht Hl Hr Hd.
  destruct (published_message _ _ _ _ Hin) as (mt & tr' & Hm' & Ht' & _ & _ & -> & _).
  assert (mt = map_to_tag) as -> by congruence.
  assert (tr' = tr) as -> by congruence.
  cbn [fused_message pose_cov pose].
  rewrite (map_to_base_link_mapToBody _ _ _ Hr Hd).
  pose proof (linear_mapToBody _ _ _ Hl Hr Hd) as Hlin.
  pose proof (unit_quat_mul _ _ Hr Hd) as Hb.
  pose proof (unit_quat_mul _ _ Hl (unit_quat_conj _ Hb)) as Hq.
  split; [|split].
  - unfold pose_to_affine3d. rewrite (fromMsg_toMsg_rotation _ _ Hlin Hq).
    unfold mapToBody. rewrite affine_mul_assoc, affine_mul_inverse_l.
    + apply affine_mul_Identity_r.
    + rewrite (linear_bodyToLandmark _ _ Hr Hd), (determinant_toRotationMatrix _ Hb). lra.
  - apply (unit_toMsg _ _ Hlin Hq).
  - apply toMsg_w_nonneg.
Qed.

Lemma cube_le a b : 0 <= a → a <= b → a ^ 3 <= b ^ 3.
Proof. intros H0 Hab. apply pow_incr. lra. Qed.

Lemma distance_le_5 sensor_to_tag :
  sqrt (distance_squared sensor_to_tag) <= 5 ↔ distance_squared sensor_to_tag <= 25.
Proof.
  destruct (sqrt_distance_squared sensor_to_tag) as [H0 Hsq].
  pose proof (sqrt_pos (distance_squared sensor_to_tag)) as Hpos.
  split; intros H; nra.
Qed.

(** X12.  The factor applied to the base covariance is exactly 1 up to a
    distance of 5 m (a squared distance of 25), is the cube of a fifth of the
    distance beyond, and never decreases when the distance grows. *)
Theorem covariance_grows_beyond_5m a b :
  (covariance_coeff a = 1 ↔ distance_squared a <= 25) ∧
  (25 <= distance_squared a →
   covariance_coeff a = (sqrt (distance_squared a) / 5) ^ 3) ∧
  (distance_squared a <= distance_squared b → covariance_coeff a <= covariance_coeff b).
Proof.
  destruct (sqrt_distance_squared a) as [Ha0 Hasq].
  destruct (sqrt_distance_squared b) as [Hb0 Hbsq].
  pose proof (sqrt_pos (distance_squared a)) as Hpa.
  pose proof (sqrt_pos (distance_squared b)) as Hpb.
  assert (Hcube : ∀ d, 0 <= d → (1 < (d / 5) ^ 3 ↔ 5 < d)).
  { intros d Hd. split; intros H.
    - destruct (Rle_dec d 5) as [Hle|Hgt]; [|lra].
      exfalso. assert ((d / 5) ^ 3 <= 1 ^ 3) by (apply cube_le; lra). lra.
    - assert (1 < d / 5) by lra. nra. }
  unfold covariance_coeff, std_max.
  set (da := sqrt (distance_squared a)) in *.
  set (db := sqrt (distance_squared b)) in *.
  split; [|split].
  - rewrite <- (distance_le_5 a). fold da.
    destruct (Rlt_dec 1 ((da / 5) ^ 3)) as [H|H].
    + pose proof (proj1 (Hcube da Hpa) H) as H5. split; intros; lra.
    + split; [|reflexivity]. intros _.
      destruct (Rle_dec da 5) as [Hle|Hgt]; [exact Hle|].
      exfalso. apply H, Hcube; lra.
  - intros H25. destruct (Rlt_dec 1 ((da / 5) ^ 3)) as [H|H]; [reflexivity|].
    assert (Hle : da <= 5).
    { destruct (Rle_dec da 5) as [Hle|Hgt]; [exact Hle|].
      exfalso. apply H, Hcube; lra. }
    assert (da = 5) as -> by nra. lra.
  - intros Hab.
    assert (Hle : da <= db) by (apply sqrt_le_1_alt, Hab).
    assert (Hc : (da / 5) ^ 3 <= (db / 5) ^ 3) by (apply cube_le; lra).
    destruct (Rlt_dec 1 ((da / 5) ^ 3)); destruct (Rlt_dec 1 ((db / 5) ^ 3)); lra.
Qed.

Lemma scale_covariance_take c base :
  scale_covariance c (take 36 base) = scale_covariance c base.
Proof.
  destruct (scale_covariance c base) as [cov|] eqn:H.
  - apply scale_covariance_Some in H as [Hlen ->].
    apply scale_covariance_Some. split.
    + rewrite length_take. lia.
    + now rewrite take_take, Nat.min_id.
  - apply scale_covariance_None in H. apply scale_covariance_None.
    rewrite length_take. lia.
Qed.

(** X13.  The loop that fills the covariance reads the first 36 entries of
    the base covariance without looking at its length.  So a call fails to
    return normally exactly when the detection passes the six checks and the
    base covariance has fewer than 36 entries; a rejected detection returns
    whatever that length; and entries beyond the 36th are never read. *)
Theorem short_covariance_is_fatal sensor_to_tag tag_id n :
  (publish_pose_as_base_link sensor_to_tag tag_id n = Fault ↔
   (∀ g, admissible g n sensor_to_tag tag_id) ∧ (length (base_covariance_ n) < 36)%nat) ∧
  ((∃ g, ¬ admissible g n sensor_to_tag tag_id) →
   ∃ v out, publish_pose_as_base_link sensor_to_tag tag_id n = Ok v n out ∧ v ≠ Published) ∧
  observable (publish_pose_as_base_link sensor_to_tag tag_id
                (set_base_covariance_ (take 36 (base_covariance_ n)) n))
  = observable (publish_pose_as_base_link sensor_to_tag tag_id n).
Proof.
  set (n2 := set_base_covariance_ (take 36 (base_covariance_ n)) n).
  assert (Hfault : publish_pose_as_base_link sensor_to_tag tag_id n = Fault →
                   (∀ g, admissible g n sensor_to_tag tag_id) ∧
                   (length (base_covariance_ n) < 36)%nat).
  { destruct (publish_pose_runs sensor_to_tag tag_id n)
      as [Hw|Hw Hm|mt Hw Hm Hr|mt ex Hw Hm Hr Ht|mt tr Hw Hm Hr Ht Hs
         |mt tr Hw Hm Hr Ht Hs Hp|mt tr cov Hw Hm Hr Ht Hs Hp Hc
         |mt tr Hw Hm Hr Ht Hs Hp Hc];
      intros Hrun; try discriminate Hrun.
    split; [|apply (scale_covariance_None (covariance_coeff sensor_to_tag)), Hc].
    intros g; destruct g; cbn [admissible]; eauto; try lra.
    intros c Hcand. rewrite (candidate_Some _ _ _ _ _ Hm Ht) in Hcand.
    injection Hcand as <-. unfold diff_position in Hp. exact Hp. }
  split; [|split].
  - split; [exact Hfault|]. intros [Hall Hlen].
    pose proof (Hall WhitelistCheck) as Hw.
    pose proof (Hall RegistryCheck) as [mt Hm].
    pose proof (Hall RangeCheck) as Hr.
    pose proof (Hall FrameTransformCheck) as [tr Ht].
    pose proof (Hall TemporalCheck) as Hs.
    pose proof (Hall SpatialCheck) as Hp.
    cbn [admissible] in Hw, Hr, Hs, Hp.
    apply (path_Fault _ _ _ mt Hw Hm (Rle_not_lt _ _ Hr) tr Ht Hs).
    + unfold diff_position. apply Hp, candidate_Some; assumption.
    + apply scale_covariance_None, Hlen.
  - intros [g Hg].
    destruct (publish_pose_as_base_link sensor_to_tag tag_id n) as [v n' out|] eqn:Hrun.
    + destruct (publish_pose_returns _ _ _ _ _ _ Hrun) as [-> _].
      exists v, out. split; [reflexivity|]. intros ->.
      assert (Hin : ∃ pmsg, PublishPose pmsg ∈ out).
      { destruct (publish_pose_returns _ _ _ _ _ _ Hrun)
          as [_ [[_ Hv]|[[_ [_ Hv]]|[[pmsg ->] _]]]];
          [discriminate Hv | now destruct Hv | exists pmsg; left]. }
      destruct Hin as [pmsg Hin].
      assert (Heff : PublishPose pmsg
                ∈ effects (publish_pose_as_base_link sensor_to_tag tag_id n))
        by (rewrite Hrun; exact Hin).
      destruct (published_message _ _ _ _ Heff) as (mt & tr & Hm & Ht & Hr & _ & _ & Hpub).
      destruct (publish_pose_runs sensor_to_tag tag_id n)
        as [Hw|Hw Hm1|mt1 Hw Hm1 Hr1|mt1 ex Hw Hm1 Hr1 Ht1|mt1 tr1 Hw Hm1 Hr1 Ht1 Hs
           |mt1 tr1 Hw Hm1 Hr1 Ht1 Hs Hp|mt1 tr1 cov Hw Hm1 Hr1 Ht1 Hs Hp Hc
           |mt1 tr1 Hw Hm1 Hr1 Ht1 Hs Hp Hc];
        try discriminate Hpub.
      apply Hg. destruct g; cbn [admissible]; eauto; try lra.
      intros c Hcand. rewrite (candidate_Some _ _ _ _ _ Hm1 Ht1) in Hcand.
      injection Hcand as <-. unfold diff_position in Hp. exact Hp.
    + exfalso. apply Hg, Hfault. reflexivity.
  - destruct (publish_pose_runs sensor_to_tag tag_id n)
      as [Hw|Hw Hm|mt Hw Hm Hr|mt ex Hw Hm Hr Ht|mt tr Hw Hm Hr Ht Hs
         |mt tr Hw Hm Hr Ht Hs Hp|mt tr cov Hw Hm Hr Ht Hs Hp Hc
         |mt tr Hw Hm Hr Ht Hs Hp Hc].
    + rewrite (path_NotTarget sensor_to_tag tag_id n2 Hw). reflexivity.
    + rewrite (path_NotInMap sensor_to_tag tag_id n2 Hw Hm). reflexivity.
    + rewrite (path_OutOfRange sensor_to_tag tag_id n2 mt Hw Hm Hr). reflexivity.
    + rewrite (path_NoTransform sensor_to_tag tag_id n2 mt Hw Hm Hr ex Ht). reflexivity.
    + rewrite (path_StaleEkfPose sensor_to_tag tag_id n2 mt Hw Hm Hr tr Ht Hs). reflexivity.
    + rewrite (path_FarFromEkfPose sensor_to_tag tag_id n2 mt Hw Hm Hr tr Ht Hs Hp).
      reflexivity.
    + rewrite <- scale_covariance_take in Hc.
      rewrite (path_Published sensor_to_tag tag_id n2 mt Hw Hm Hr tr Ht Hs Hp cov Hc).
      reflexivity.
    + rewrite <- scale_covariance_take in Hc.
      rewrite (path_Fault sensor_to_tag tag_id n2 mt Hw Hm Hr tr Ht Hs Hp Hc).
      reflexivity.
Qed.

(** X14.  The reference pose only gates a detection; it never enters the
    pose that is published.  When a detection is fused under two different
    reference poses, the two messages are the same: stamp, frame, position,
    orientation and covariance. *)
Theorem fused_pose_ignores_reference sensor_to_tag tag_id n reference msg msg' :
  PublishPose msg ∈ effects (publish_pose_as_base_link sensor_to_tag tag_id n) →
  PublishPose msg'
  ∈ effects (publish_pose_as_base_link sensor_to_tag tag_id
               (set_latest_ekf_pose_ reference n)) →
  msg' = msg.
Proof.
  intros Hin Hin'.
  destruct (published_message _ _ _ _ Hin) as (mt & tr & Hm & Ht & _ & _ & -> & _).
  destruct (published_message _ _ _ _ Hin') as (mt' & tr' & Hm' & Ht' & _ & _ & -> & _).
  cbn [set_latest_ekf_pose_ landmark_map_ tf_buffer_ base_covariance_] in Hm', Ht' |- *.
  assert (mt' = mt) as -> by congruence.
  assert (tr' = tr) as -> by congruence.
  reflexivity.
Qed.

(** ** The callbacks at the concrete node *)

Lemma two_marker_image_processed : image_is_processed two_marker_image example_node.
Proof. split; [intros [H _]; discriminate H | split; reflexivity]. Qed.

Lemma example_fresh :
  IZR (10 * 1000000000 + 400000000 - 10000000000) / 1000000000 <= 0.5.
Proof. rewrite example_stamp_10_4. lra. Qed.

(** [example_node] broadcasts both markers of [two_marker_image], rejects
    marker 7 and fuses marker 5. *)
Lemma two_marker_image_runs :
  image_callback two_marker_image example_node = Ok tt example_node two_marker_effects.
Proof.
  rewrite (image_callback_processed _ _ two_marker_image_processed).
  assert (H7 : process_marker two_marker_image (mkMarker 7 (pose_at 1 0 0)) example_node
               = Ok tt example_node
                   [SendTransform (marker_transform two_marker_image (mkMarker 7 (pose_at 1 0 0)));
                    Log INFO (NotInTargetTagIds "7")]).
  { apply (process_marker_of_publish _ _ _ NotTarget). apply path_NotTarget.
    intros H%list_elem_of_singleton. discriminate H. }
  assert (H5 : process_marker two_marker_image (mkMarker 5 (pose_at 2 0 0)) example_node
               = Ok tt example_node
                   [SendTransform (marker_transform two_marker_image (mkMarker 5 (pose_at 2 0 0)));
                    PublishPose
                      (fused_message (pose_at 10 0 0) (example_detection 10 400000000 2 0 0)
                         example_transform
                         (map (Rmult (covariance_coeff (example_detection 10 400000000 2 0 0)))
                            (take 36 example_covariance)))]).
  { apply (process_marker_of_publish _ _ _ Published).
    apply (configured_node_publishes 20 0.5 example_covariance 10 400000000 2);
      [lra | apply example_fresh | lra | vm_compute; lia]. }
  assert (Hloop : for_each (process_marker two_marker_image) (detected two_marker_image)
                     example_node
                   = Ok tt example_node
                       ([SendTransform
                           (marker_transform two_marker_image (mkMarker 7 (pose_at 1 0 0)));
                         Log INFO (NotInTargetTagIds "7")] ++
                        [SendTransform
                           (marker_transform two_marker_image (mkMarker 5 (pose_at 2 0 0)));
                         PublishPose
                           (fused_message (pose_at 10 0 0) (example_detection 10 400000000 2 0 0)
                              example_transform
                              (map (Rmult (covariance_coeff
                                             (example_detection 10 400000000 2 0 0)))
                                 (take 36 example_covariance)))] ++ [])).
  { change (detected two_marker_image)
      with [mkMarker 7 (pose_at 1 0 0); mkMarker 5 (pose_at 2 0 0)].
    cbv beta iota delta [for_each mbind M_bind]. rewrite H7, H5. reflexivity. }
  rewrite Hloop. reflexivity.
Qed.

Lemma cam_info_first_wins_witness :
  (∃ n',
     for_each cam_info_callback [example_camera_info; mkCameraInfo (replicate 12 1) 1 1]
       fresh_node
     = Ok tt n' [] ∧
     camera_matrix (cam_param_ n') = cam_p example_camera_info ∧
     cam_width (cam_param_ n') = 640%Z ∧ cam_height (cam_param_ n') = 480%Z) ∧
  (∃ n',
     for_each cam_info_callback [mkCameraInfo (replicate 12 1) 4294967295 2147483648]
       fresh_node
     = Ok tt n' [] ∧
     cam_width (cam_param_ n') = (-1)%Z ∧ cam_height (cam_param_ n') = (-2147483648)%Z).
Proof.
  split.
  - destruct (cam_info_first_wins example_camera_info [mkCameraInfo (replicate 12 1) 1 1]
                fresh_node eq_refl) as (Hrun & Hmatrix & Hw & Hh & _).
    eexists. split; [exact Hrun|]. split; [exact (Hmatrix eq_refl)|].
    split; [apply Hw | apply Hh]; cbn [example_camera_info width height]; lia.
  - destruct (cam_info_first_wins (mkCameraInfo (replicate 12 1) 4294967295 2147483648) []
                fresh_node eq_refl) as (Hrun & _ & _ & _ & Hw & Hh & _).
    eexists. split; [exact Hrun|].
    split; [apply Hw | apply Hh]; cbn [width height]; lia.
Defined.

Lemma image_callback_early_returns_witness :
  image_callback unheard_image example_node = Ok tt example_node [Log DEBUG NoSubscribers] ∧
  image_callback example_image fresh_node = Ok tt fresh_node [Log DEBUG NoCamInfo] ∧
  image_callback undecodable_image example_node
  = Ok tt example_node [Log ERROR CvBridgeException].
Proof.
  split; [|split].
  - apply (proj1 (image_callback_early_returns unheard_image example_node)); reflexivity.
  - apply (proj1 (proj2 (image_callback_early_returns example_image fresh_node)));
      [right; discriminate | reflexivity].
  - apply (proj2 (proj2 (image_callback_early_returns undecodable_image example_node)));
      [right; discriminate | reflexivity | reflexivity].
Defined.

Lemma image_callback_diagnostics_witness :
  (∃ out0,
     two_marker_effects = out0 ++ [PublishDiagnostics (mkTime 10 450000000) DIAG_OK 2] ∧
     Forall (λ e, is_PublishDiagnostics e = false) out0) ∧
  (PublishImage (mkTime 10 400000000) ∈ two_marker_effects ↔ (0 < 1)%nat).
Proof.
  exact (image_callback_diagnostics two_marker_image example_node example_node
           two_marker_effects two_marker_image_processed two_marker_image_runs).
Defined.

Lemma image_callback_broadcasts_witness :
  filter (λ e, is_SendTransform e = true) two_marker_effects
  = [SendTransform (marker_transform two_marker_image (mkMarker 7 (pose_at 1 0 0)));
     SendTransform (marker_transform two_marker_image (mkMarker 5 (pose_at 2 0 0)))].
Proof.
  exact (proj1 (image_callback_broadcasts two_marker_image example_node example_node
                  two_marker_effects two_marker_image_processed two_marker_image_runs)).
Defined.

Lemma image_callback_keeps_node_witness :
  (length (filter (λ e, is_PublishPose e = true) two_marker_effects) ≤ 2)%nat ∧
  ∃ marker,
    marker ∈ detected two_marker_image ∧
    pretty (id marker) ∈ target_tag_ids_ example_node ∧
    header (fused_message (pose_at 10 0 0) (example_detection 10 400000000 2 0 0)
              example_transform
              (map (Rmult (covariance_coeff (example_detection 10 400000000 2 0 0)))
                 (take 36 example_covariance)))
    = mkHeader (mkTime 10 400000000) "map".
Proof.
  destruct (image_callback_keeps_node two_marker_image example_node tt example_node
              two_marker_effects two_marker_image_runs) as (_ & Hcount & Hposes).
  split; [exact Hcount|].
  destruct (Hposes
              (fused_message (pose_at 10 0 0) (example_detection 10 400000000 2 0 0)
                 example_transform
                 (map (Rmult (covariance_coeff (example_detection 10 400000000 2 0 0)))
                    (take 36 example_covariance))))
    as (marker & Hin & _ & Htarget & Hheader).
  { unfold two_marker_effects. do 3 right. left. }
  exists marker. split; [exact Hin | split; [exact Htarget | exact Hheader]].
Defined.

Lemma stale_image_fuses_nothing_witness :
  ∃ out, image_callback late_image example_node = Ok tt example_node out ∧
         Forall not_PublishPose out.
Proof.
  apply (stale_image_fuses_nothing late_image example_node).
  change (IZR (10 * 1000000000 + 600000000 - 10000000000) / 1000000000 > 0.5).
  rewrite example_stamp_10_6. lra.
Defined.

Lemma map_reload_replaces_registry_witness :
  for_each map_bin_callback [{[ "5" := pose_at 10 0 0 ]}; {[ "6" := pose_at 1 1 0 ]}]
    example_node
  = Ok tt (set_landmark_map_ {[ "6" := pose_at 1 1 0 ]} example_node)
      [PublishMarkerArray {[ "5" := pose_at 10 0 0 ]};
       PublishMarkerArray {[ "6" := pose_at 1 1 0 ]}] ∧
  publish_pose_as_base_link (example_detection 10 400000000 2 0 0) "5"
    (set_landmark_map_ {[ "6" := pose_at 1 1 0 ]} example_node)
  = Ok NotInMap (set_landmark_map_ {[ "6" := pose_at 1 1 0 ]} example_node)
      [Log INFO (NotInLandmarkMap "5")].
Proof.
  destruct (map_reload_replaces_registry [{[ "5" := pose_at 10 0 0 ]}]
              {[ "6" := pose_at 1 1 0 ]} example_node) as [Hrun Hreject].
  split; [exact Hrun|].
  apply Hreject; [left | now apply lookup_singleton_ne].
Defined.

Lemma two_events_run :
  spin [ImageIn two_marker_image; TfIn other_buffer] example_node
  = Ok tt (set_tf_buffer_ other_buffer example_node) (two_marker_effects ++ []).
Proof.
  unfold spin. cbn [for_each].
  apply (bind_Ok _ _ _ tt example_node two_marker_effects).
  - unfold deliver. cbv [mbind M_bind mret M_ret get].
    cbn [example_node configured_node image_sub_].
    change (configured_node 20 0.5 example_covariance) with example_node.
    rewrite two_marker_image_runs. reflexivity.
  - reflexivity.
Qed.

Lemma callbacks_keep_configuration_witness :
  configuration (set_tf_buffer_ other_buffer example_node) = configuration example_node ∧
  subscriptions (set_tf_buffer_ other_buffer example_node) = subscriptions example_node ∧
  cam_param_ (set_tf_buffer_ other_buffer example_node) = cam_param_ example_node ∧
  landmark_map_ (set_tf_buffer_ other_buffer example_node) = landmark_map_ example_node ∧
  latest_ekf_pose_ (set_tf_buffer_ other_buffer example_node) = latest_ekf_pose_ example_node.
Proof.
  destruct (callbacks_keep_configuration _ _ _ _ _ two_events_run)
    as (Hconf & Hsubs & Hcam & Hmap & Hekf).
  split; [exact Hconf|]. split; [exact Hsubs|].
  split; [exact (proj2 (Hcam eq_refl))|].
  split; [apply Hmap | apply Hekf]; repeat constructor.
Defined.

Lemma unit_turned_transform : unit_quaternion (tf_rotation (transform turned_transform)).
Proof.
  unfold unit_quaternion, turned_transform. cbn [transform tf_rotation q_x q_y q_z q_w]. lra.
Qed.

Lemma unit_turned_detection : unit_quaternion (orientation (ps_pose turned_detection)).
Proof.
  unfold unit_quaternion, turned_detection. cbn [ps_pose orientation q_x q_y q_z q_w]. lra.
Qed.

(** Where the turned detection of the landmark at (10, 0, 0) puts the body. *)
Lemma turned_position :
  position (map_to_base_link (pose_at 10 0 0) turned_detection turned_transform)
  = mkPoint 7.72 (-0.96) 0.
Proof.
  rewrite (map_to_base_link_mapToBody _ _ _ unit_turned_transform unit_turned_detection).
  unfold toMsg. cbn [position]. unfold mapToBody.
  change (translation (affine_mul ?a (affine_inverse ?b)))
    with (vec_add (mat_vec (linear a)
                     (vec_opp (mat_vec (mat_inverse (linear b)) (translation b))))
                  (translation a)).
  rewrite (linear_bodyToLandmark _ _ unit_turned_transform unit_turned_detection),
          (mat_inverse_toRotationMatrix _
             (unit_quat_mul _ _ unit_turned_transform unit_turned_detection)).
  cbv [bodyToLandmark transformToEigen fromMsg affine_mul turned_transform turned_detection
       pose_at Quaternion_default mat_vec vec_add vec_opp toRotationMatrix quat_conj quat_mul
       linear translation transform tf_translation tf_rotation ps_pose position orientation
       p_x p_y p_z v_x v_y v_z q_x q_y q_z q_w
       m00 m01 m02 m10 m11 m12 m20 m21 m22].
  f_equal; lra.
Qed.

Lemma turned_node_publishes :
  publish_pose_as_base_link turned_detection "5" turned_node
  = Ok Published turned_node
      [PublishPose
         (fused_message (pose_at 10 0 0) turned_detection turned_transform
            (map (Rmult (covariance_coeff turned_detection)) (take 36 example_covariance)))].
Proof.
  apply (all_checks_publish turned_detection "5" turned_node (pose_at 10 0 0)
           turned_transform).
  - left.
  - reflexivity.
  - unfold distance_squared, turned_detection.
    cbn [turned_node set_latest_ekf_pose_ set_tf_buffer_ example_node configured_node
         distance_threshold_squared_ position ps_pose p_x p_y p_z]. lra.
  - reflexivity.
  - change (IZR (10 * 1000000000 + 400000000 - 10000000000) / 1000000000 <= 0.5).
    apply example_fresh.
  - unfold diff_position. rewrite turned_position.
    change (position (pose (pose_cov (latest_ekf_pose_ turned_node))))
      with (mkPoint 7.72 (-0.96) 0).
    rewrite norm_same.
    cbn [turned_node set_latest_ekf_pose_ ekf_position_tolerance_ set_tf_buffer_ example_node
         configured_node]. lra.
  - vm_compute. lia.
Qed.

(** The composition of the turned scenario, by quaternion algebra. *)
Lemma turned_expected :
  mapToBody_pose (pose_at 10 0 0) (transform turned_transform) (ps_pose turned_detection)
  = mkPose (mkPoint 7.72 (-0.96) 0) (mkQuaternion (- (4 / 5)) (- (3 / 5)) 0 0).
Proof.
  cbv [mapToBody_pose compose invert rotate Pose_of_Transform quat_mul quat_conj pose_at
       Quaternion_default turned_transform turned_detection transform tf_translation
       tf_rotation ps_pose position orientation p_x p_y p_z q_x q_y q_z q_w].
  f_equal; f_equal; lra.
Qed.

Lemma fused_pose_is_composition_witness :
  (∃ msg,
     publish_pose_as_base_link turned_detection "5" turned_node
     = Ok Published turned_node [PublishPose msg] ∧
     position (pose (pose_cov msg)) = mkPoint 7.72 (-0.96) 0 ∧
     (orientation (pose (pose_cov msg)) = mkQuaternion (- (4 / 5)) (- (3 / 5)) 0 0 ∨
      orientation (pose (pose_cov msg))
      = quat_opp (mkQuaternion (- (4 / 5)) (- (3 / 5)) 0 0))) ∧
  (∃ msg,
     publish_pose_as_base_link (example_detection 10 400000000 2 0 0) "5" example_node
     = Ok Published example_node [PublishPose msg] ∧
     pose (pose_cov msg)
     = toMsg (mapToBody (pose_at 10 0 0) Transform_Identity (pose_at 2 0 0))) ∧
  (∃ msg,
     publish_pose_as_base_link (example_detection 10 400000000 2 0 0) "5" example_node
     = Ok Published example_node [PublishPose msg] ∧
     pose (pose_cov msg) = pose_at 8 0 0).
Proof.
  assert (Hs : diff_time (example_detection 10 400000000 2 0 0) example_node
               <= ekf_time_tolerance_ example_node).
  { unfold example_node. rewrite example_diff_time, example_stamp_10_4.
    cbn [configured_node ekf_time_tolerance_]. lra. }
  split; [|split].
  - destruct (proj1 fused_pose_is_composition turned_detection "5"%string turned_node
                (pose_at 10 0 0) turned_transform)
      as (msg & Hrun & _ & _ & Hexpected).
    + left.
    + reflexivity.
    + unfold distance_squared, turned_detection.
      cbn [turned_node set_latest_ekf_pose_ set_tf_buffer_ example_node configured_node
           distance_threshold_squared_ position ps_pose p_x p_y p_z]. lra.
    + reflexivity.
    + change (IZR (10 * 1000000000 + 400000000 - 10000000000) / 1000000000 <= 0.5).
      apply example_fresh.
    + unfold diff_position. rewrite turned_position.
      change (position (pose (pose_cov (latest_ekf_pose_ turned_node))))
        with (mkPoint 7.72 (-0.96) 0).
      rewrite norm_same.
      cbn [turned_node set_latest_ekf_pose_ ekf_position_tolerance_ set_tf_buffer_
           example_node configured_node]. lra.
    + vm_compute. lia.
    + destruct (Hexpected unit_Quaternion_default unit_turned_transform
                  unit_turned_detection) as (Hpos & Hori & _).
      rewrite turned_expected in Hpos, Hori.
      exists msg. split; [exact Hrun|]. split; [exact Hpos | exact Hori].
  - destruct (proj1 fused_pose_is_composition
                (example_detection 10 400000000 2 0 0) "5"%string example_node
                (pose_at 10 0 0) example_transform)
      as (msg & Hrun & _ & Hpose & _).
    + left.
    + reflexivity.
    + apply example_range. lra.
    + reflexivity.
    + exact Hs.
    + unfold example_node. rewrite example_diff_position.
      cbn [configured_node ekf_position_tolerance_].
      replace ((2 - 2) ^ 2) with 0 by lra. rewrite sqrt_0. lra.
    + vm_compute. lia.
    + exists msg. split; [exact Hrun|].
      apply Hpose; apply unit_Quaternion_default.
  - apply (proj2 fused_pose_is_composition
             (example_detection 10 400000000 2 0 0) example_node example_transform).
    + left.
    + reflexivity.
    + reflexivity.
    + reflexivity.
    + reflexivity.
    + reflexivity.
    + simpl. lra.
    + exact Hs.
    + simpl. lra.
    + vm_compute. lia.
Defined.

Lemma fused_pose_places_the_tag_witness :
  affine_mul
    (pose_to_affine3d (map_to_base_link (pose_at 10 0 0) turned_detection turned_transform))
    (bodyToLandmark (transform turned_transform) (ps_pose turned_detection))
  = pose_to_affine3d (pose_at 10 0 0) ∧
  unit_quaternion
    (orientation (map_to_base_link (pose_at 10 0 0) turned_detection turned_transform)) ∧
  0 <= q_w (orientation
              (map_to_base_link (pose_at 10 0 0) turned_detection turned_transform)).
Proof.
  apply (fused_pose_places_the_tag turned_detection "5" turned_node
           (fused_message (pose_at 10 0 0) turned_detection turned_transform
              (map (Rmult (covariance_coeff turned_detection)) (take 36 example_covariance)))
           (pose_at 10 0 0) turned_transform).
  - rewrite turned_node_publishes. left.
  - reflexivity.
  - reflexivity.
  - apply unit_Quaternion_default.
  - apply unit_turned_transform.
  - apply unit_turned_detection.
Defined.

Lemma covariance_grows_beyond_5m_witness :
  covariance_coeff (example_detection 10 0 3 0 0) = 1 ∧
  covariance_coeff (example_detection 10 0 10 0 0)
  = (sqrt (distance_squared (example_detection 10 0 10 0 0)) / 5) ^ 3 ∧
  covariance_coeff (example_detection 10 0 3 0 0)
  <= covariance_coeff (example_detection 10 0 10 0 0).
Proof.
  destruct (covariance_grows_beyond_5m (example_detection 10 0 3 0 0)
              (example_detection 10 0 10 0 0)) as (Hone & _ & Hmono).
  destruct (covariance_grows_beyond_5m (example_detection 10 0 10 0 0)
              (example_detection 10 0 3 0 0)) as (_ & Hcube & _).
  assert (H3 : distance_squared (example_detection 10 0 3 0 0) = 9).
  { unfold distance_squared, example_detection, pose_at. cbn [position ps_pose p_x p_y p_z]. lra. }
  assert (H10 : distance_squared (example_detection 10 0 10 0 0) = 100).
  { unfold distance_squared, example_detection, pose_at. cbn [position ps_pose p_x p_y p_z]. lra. }
  split; [apply Hone; lra|]. split; [apply Hcube; lra | apply Hmono; lra].
Defined.

Lemma short_covariance_is_fatal_witness :
  publish_pose_as_base_link (example_detection 10 400000000 2 0 0) "5"
    (configured_node 20 0.5 []) = Fault ∧
  ∃ v out,
    publish_pose_as_base_link (example_detection 10 400000000 30 0 0) "5"
      (configured_node 20 0.5 [])
    = Ok v (configured_node 20 0.5 []) out ∧ v ≠ Published.
Proof.
  split.
  - apply (proj1 (short_covariance_is_fatal (example_detection 10 400000000 2 0 0) "5"
                    (configured_node 20 0.5 []))).
    split; [|cbn; lia].
    intros g; destruct g; cbn [admissible].
    + left.
    + eexists. reflexivity.
    + unfold distance_squared, configured_node, example_detection, pose_at;
        cbn [position ps_pose p_x p_y p_z distance_threshold_squared_]. lra.
    + eexists. reflexivity.
    + rewrite example_diff_time, example_stamp_10_4.
      cbn [configured_node ekf_time_tolerance_]. lra.
    + intros c Hc.
      rewrite (candidate_Some (configured_node 20 0.5 [])
                 (example_detection 10 400000000 2 0 0) "5" (pose_at 10 0 0)
                 example_transform eq_refl eq_refl) in Hc.
      injection Hc as <-.
      change (¬ diff_position (pose_at 10 0 0) (example_detection 10 400000000 2 0 0)
                  example_transform (configured_node 20 0.5 []) > 1).
      rewrite example_diff_position.
      replace ((2 - 2) ^ 2) with 0 by lra. rewrite sqrt_0. lra.
  - apply (proj1 (proj2 (short_covariance_is_fatal (example_detection 10 400000000 30 0 0) "5"
                           (configured_node 20 0.5 [])))).
    exists RangeCheck. cbn [admissible].
    unfold distance_squared, configured_node, example_detection, pose_at;
      cbn [position ps_pose p_x p_y p_z distance_threshold_squared_]. lra.
Defined.

Lemma fused_pose_ignores_reference_witness :
  fused_message (pose_at 10 0 0) (example_detection 10 400000000 2 0 0) example_transform
    (map (Rmult (covariance_coeff (example_detection 10 400000000 2 0 0)))
       (take 36 (base_covariance_ (set_latest_ekf_pose_ other_reference example_node))))
  = fused_message (pose_at 10 0 0) (example_detection 10 400000000 2 0 0) example_transform
      (map (Rmult (covariance_coeff (example_detection 10 400000000 2 0 0)))
         (take 36 example_covariance)).
Proof.
  apply (fused_pose_ignores_reference (example_detection 10 400000000 2 0 0) "5" example_node
           other_reference).
  - unfold example_node.
    rewrite (configured_node_publishes 20 0.5 example_covariance 10 400000000 2);
      [left | lra | apply example_fresh | lra | vm_compute; lia].
  - rewrite (all_checks_publish (example_detection 10 400000000 2 0 0) "5"
               (set_latest_ekf_pose_ other_reference example_node)
               (pose_at 10 0 0) example_transform); [left | left | reflexivity | | reflexivity | | |].
    + apply (example_range 10 400000000 2). lra.
    + change (IZR (10 * 1000000000 + 400000000 - (10 * 1000000000 + 200000000)) / 1000000000
              <= 0.5).
      change (10 * 1000000000 + 400000000 - (10 * 1000000000 + 200000000))%Z
        with 200000000%Z. lra.
    + unfold diff_position. rewrite example_candidate.
      unfold norm, pose_at, other_reference.
      cbn [set_latest_ekf_pose_ latest_ekf_pose_ ekf_position_tolerance_ example_node
           configured_node position pose pose_cov p_x p_y p_z].
      unfold pose_at. cbn [position p_x p_y p_z].
      apply sqrt_le_1; nra.
    + vm_compute. lia.
Defined.

Lemma poses_come_from_images_witness :
  ∃ msg marker,
    ImageIn msg ∈ [ImageIn two_marker_image; TfIn other_buffer] ∧
    marker ∈ detected msg ∧
    pretty (id marker) ∈ target_tag_ids_ example_node ∧
    header (fused_message (pose_at 10 0 0) (example_detection 10 400000000 2 0 0)
              example_transform
              (map (Rmult (covariance_coeff (example_detection 10 400000000 2 0 0)))
                 (take 36 example_covariance)))
    = mkHeader (stamp (image_header msg)) "map".
Proof.
  apply (poses_come_from_images [ImageIn two_marker_image; TfIn other_buffer] example_node tt
           (set_tf_buffer_ other_buffer example_node) (two_marker_effects ++ [])).
  - apply two_events_run.
  - unfold two_marker_effects. do 3 right. left.
Defined.
